(** * Device-type import with elevation images: a shallow embedding

    Embedding of [jobs/enhanced_device_import.py]: the slug generator
    [slugify_device_name], the image resolver [find_elevation_image] and the
    importer [import_device_type_with_images], with the properties the
    specification states about them. *)

From Stdlib Require Import List NArith ZArith Bool String Ascii Lia Permutation.
Import ListNotations.

Set Implicit Arguments.

(** ** Python strings

    A Python [str] is a sequence of Unicode code points. *)

Module Str.

Definition pystr := list N.

(** A string literal of the source, as code points. *)
Definition lit (s : string) : pystr := map N_of_ascii (list_ascii_of_string s).

Definition eqb (a b : pystr) : bool :=
  if list_eq_dec N.eq_dec a b then true else false.

Definition mem (k : pystr) (l : list pystr) : bool := existsb (eqb k) l.

(** Code points the source names. *)
Definition SPACE : N := 32.
Definition HYPHEN : N := 45.
Definition UNDERSCORE : N := 95.

Definition in_range (lo hi c : N) : bool := (lo <=? c)%N && (c <=? hi)%N.

(** [a-z], [0-9], [A-Z] *)
Definition is_lower (c : N) : bool := in_range 97 122 c.
Definition is_digit (c : N) : bool := in_range 48 57 c.
Definition is_upper (c : N) : bool := in_range 65 90 c.
Definition is_ascii (c : N) : bool := (c <? 128)%N.

(** [\s] of a [str] pattern: the code points for which Python's Unicode
    database says whitespace (the ASCII ones include the separators
    0x1c..0x1f). *)
Definition is_space (c : N) : bool :=
  in_range 9 13 c || in_range 28 32 c || (c =? 133)%N || (c =? 160)%N
  || (c =? 5760)%N || in_range 8192 8202 c || (c =? 8232)%N || (c =? 8233)%N
  || (c =? 8239)%N || (c =? 8287)%N || (c =? 12288)%N.

(** What [str.lower] does to an ASCII code point. *)
Definition ascii_lower (c : N) : N := if is_upper c then (c + 32)%N else c.

(** *** The three shapes of [re.sub] the source uses

    [re.sub] scans left to right; at each position it tries the pattern; a
    match is replaced and scanning resumes after it, otherwise the
    character is copied. *)

(** [re.sub('[C]+', repl, s)]: a match starts at a character of the class
    and is greedy, it takes the whole run. *)
Fixpoint re_sub_plus (cls : N -> bool) (repl : pystr) (s : pystr) : pystr :=
  match s with
  | [] => []
  | c :: t => if cls c then repl ++ consume cls repl t
              else c :: re_sub_plus cls repl t
  end
with consume (cls : N -> bool) (repl : pystr) (r : pystr) : pystr :=
  match r with
  | [] => []
  | c :: t => if cls c then consume cls repl t
              else c :: re_sub_plus cls repl t
  end.

(** [re.sub('[C]', repl, s)]: every character of the class is a match. *)
Fixpoint re_sub_class (cls : N -> bool) (repl : pystr) (s : pystr) : pystr :=
  match s with
  | [] => []
  | c :: t => if cls c then repl ++ re_sub_class cls repl t
              else c :: re_sub_class cls repl t
  end.

(** [s.lstrip(chars)], [s.rstrip(chars)], [s.strip(chars)] *)
Fixpoint lstrip (chars : N -> bool) (s : pystr) : pystr :=
  match s with
  | [] => []
  | c :: t => if chars c then lstrip chars t else s
  end.

Definition rstrip (chars : N -> bool) (s : pystr) : pystr :=
  rev (lstrip chars (rev s)).

Definition strip (chars : N -> bool) (s : pystr) : pystr :=
  rstrip chars (lstrip chars s).

End Str.

Import Str.

(** ** Slug generator *)

Module Slug.

(** The character classes of the three patterns. *)
Definition space_or_underscore (c : N) : bool := is_space c || (c =? UNDERSCORE)%N.
Definition is_hyphen (c : N) : bool := (c =? HYPHEN)%N.
Definition slug_char (c : N) : bool := is_lower c || is_digit c || is_hyphen c.
Definition not_slug_char (c : N) : bool := negb (slug_char c).

Section Slugify.

(** [str.lower], a function of the whole string (its Unicode case mapping is
    context dependent), taken from the Python runtime. *)
Variable str_lower : pystr -> pystr.

(** [slugify_device_name(manufacturer_name, model_name)] *)
Definition slugify_device_name (manufacturer_name model_name : pystr) : pystr :=
  let combined := manufacturer_name ++ lit " " ++ model_name in
  let slug := str_lower combined in
  let slug := re_sub_plus space_or_underscore (lit "-") slug in
  let slug := re_sub_class not_slug_char (lit "") slug in
  let slug := re_sub_plus is_hyphen (lit "-") slug in
  let slug := strip is_hyphen slug in
  slug.

End Slugify.

(** The ASCII fragment of [str.lower]. *)
Definition lower_ascii_only (s : pystr) : pystr := map ascii_lower s.

(** *** The shape of a slug *)

Definition leading_hyphen (s : pystr) : Prop := exists t, s = HYPHEN :: t.
Definition trailing_hyphen (s : pystr) : Prop := exists t, s = t ++ [HYPHEN].
Definition doubled_hyphen (s : pystr) : Prop :=
  exists l r, s = l ++ HYPHEN :: HYPHEN :: r.

Record well_formed_slug (s : pystr) : Prop := {
  wf_chars : Forall (fun c => slug_char c = true) s;
  wf_no_leading : ~ leading_hyphen s;
  wf_no_trailing : ~ trailing_hyphen s;
  wf_no_doubled : ~ doubled_hyphen s
}.

(** Two hyphens next to each other, decided. *)
Fixpoint adjacent_hyphens (s : pystr) : bool :=
  match s with
  | [] => false
  | c :: t => (is_hyphen c && match t with c' :: _ => is_hyphen c' | [] => false end)
              || adjacent_hyphens t
  end.

(** [str.lower] on a string of ASCII characters only. *)
Definition lowers_ascii (str_lower : pystr -> pystr) : Prop :=
  forall s, forallb is_ascii s = true -> str_lower s = map ascii_lower s.

(** *** The algorithm as the specification words it

    Each step is written from the sentence that describes it, without
    [re.sub]; [slugify_spec] is compared with [slugify_device_name] below. *)

(** "collapse any run of [C] characters into a single hyphen": a character
    of the class that is followed by another one of the class disappears,
    the last one of the run becomes the hyphen. *)
Fixpoint collapse_runs (cls : N -> bool) (s : pystr) : pystr :=
  match s with
  | [] => []
  | c :: t =>
      if cls c then
        match t with
        | c' :: _ => if cls c' then collapse_runs cls t else HYPHEN :: collapse_runs cls t
        | [] => [HYPHEN]
        end
      else c :: collapse_runs cls t
  end.

(** "delete any character that is not a lowercase ASCII letter, digit, or
    hyphen" *)
Definition keep_slug_chars (s : pystr) : pystr :=
  filter (fun c => is_lower c || is_digit c || (c =? HYPHEN)%N) s.

(** "trim leading/trailing hyphens" *)
Fixpoint trim_leading (s : pystr) : pystr :=
  match s with
  | c :: t => if (c =? HYPHEN)%N then trim_leading t else s
  | [] => []
  end.

Fixpoint trim_trailing (s : pystr) : pystr :=
  match s with
  | [] => []
  | c :: t =>
      match trim_trailing t with
      | [] => if (c =? HYPHEN)%N then [] else [c]
      | t' => c :: t'
      end
  end.

Definition slugify_spec (lower : pystr -> pystr) (manufacturer model : pystr) : pystr :=
  trim_trailing
    (trim_leading
       (collapse_runs (fun c => (c =? HYPHEN)%N)
          (keep_slug_chars
             (collapse_runs (fun c => is_space c || (c =? UNDERSCORE)%N)
                (lower (manufacturer ++ [SPACE] ++ model)))))).

End Slug.

(** ** Python values

    The parsed YAML document: a [dict] whose values are scalars, lists and
    dicts.  A dict keeps its items in insertion order and holds each key
    once; looking a key up in the item list takes the first item. *)

Module Py.

#[warnings="-register-all"]
Inductive value : Type :=
| VNone
| VBool (b : bool)
| VNum (z : Z)
| VStr (s : pystr)
| VList (items : list value)
| VDict (entries : list (pystr * value)).

Definition pydict := list (pystr * value).

Fixpoint dict_lookup (k : pystr) (d : pydict) : option value :=
  match d with
  | [] => None
  | (k', v) :: rest => if eqb k k' then Some v else dict_lookup k rest
  end.

(** [k in d] *)
Definition dict_contains (k : pystr) (d : pydict) : bool :=
  match dict_lookup k d with Some _ => true | None => false end.

(** [d.get(k)] *)
Definition dict_get (k : pystr) (d : pydict) : value :=
  match dict_lookup k d with Some v => v | None => VNone end.

(** [d[k] = v]: an existing key keeps its position. *)
Fixpoint dict_set (k : pystr) (v : value) (d : pydict) : pydict :=
  match d with
  | [] => [(k, v)]
  | (k', v') :: rest => if eqb k k' then (k, v) :: rest else (k', v') :: dict_set k v rest
  end.

Definition dict_keys (d : pydict) : list pystr := map fst d.

(** Truth value of an object in [if x:]. *)
Definition truthy (v : value) : bool :=
  match v with
  | VNone => false
  | VBool b => b
  | VNum z => negb (z =? 0)%Z
  | VStr s => match s with [] => false | _ => true end
  | VList l => match l with [] => false | _ => true end
  | VDict d => match d with [] => false | _ => true end
  end.

End Py.

Import Py.

(** ** Paths ([os.path] on POSIX) *)

Module Path.

Definition SEP : N := 47.

Definition startswith_sep (p : pystr) : bool :=
  match p with c :: _ => (c =? SEP)%N | [] => false end.

Definition endswith_sep (p : pystr) : bool :=
  match rev p with c :: _ => (c =? SEP)%N | [] => false end.

(** One step of [os.path.join]: an absolute component discards what came
    before; otherwise a separator is inserted unless the path is empty or
    already ends with one. *)
Definition join2 (path b : pystr) : pystr :=
  if startswith_sep b then b
  else if match path with [] => true | _ => endswith_sep path end then path ++ b
  else path ++ [SEP] ++ b.

(** [os.path.join(a, *p)] *)
Definition join (a : pystr) (p : list pystr) : pystr := fold_left join2 p a.

(** [os.path.basename(p)]: what follows the last separator. *)
Fixpoint basename (p : pystr) : pystr :=
  match p with
  | [] => []
  | c :: t => if existsb (fun x => (x =? SEP)%N) p
              then basename t
              else p
  end.

End Path.

(** ** Image resolver *)

Module Resolver.

Record GitRepository := { filesystem_path : pystr }.

Definition extensions : list pystr :=
  [lit ".png"; lit ".jpg"; lit ".jpeg"; lit ".svg"].

Section Resolve.

Variable str_lower : pystr -> pystr.

(** [os.path.exists], the state of the file system. *)
Variable path_exists : pystr -> bool.

(** The [for ext in extensions] loop of [find_elevation_image]: the first
    candidate that exists is returned. *)
Fixpoint probe (elevation_dir slug image_type : pystr) (exts : list pystr)
  : option pystr :=
  match exts with
  | [] => None
  | ext :: rest =>
      let filename := slug ++ lit "." ++ image_type ++ ext in
      let full_path := Path.join elevation_dir [filename] in
      if path_exists full_path then Some full_path
      else probe elevation_dir slug image_type rest
  end.

(** [find_elevation_image(git_repo, manufacturer_name, model_name, image_type)] *)
Definition find_elevation_image (git_repo : GitRepository)
  (manufacturer_name model_name image_type : pystr) : option pystr :=
  let repo_path := filesystem_path git_repo in
  let slug := Slug.slugify_device_name str_lower manufacturer_name model_name in
  let elevation_dir :=
    Path.join repo_path [lit "elevation-images"; manufacturer_name] in
  if negb (path_exists elevation_dir) then None
  else probe elevation_dir slug image_type extensions.

(** Names for the paths the function builds: the directory it looks in
    and the candidate file of one extension. *)
Definition elevation_dir (git_repo : GitRepository) (manufacturer_name : pystr) : pystr :=
  Path.join (filesystem_path git_repo) [lit "elevation-images"; manufacturer_name].

Definition candidate (git_repo : GitRepository)
  (manufacturer_name model_name image_type ext : pystr) : pystr :=
  Path.join (elevation_dir git_repo manufacturer_name)
    [Slug.slugify_device_name str_lower manufacturer_name model_name
     ++ lit "." ++ image_type ++ ext].

End Resolve.

End Resolver.

(** ** Importer: data model *)

Module Model.

(** The component template classes of [nautobot.dcim.models]. *)
Inductive component_class : Type :=
| ConsolePortTemplate
| ConsoleServerPortTemplate
| PowerPortTemplate
| PowerOutletTemplate
| InterfaceTemplate
| RearPortTemplate
| FrontPortTemplate
| DeviceBayTemplate
| ModuleBayTemplate.

(** [COMPONENTS], an [OrderedDict]: the items in insertion order. *)
Definition COMPONENTS : list (pystr * component_class) :=
  [ (lit "console-ports", ConsolePortTemplate);
    (lit "console-server-ports", ConsoleServerPortTemplate);
    (lit "power-ports", PowerPortTemplate);
    (lit "power-outlets", PowerOutletTemplate);
    (lit "interfaces", InterfaceTemplate);
    (lit "rear-ports", RearPortTemplate);
    (lit "front-ports", FrontPortTemplate);
    (lit "device-bays", DeviceBayTemplate);
    (lit "module-bays", ModuleBayTemplate) ].

Definition STRIP_KEYWORDS : list (pystr * list pystr) :=
  [ (lit "interfaces", [lit "poe_mode"; lit "poe_type"]) ].

(** [STRIP_KEYWORDS.get(key, [])] *)
Definition strip_keywords_get (key : pystr) : list pystr :=
  match find (fun kv => eqb key (fst kv)) STRIP_KEYWORDS with
  | Some kv => snd kv
  | None => []
  end.

(** [custom_field_mapping], a dict literal: the items in source order. *)
Definition custom_field_mapping : list (pystr * pystr) :=
  [ (lit "cf_slug", lit "slug");
    (lit "cf_weight", lit "weight");
    (lit "cf_weight_unit", lit "weight_unit");
    (lit "cf_airflow", lit "airflow");
    (lit "cf_front_image", lit "front_image");
    (lit "cf_rear_image", lit "rear_image") ].

(** Rows of the persistence layer, with the columns the import reads or
    writes.  A foreign key holds the primary key of its target. *)
Record Manufacturer := { mf_pk : N; mf_name : pystr }.

Record DeviceType := {
  dt_pk : N;
  dt_manufacturer : N;
  dt_model : pystr;
  dt_front_image : option pystr;
  dt_rear_image : option pystr;
  dt_cf : pydict
}.

Record ComponentTemplate := {
  ct_class : component_class;
  ct_device_type : N;
  ct_fields : pydict
}.

Inductive side : Type := Front | Rear.

Definition side_name (sd : side) : pystr :=
  match sd with Front => lit "front" | Rear => lit "rear" end.

Definition flag_key (sd : side) : pystr :=
  match sd with Front => lit "front_image" | Rear => lit "rear_image" end.

(** Exceptions.  Every one of them is a subclass of [Exception]. *)
Inductive model_class : Type := ManufacturerModel | DeviceTypeModel.

Inductive error_text : Type :=
| AlreadyExists (model : value) (manufacturer : Manufacturer)
| Text (s : string).

Inductive exn : Type :=
| ValueError (msg : error_text)
| TypeError
| AttributeError
| DoesNotExist (cls : model_class)
| MultipleObjectsReturned (cls : model_class)
| IntegrityError
| ValidationError
| OSError.

(** The error the specification calls DuplicateDeviceTypeError is the
    [ValueError] of the existence check. *)
Definition is_ValueError (e : exn) : bool :=
  match e with ValueError _ => true | _ => false end.

(** Log records: level, message template and its arguments. *)
Inductive level : Type := INFO | WARNING.

Inductive message : Type :=
| CreatedDeviceType (manufacturer : Manufacturer) (model : value) (obj : DeviceType)
| CreatedComponents (n : nat) (key : pystr) (model : value)
| ImportedImage (sd : side) (name : pystr)
| FailedImage (sd : side) (e : exn)
| ImageNotFound (sd : side) (manufacturer_name model : value)
| SetCustomFields (keys : list pystr)
| FailedCustomFields (e : exn).

Inductive Logger : Type := JobLogger.

(** What the import can change: the tables, the media storage that holds
    the copied image bytes, and what the logger has received. *)
Record world := {
  manufacturers : list Manufacturer;
  device_types : list DeviceType;
  templates : list ComponentTemplate;
  media : list (pystr * list N);
  journal : list (level * message)
}.

Definition set_device_types (l : list DeviceType) (w : world) : world :=
  {| manufacturers := manufacturers w; device_types := l;
     templates := templates w; media := media w; journal := journal w |}.

Definition set_templates (l : list ComponentTemplate) (w : world) : world :=
  {| manufacturers := manufacturers w; device_types := device_types w;
     templates := l; media := media w; journal := journal w |}.

Definition set_media (l : list (pystr * list N)) (w : world) : world :=
  {| manufacturers := manufacturers w; device_types := device_types w;
     templates := templates w; media := l; journal := journal w |}.

Definition set_journal (l : list (level * message)) (w : world) : world :=
  {| manufacturers := manufacturers w; device_types := device_types w;
     templates := templates w; media := media w; journal := l |}.

(** The Python object bound to [devtype], next to the persisted world: the
    object is mutated in place and keeps its changes when a later call
    raises. *)
Record frame := { persisted : world; devtype : DeviceType }.

Definition set_image (sd : side) (name : pystr) (d : DeviceType) : DeviceType :=
  match sd with
  | Front => {| dt_pk := dt_pk d; dt_manufacturer := dt_manufacturer d;
                dt_model := dt_model d; dt_front_image := Some name;
                dt_rear_image := dt_rear_image d; dt_cf := dt_cf d |}
  | Rear => {| dt_pk := dt_pk d; dt_manufacturer := dt_manufacturer d;
               dt_model := dt_model d; dt_front_image := dt_front_image d;
               dt_rear_image := Some name; dt_cf := dt_cf d |}
  end.

Definition set_cf (cf : pydict) (d : DeviceType) : DeviceType :=
  {| dt_pk := dt_pk d; dt_manufacturer := dt_manufacturer d;
     dt_model := dt_model d; dt_front_image := dt_front_image d;
     dt_rear_image := dt_rear_image d; dt_cf := cf |}.

(** *** Calls: a result or an exception, and the state they leave *)

Inductive outcome (A : Type) : Type :=
| Returned (a : A)
| Raised (e : exn).

Arguments Returned {A} a.
Arguments Raised {A} e.

Definition M (St A : Type) : Type := St -> outcome A * St.

Definition ret {St A} (a : A) : M St A := fun s => (Returned a, s).

Definition raise {St A} (e : exn) : M St A := fun s => (Raised e, s).

Definition bind {St A B} (m : M St A) (k : A -> M St B) : M St B :=
  fun s => match m s with
           | (Returned a, s') => k a s'
           | (Raised e, s') => (Raised e, s')
           end.

(** [try: body except Exception as e: handler] *)
Definition try_except {St A} (body : M St A) (handler : exn -> M St A) : M St A :=
  fun s => match body s with
           | (Returned a, s') => (Returned a, s')
           | (Raised e, s') => handler e s'
           end.

(** A value computed without the state. *)
Definition lift {St A} (r : outcome A) : M St A := fun s => (r, s).

(** A call that touches the persisted world only. *)
Definition on_world {A} (m : M world A) : M frame A :=
  fun f => let (r, w) := m (persisted f) in
           (r, {| persisted := w; devtype := devtype f |}).

Definition get_object : M frame DeviceType := fun f => (Returned (devtype f), f).

Definition modify_object (g : DeviceType -> DeviceType) : M frame unit :=
  fun f => (Returned tt, {| persisted := persisted f; devtype := g (devtype f) |}).

(** Run [body] with [obj] bound to [devtype]; the result is the object as
    [body] leaves it. *)
Definition with_object {A} (obj : DeviceType) (body : M frame A) : M world DeviceType :=
  fun w => match body {| persisted := w; devtype := obj |} with
           | (Returned _, f) => (Returned (devtype f), persisted f)
           | (Raised e, f) => (Raised e, persisted f)
           end.

(** A call that leaves the state related to the one it started from,
    whether it returns or raises; a call that never raises. *)
Definition preserves {St A} (R : St -> St -> Prop) (m : M St A) : Prop :=
  forall s, R s (snd (m s)).

Definition returns {St A} (m : M St A) : Prop :=
  forall s, exists a, fst (m s) = Returned a.

End Model.

Import Model.

Declare Scope py_scope.
Delimit Scope py_scope with py.
Notation "x <- c ;; k" := (bind c (fun x => k))
  (at level 61, c at next level, right associativity) : py_scope.
Notation "c ;;; k" := (bind c (fun _ => k))
  (at level 61, right associativity) : py_scope.
Open Scope py_scope.

(** ** Importer: the pipeline *)

Module Importer.

(** The collaborators of the import: the Python runtime, the file system,
    the form and the persistence layer.  Each failure they can answer with
    is theirs to decide; what a successful call changes is written out
    below. *)
Record Collaborators := {
  (** [str.lower] *)
  str_lower : pystr -> pystr;
  (** [format(v)] of a value that is not a [str] *)
  py_str : value -> pystr;
  (** [os.path.exists] *)
  path_exists : pystr -> bool;
  (** [open(path, 'rb')] and the bytes the file yields *)
  file_open : pystr -> outcome (list N);
  (** [DeviceTypeImportForm(data).save()]: the row the form creates, or the
      exception of validation or of the insert *)
  form_save : pydict -> world -> outcome DeviceType;
  (** [component_class(device_type=..., **kwargs)] rejecting its arguments *)
  init_error : component_class -> DeviceType -> pydict -> option exn;
  (** [component_class.objects.bulk_create] failing *)
  bulk_create_error : component_class -> list ComponentTemplate -> world -> option exn;
  (** the storage behind an image field: the name the bytes are kept under *)
  storage_save : pystr -> list N -> world -> outcome pystr;
  (** [devtype.save()] failing *)
  save_error : DeviceType -> world -> option exn
}.

Section Pipeline.

Variable env : Collaborators.

(** [logger.info] / [logger.warning] under [if logger:] *)
Definition emit (logger : option Logger) (lv : level) (msg : message) : M world unit :=
  fun w => match logger with
           | Some _ => (Returned tt, set_journal (journal w ++ [(lv, msg)]) w)
           | None => (Returned tt, w)
           end.

(** A [CharField] compared with a lookup value, as the ORM prepares it:
    [None] matches no row (the lookup is IS NULL, on a column that is never
    null), a [str] is compared as it is, and any other value is converted
    with [str()] first ([str] and [format] agree on the values of a
    document). *)
Definition text_matches (v : value) (s : pystr) : bool :=
  match v with
  | VNone => false
  | VStr s' => eqb s' s
  | _ => eqb (py_str env v) s
  end.

(** [objects.get(...)]: exactly one row, or [DoesNotExist], or
    [MultipleObjectsReturned]. *)
Definition objects_get {A} (cls : model_class) (rows : list A) : outcome A :=
  match rows with
  | [] => Raised (DoesNotExist cls)
  | [row] => Returned row
  | _ => Raised (MultipleObjectsReturned cls)
  end.

(** [Manufacturer.objects.get(name=name)] *)
Definition Manufacturer_objects_get (name : value) : M world Manufacturer :=
  fun w => (objects_get ManufacturerModel
              (filter (fun m => text_matches name (mf_name m)) (manufacturers w)), w).

(** [DeviceType.objects.get(model=model, manufacturer=manufacturer)] *)
Definition DeviceType_objects_get (model : value) (manufacturer : Manufacturer)
  : M world DeviceType :=
  fun w => (objects_get DeviceTypeModel
              (filter (fun d => text_matches model (dt_model d)
                                && (dt_manufacturer d =? mf_pk manufacturer)%N)
                 (device_types w)), w).

(** [with contextlib.suppress(cls.DoesNotExist): body] *)
Definition suppress_DoesNotExist (cls : model_class) (body : M world unit) : M world unit :=
  try_except body
    (fun e => match e, cls with
              | DoesNotExist ManufacturerModel, ManufacturerModel => ret tt
              | DoesNotExist DeviceTypeModel, DeviceTypeModel => ret tt
              | _, _ => raise e
              end).

(** Lines 127-133: the existence check. *)
Definition check_not_existing (model : value) (manufacturer : Manufacturer) : M world unit :=
  suppress_DoesNotExist DeviceTypeModel
    (_ <- DeviceType_objects_get model manufacturer ;;
     raise (ValueError (AlreadyExists model manufacturer))).

(** Lines 136-137: the form creates and persists the base record. *)
Definition DeviceTypeImportForm_save (data : pydict) : M world DeviceType :=
  fun w => match form_save env data w with
           | Returned d => (Returned d, set_device_types (device_types w ++ [d]) w)
           | Raised e => (Raised e, w)
           end.

(** [obj.save()]: update the row with this primary key, insert it when there
    is none. *)
Definition upsert (obj : DeviceType) (rows : list DeviceType) : list DeviceType :=
  if existsb (fun d => (dt_pk d =? dt_pk obj)%N) rows
  then map (fun d => if (dt_pk d =? dt_pk obj)%N then obj else d) rows
  else rows ++ [obj].

Definition model_save (obj : DeviceType) : M world unit :=
  fun w => match save_error env obj w with
           | Some e => (Raised e, w)
           | None => (Returned tt, set_device_types (upsert obj (device_types w)) w)
           end.

(** *** Components (lines 143-155) *)

(** [for item in v]: a list yields its items, a dict its keys, a string its
    characters; anything else is not iterable. *)
Definition iterate (v : value) : outcome (list value) :=
  match v with
  | VList items => Returned items
  | VDict entries => Returned (map (fun kv => VStr (fst kv)) entries)
  | VStr s => Returned (map (fun c => VStr [c]) s)
  | _ => Raised TypeError
  end.

(** [{k: v for k, v in item.items() if k not in STRIP_KEYWORDS.get(key, [])}] *)
Definition strip_fields (key : pystr) (fields : pydict) : pydict :=
  filter (fun kv => negb (mem (fst kv) (strip_keywords_get key))) fields.

(** One element of the list comprehension. *)
Definition build_component (key : pystr) (cls : component_class)
  (devtype : DeviceType) (item : value) : outcome ComponentTemplate :=
  match item with
  | VDict fields =>
      let kwargs := strip_fields key fields in
      match init_error env cls devtype kwargs with
      | Some e => Raised e
      | None => Returned {| ct_class := cls;
                            ct_device_type := dt_pk devtype;
                            ct_fields := kwargs |}
      end
  | _ => Raised AttributeError
  end.

(** The comprehension evaluates its elements in order and stops at the
    first that raises. *)
Fixpoint comprehension {A B} (f : A -> outcome B) (items : list A) : outcome (list B) :=
  match items with
  | [] => Returned []
  | x :: rest =>
      match f x with
      | Raised e => Raised e
      | Returned y =>
          match comprehension f rest with
          | Raised e => Raised e
          | Returned ys => Returned (y :: ys)
          end
      end
  end.

Definition component_list (key : pystr) (cls : component_class)
  (devtype : DeviceType) (v : value) : outcome (list ComponentTemplate) :=
  match iterate v with
  | Raised e => Raised e
  | Returned items => comprehension (build_component key cls devtype) items
  end.

(** [component_class.objects.bulk_create(component_list)] *)
Definition bulk_create (cls : component_class)
  (objs : list ComponentTemplate) : M world unit :=
  fun w => match bulk_create_error env cls objs w with
           | Some e => (Raised e, w)
           | None => (Returned tt, set_templates (templates w ++ objs) w)
           end.

(** The body of [for key, component_class in COMPONENTS.items()]. *)
Definition materialize (data : pydict) (devtype : DeviceType) (logger : option Logger)
  (model : value) (entry : pystr * component_class) : M world unit :=
  let (key, cls) := entry in
  match dict_lookup key data with
  | Some v =>
      objs <- lift (component_list key cls devtype v) ;;
      bulk_create cls objs ;;;
      emit logger INFO (CreatedComponents (List.length objs) key model)
  | None => ret tt
  end.

Fixpoint for_each {St A} (body : A -> M St unit) (l : list A) : M St unit :=
  match l with
  | [] => ret tt
  | x :: rest => body x ;;; for_each body rest
  end.

Definition import_components (data : pydict) (devtype : DeviceType)
  (logger : option Logger) (model : value) : M world unit :=
  for_each (materialize data devtype logger model) COMPONENTS.

(** *** Images (lines 158-199) *)

(** [f"{v}"]: a [str] formats as itself. *)
Definition format_value (v : value) : pystr :=
  match v with VStr s => s | _ => py_str env v end.

(** The call [find_elevation_image(git_repo, manufacturer_name, model, ...)]
    on the values of the document: the f-string of the slug formats both,
    [os.path.join] refuses a manufacturer name that is not a [str]. *)
Definition call_find_elevation_image (git_repo : Resolver.GitRepository)
  (manufacturer_name model : value) (image_type : pystr) : outcome (option pystr) :=
  match manufacturer_name with
  | VStr m =>
      Returned (Resolver.find_elevation_image (str_lower env) (path_exists env)
                  git_repo m (format_value model) image_type)
  | _ => Raised TypeError
  end.

(** [devtype.<side>_image.save(name, File(img_file), save=True)]: the storage
    keeps the bytes, the field of the object takes the stored name, then the
    object is saved. *)
Definition image_field_save (sd : side) (name : pystr) (content : list N) : M frame unit :=
  stored <- on_world (fun w =>
              match storage_save env name content w with
              | Returned stored => (Returned stored, set_media (media w ++ [(stored, content)]) w)
              | Raised e => (Raised e, w)
              end) ;;
  modify_object (set_image sd stored) ;;;
  obj <- get_object ;;
  on_world (model_save obj).

(** The [try] statement of one image: its body, and the statement with its
    [except Exception] handler. *)
Definition attach_body (sd : side) (image_path : pystr) (logger : option Logger)
  : M frame unit :=
  img_file <- lift (file_open env image_path) ;;
  image_field_save sd (Path.basename image_path) img_file ;;;
  on_world (emit logger INFO (ImportedImage sd (Path.basename image_path))).

Definition attach_image (sd : side) (image_path : pystr) (logger : option Logger)
  : M frame unit :=
  try_except (attach_body sd image_path logger)
    (fun e => on_world (emit logger WARNING (FailedImage sd e))).

(** "Handle front image" and "Handle rear image": the same statements, on
    the flag [front_image] with ['front'] and on [rear_image] with ['rear']. *)
Definition handle_image (sd : side) (data : pydict) (git_repo : Resolver.GitRepository)
  (manufacturer_name model : value) (logger : option Logger) : M frame unit :=
  if truthy (dict_get (flag_key sd) data) then
    image_path <- lift (call_find_elevation_image git_repo manufacturer_name model
                          (side_name sd)) ;;
    match image_path with
    | Some (c :: p) => attach_image sd (c :: p) logger
    | _ => on_world (emit logger WARNING (ImageNotFound sd manufacturer_name model))
    end
  else ret tt.

Definition import_images (data : pydict) (git_repo : option Resolver.GitRepository)
  (logger : option Logger) (model : value) : M frame unit :=
  match git_repo with
  | Some repo =>
      let manufacturer_name := dict_get (lit "manufacturer") data in
      handle_image Front data repo manufacturer_name model logger ;;;
      handle_image Rear data repo manufacturer_name model logger
  | None => ret tt
  end.

(** *** Custom fields (lines 201-227) *)

(** The loop that fills [cf_data]. *)
Definition stage_custom_fields (data : pydict) : pydict :=
  fold_left
    (fun cf_data entry =>
       let '(cf_key, data_key) := entry in
       match dict_lookup data_key data with
       | Some v => dict_set cf_key v cf_data
       | None => cf_data
       end)
    custom_field_mapping [].

(** [for cf_key, value in cf_data.items(): devtype.cf[cf_key] = value] *)
Definition apply_custom_fields (cf_data : pydict) (d : DeviceType) : DeviceType :=
  fold_left (fun d kv => set_cf (dict_set (fst kv) (snd kv) (dt_cf d)) d) cf_data d.

Definition backfill (data : pydict) (logger : option Logger) : M frame unit :=
  let cf_data := stage_custom_fields data in
  match cf_data with
  | [] => ret tt
  | _ :: _ =>
      try_except
        (modify_object (apply_custom_fields cf_data) ;;;
         obj <- get_object ;;
         on_world (model_save obj) ;;;
         on_world (emit logger INFO (SetCustomFields (dict_keys cf_data))))
        (fun e => on_world (emit logger WARNING (FailedCustomFields e)))
  end.

(** *** [import_device_type_with_images(data, git_repo, logger)] *)

Definition import_device_type_with_images (data : pydict)
  (git_repo : option Resolver.GitRepository) (logger : option Logger)
  : M world DeviceType :=
  manufacturer <- Manufacturer_objects_get (dict_get (lit "manufacturer") data) ;;
  let model := dict_get (lit "model") data in
  check_not_existing model manufacturer ;;;
  devtype <- DeviceTypeImportForm_save data ;;
  emit logger INFO (CreatedDeviceType manufacturer model devtype) ;;;
  import_components data devtype logger model ;;;
  with_object devtype
    (import_images data git_repo logger model ;;;
     backfill data logger).

(** The statements of the import before the images (lines 124-155), to
    speak of the state the image and custom-field statements start from. *)
Definition create_with_components (data : pydict) (logger : option Logger)
  : M world DeviceType :=
  manufacturer <- Manufacturer_objects_get (dict_get (lit "manufacturer") data) ;;
  let model := dict_get (lit "model") data in
  check_not_existing model manufacturer ;;;
  devtype <- DeviceTypeImportForm_save data ;;
  emit logger INFO (CreatedDeviceType manufacturer model devtype) ;;;
  import_components data devtype logger model ;;;
  ret devtype.

End Pipeline.

(** The uniqueness constraints of the persistence layer: manufacturer names,
    and the (manufacturer, model) pairs of the device types. *)
Record unique_keys (w : world) : Prop := {
  unique_manufacturer_name : NoDup (map mf_name (manufacturers w));
  unique_manufacturer_model :
    NoDup (map (fun d => (dt_manufacturer d, dt_model d)) (device_types w))
}.

(** The components leave the device types alone. *)
Definition same_device_types (w w' : world) : Prop :=
  device_types w' = device_types w.

(** What the statements after the components may do to the world and to
    the object: the component and manufacturer tables stay, the object
    keeps its primary key, no row of the device types disappears, the
    journal grows at its end. *)
Record enriches (f f' : frame) : Prop := {
  same_templates : templates (persisted f') = templates (persisted f);
  same_manufacturers : manufacturers (persisted f') = manufacturers (persisted f);
  same_pk : dt_pk (devtype f') = dt_pk (devtype f);
  rows_kept : forall pk, In pk (map dt_pk (device_types (persisted f))) ->
                         In pk (map dt_pk (device_types (persisted f')));
  journal_grows : exists l, journal (persisted f') = journal (persisted f) ++ l
}.

End Importer.

(** ** Concrete documents, worlds and collaborators

    The inputs on which the statements below are evaluated. *)

Module Fixtures.

Import Importer.

(** A repository with the directory of "Palo Alto" and nothing in it. *)
Definition empty_dir_exists (p : pystr) : bool :=
  eqb p (lit "/repo/elevation-images/Palo Alto").

(** A repository that holds both a .png and a .jpg front image. *)
Definition png_and_jpg_exist (p : pystr) : bool :=
  eqb p (lit "/repo/elevation-images/Palo Alto")
  || eqb p (lit "/repo/elevation-images/Palo Alto/palo-alto-pa-850.front.jpg")
  || eqb p (lit "/repo/elevation-images/Palo Alto/palo-alto-pa-850.front.png").

Definition repo : Resolver.GitRepository :=
  {| Resolver.filesystem_path := lit "/repo" |}.

Definition palo_alto : Manufacturer := {| mf_pk := 1; mf_name := lit "Palo Alto" |}.

Definition pa850 : DeviceType :=
  {| dt_pk := 7; dt_manufacturer := 1; dt_model := lit "PA-850";
     dt_front_image := None; dt_rear_image := None; dt_cf := [] |}.

(** Only the manufacturer is registered. *)
Definition fresh_world : world :=
  {| manufacturers := [palo_alto]; device_types := []; templates := [];
     media := []; journal := [] |}.

(** The device type is there already. *)
Definition world_with_pa850 : world :=
  {| manufacturers := [palo_alto]; device_types := [pa850]; templates := [];
     media := []; journal := [] |}.

Definition eth1 : pydict :=
  [ (lit "name", VStr (lit "ethernet1/1"));
    (lit "type", VStr (lit "1000base-t"));
    (lit "poe_mode", VStr (lit "pd")) ].

Definition eth2 : pydict :=
  [ (lit "name", VStr (lit "ethernet1/2"));
    (lit "poe_type", VStr (lit "type2-ieee802.3at"));
    (lit "type", VStr (lit "1000base-t")) ].

Definition pa850_yaml : pydict :=
  [ (lit "manufacturer", VStr (lit "Palo Alto"));
    (lit "model", VStr (lit "PA-850"));
    (lit "u_height", VNum 1);
    (lit "interfaces", VList [VDict eth1; VDict eth2]);
    (lit "console-ports", VList [VDict [(lit "name", VStr (lit "console"))]]);
    (lit "front_image", VBool true);
    (lit "weight", VNum 5) ].

(** Collaborators that never fail: the form creates row 7 for the named
    manufacturer, the repository holds a .png and a .jpg front image. *)
Definition calm : Collaborators :=
  {| str_lower := Slug.lower_ascii_only;
     py_str := fun _ => lit "None";
     path_exists := png_and_jpg_exist;
     file_open := fun _ => Returned [137; 80; 78; 71]%N;
     form_save := fun _ _ => Returned pa850;
     init_error := fun _ _ _ => None;
     bulk_create_error := fun _ _ _ => None;
     storage_save := fun name _ _ => Returned (lit "devicetype-images/" ++ name);
     save_error := fun _ _ => None |}.

(** The insert loses the race: the uniqueness constraint refuses it. *)
Definition racing : Collaborators :=
  {| str_lower := str_lower calm; py_str := py_str calm;
     path_exists := path_exists calm; file_open := file_open calm;
     form_save := fun _ _ => Raised IntegrityError;
     init_error := init_error calm; bulk_create_error := bulk_create_error calm;
     storage_save := storage_save calm; save_error := save_error calm |}.

(** The image file is there and cannot be read. *)
Definition unreadable : Collaborators :=
  {| str_lower := str_lower calm; py_str := py_str calm;
     path_exists := path_exists calm; file_open := fun _ => Raised OSError;
     form_save := form_save calm;
     init_error := init_error calm; bulk_create_error := bulk_create_error calm;
     storage_save := storage_save calm; save_error := save_error calm |}.

(** Saving the device type is refused. *)
Definition unsavable : Collaborators :=
  {| str_lower := str_lower calm; py_str := py_str calm;
     path_exists := path_exists calm; file_open := file_open calm;
     form_save := form_save calm;
     init_error := init_error calm; bulk_create_error := bulk_create_error calm;
     storage_save := storage_save calm;
     save_error := fun _ _ => Some ValidationError |}.

End Fixtures.

(** ** What the import keeps

    Relations between the state before a call and the state after it, for
    the statements about what the import never does. *)

Module Keeps.

Import Importer.

(** A path component with a separator in it. *)
Definition has_sep (p : pystr) : bool := existsb (fun x => (x =? Path.SEP)%N) p.

(** Nothing is deleted: the manufacturers stay as they are; the primary
    keys of the device types, the components, the stored files and the
    journal grow at their end. *)
Record never_deletes (w w' : world) : Prop := {
  nd_manufacturers : manufacturers w' = manufacturers w;
  nd_device_types :
    exists l, map dt_pk (device_types w') = map dt_pk (device_types w) ++ l;
  nd_templates : exists l, templates w' = templates w ++ l;
  nd_media : exists l, media w' = media w ++ l;
  nd_journal : exists l, journal w' = journal w ++ l
}.

(** A relation on the world, seen from a frame. *)
Definition on_persisted (R : world -> world -> Prop) (f f' : frame) : Prop :=
  R (persisted f) (persisted f').

(** The components added all belong to [devtype]. *)
Definition adds_components_of (devtype : DeviceType) (w w' : world) : Prop :=
  exists l, templates w' = templates w ++ l
            /\ Forall (fun c => ct_device_type c = dt_pk devtype) l.

(** The object keeps what [columns] reads of it. *)
Definition same_columns {A} (columns : DeviceType -> A) (f f' : frame) : Prop :=
  columns (devtype f') = columns (devtype f).

(** The primary key, the manufacturer and the model of a device type. *)
Definition identity (d : DeviceType) : N * N * pystr :=
  (dt_pk d, dt_manufacturer d, dt_model d).

(** The two image columns of a device type. *)
Definition images (d : DeviceType) : option pystr * option pystr :=
  (dt_front_image d, dt_rear_image d).

(** The stored files stay as they are. *)
Definition same_media (f f' : frame) : Prop :=
  media (persisted f') = media (persisted f).

(** The world once the form has created the row [d] and the creation is
    logged: where the components start from. *)
Definition after_creation (logger : option Logger) (m : Manufacturer)
  (model : value) (d : DeviceType) (w : world) : world :=
  snd (emit logger INFO (CreatedDeviceType m model d)
         (set_device_types (device_types w ++ [d]) w)).

(** A value that [for item in v] does not accept. *)
Definition not_iterable (v : value) : bool :=
  match v with VNone | VBool _ | VNum _ => true | _ => false end.

Definition is_dict (v : value) : bool :=
  match v with VDict _ => true | _ => false end.

End Keeps.

(** ** More documents and collaborators *)

Module MoreFixtures.

Import Importer Fixtures.

(** The interfaces are refused by [bulk_create]; everything else passes. *)
Definition refusing_interfaces : Collaborators :=
  {| str_lower := str_lower calm; py_str := py_str calm;
     path_exists := path_exists calm; file_open := file_open calm;
     form_save := form_save calm;
     init_error := init_error calm;
     bulk_create_error :=
       fun cls _ _ => match cls with
                      | InterfaceTemplate => Some ValidationError
                      | _ => None
                      end;
     storage_save := storage_save calm; save_error := save_error calm |}.

(** A document whose [interfaces] key has no value. *)
Definition null_interfaces_yaml : pydict :=
  [ (lit "manufacturer", VStr (lit "Palo Alto"));
    (lit "model", VStr (lit "PA-850"));
    (lit "interfaces", VNone) ].

(** A document without any component kind and without image flags. *)
Definition bare_yaml : pydict :=
  [ (lit "manufacturer", VStr (lit "Palo Alto"));
    (lit "model", VStr (lit "PA-850"));
    (lit "u_height", VNum 1) ].

(** A document of a manufacturer that is not registered. *)
Definition cisco_yaml : pydict :=
  [ (lit "manufacturer", VStr (lit "Cisco"));
    (lit "model", VStr (lit "C9300")) ].

(** Documents whose manufacturer and model are numbers: YAML reads
    [manufacturer: 3] and [model: 2960] as integers.  [str()] is given for
    the values these documents hold. *)
Definition m3 : Manufacturer := {| mf_pk := 3; mf_name := lit "3" |}.

Definition c2960 : DeviceType :=
  {| dt_pk := 9; dt_manufacturer := 3; dt_model := lit "2960";
     dt_front_image := None; dt_rear_image := None; dt_cf := [] |}.

Definition x1 : DeviceType :=
  {| dt_pk := 10; dt_manufacturer := 3; dt_model := lit "X1";
     dt_front_image := None; dt_rear_image := None; dt_cf := [] |}.

Definition numbered_world : world :=
  {| manufacturers := [m3]; device_types := [c2960]; templates := [];
     media := []; journal := [] |}.

Definition formatting : Collaborators :=
  {| str_lower := str_lower calm;
     py_str := fun v => match v with
                        | VNum 3 => lit "3"
                        | VNum 2960 => lit "2960"
                        | VBool true => lit "True"
                        | VBool false => lit "False"
                        | _ => lit "None"
                        end;
     path_exists := path_exists calm; file_open := file_open calm;
     form_save := fun _ _ => Returned x1;
     init_error := init_error calm; bulk_create_error := bulk_create_error calm;
     storage_save := storage_save calm; save_error := save_error calm |}.

(** The device type 2960 of manufacturer 3, once more. *)
Definition numbered_duplicate_yaml : pydict :=
  [ (lit "manufacturer", VNum 3); (lit "model", VNum 2960) ].

(** A new device type of manufacturer 3, with a front image. *)
Definition numbered_new_yaml : pydict :=
  [ (lit "manufacturer", VNum 3); (lit "model", VStr (lit "X1"));
    (lit "front_image", VBool true) ].

End MoreFixtures.

(** ** The two jobs *)

Module Jobs.

Import Importer.

(** A row of [welcome_wizard.models.importer.DeviceTypeImport]. *)
Record DeviceTypeImport := { dti_filename : pystr; device_type_data : pydict }.

(** What the job methods send to [self.logger]. *)
Inductive job_level : Type := JobInfo | JobWarning | JobError.

Inductive job_message : Type :=
| ManufacturerSaved (created : bool) (obj : Manufacturer)
| DeviceTypeFileNotFound (device_type : pystr)
| GitRepositoryNotFound
| UnableToImport (device_type : pystr) (manufacturer_name : value) (exc : exn)
| SuccessfullyImported (model : value) (obj : DeviceType).

(** The state a job runs in: the world of the import, the imported device
    type files in their default order, the Git repositories by slug, and
    the records the job methods themselves have logged (the records
    [import_device_type_with_images] logs are in the journal of [db]). *)
Record site := {
  db : world;
  device_type_imports : list DeviceTypeImport;
  git_repositories : list (pystr * Resolver.GitRepository);
  job_journal : list (job_level * job_message)
}.

Definition set_db (w : world) (s : site) : site :=
  {| db := w; device_type_imports := device_type_imports s;
     git_repositories := git_repositories s; job_journal := job_journal s |}.

Definition job_log (lv : job_level) (msg : job_message) (s : site) : site :=
  {| db := db s; device_type_imports := device_type_imports s;
     git_repositories := git_repositories s;
     job_journal := job_journal s ++ [(lv, msg)] |}.

(** How [run] ends: it returns, or an exception leaves it. *)
Inductive job_exn : Type :=
| Propagated (e : exn)
| GitRepository_MultipleObjectsReturned.

Inductive job_outcome : Type :=
| Completed
| Failed (e : job_exn).

(** The persistence layer creating a manufacturer: the primary key it
    gives, and the insert it may refuse. *)
Record Provisioning := {
  new_manufacturer_pk : world -> N;
  manufacturer_create_error : pystr -> world -> option exn
}.

Definition set_manufacturers (l : list Manufacturer) (w : world) : world :=
  {| manufacturers := l; device_types := device_types w;
     templates := templates w; media := media w; journal := journal w |}.

Section Run.

Variable env : Collaborators.
Variable prov : Provisioning.

(** [Manufacturer.objects.update_or_create(name=name)], without defaults:
    the one row of that name is returned as it is; without such a row one
    is created, and a null name is refused by the column; several rows
    raise. *)
Definition Manufacturer_objects_update_or_create (name : value)
  : M world (Manufacturer * bool) :=
  fun w =>
    match filter (fun m => text_matches env name (mf_name m)) (manufacturers w) with
    | [] =>
        match name with
        | VNone => (Raised IntegrityError, w)
        | _ =>
            let text := format_value env name in
            match manufacturer_create_error prov text w with
            | Some e => (Raised e, w)
            | None =>
                let manufacturer :=
                  {| mf_pk := new_manufacturer_pk prov w; mf_name := text |} in
                (Returned (manufacturer, true),
                 set_manufacturers (manufacturers w ++ [manufacturer]) w)
            end
        end
    | [manufacturer] => (Returned (manufacturer, false), w)
    | _ => (Raised (MultipleObjectsReturned ManufacturerModel), w)
    end.

(** [WelcomeWizardImportManufacturer.run(manufacturer_name)] *)
Definition WelcomeWizardImportManufacturer_run (manufacturer_name : pystr)
  : site -> job_outcome * site :=
  fun s =>
    match Manufacturer_objects_update_or_create (VStr manufacturer_name) (db s) with
    | (Returned (manufacturer, created), w) =>
        (Completed, job_log JobInfo (ManufacturerSaved created manufacturer) (set_db w s))
    | (Raised e, w) => (Failed (Propagated e), set_db w s)
    end.

(** [WelcomeWizardImportDeviceType.run(filename)] *)
Definition WelcomeWizardImportDeviceType_run (filename : pystr)
  : site -> job_outcome * site :=
  fun s =>
    let device_type := match filename with [] => lit "none.yaml" | _ => filename end in
    match find (fun r => eqb device_type (dti_filename r)) (device_type_imports s) with
    | None => (Completed, job_log JobError (DeviceTypeFileNotFound device_type) s)
    | Some device_type_import =>
        let device_type_data := device_type_data device_type_import in
        let manufacturer_name := dict_get (lit "manufacturer") device_type_data in
        match Manufacturer_objects_update_or_create manufacturer_name (db s) with
        | (Raised e, w) => (Failed (Propagated e), set_db w s)
        | (Returned _, w) =>
            let s := set_db w s in
            match filter (fun r => eqb (lit "devicetype_library") (fst r))
                    (git_repositories s) with
            | _ :: _ :: _ => (Failed GitRepository_MultipleObjectsReturned, s)
            | rows =>
                let (git_repo, s) :=
                  match rows with
                  | r :: _ => (Some (snd r), s)
                  | [] => (None, job_log JobWarning GitRepositoryNotFound s)
                  end in
                match import_device_type_with_images env device_type_data git_repo
                        (Some JobLogger) (db s) with
                | (Raised e, w) =>
                    let s := set_db w s in
                    (Failed (Propagated e),
                     if is_ValueError e
                     then job_log JobError
                            (UnableToImport device_type manufacturer_name e) s
                     else s)
                | (Returned devtype, w) =>
                    (Completed,
                     job_log JobInfo
                       (SuccessfullyImported (dict_get (lit "model") device_type_data)
                          devtype)
                       (set_db w s))
                end
            end
        end
    end.

End Run.

End Jobs.

(** ** Job fixtures *)

Module JobFixtures.

Import Importer Jobs Fixtures.

Definition provisioning : Provisioning :=
  {| new_manufacturer_pk := fun w => (N.of_nat (List.length (manufacturers w)) + 1)%N;
     manufacturer_create_error := fun _ _ => None |}.

Definition pa850_file : DeviceTypeImport :=
  {| dti_filename := lit "PA-850.yaml"; device_type_data := pa850_yaml |}.

(** Nothing registered yet; the file is known, the repository is cloned. *)
Definition empty_site : site :=
  {| db := {| manufacturers := []; device_types := []; templates := [];
              media := []; journal := [] |};
     device_type_imports := [pa850_file];
     git_repositories := [(lit "devicetype_library", repo)];
     job_journal := [] |}.

(** The device type of the file is imported already. *)
Definition site_with_pa850 : site :=
  {| db := world_with_pa850;
     device_type_imports := [pa850_file];
     git_repositories := [(lit "devicetype_library", repo)];
     job_journal := [] |}.

End JobFixtures.

(** * Properties *)

(** ** Strings and regular-expression substitutions *)

Module StrFacts.

Lemma eqb_eq a b : eqb a b = true <-> a = b.
Proof. unfold eqb; destruct (list_eq_dec N.eq_dec a b); split; congruence. Qed.

Lemma eqb_refl a : eqb a a = true.
Proof. now apply eqb_eq. Qed.

Lemma re_sub_plus_cons cls repl c t :
  re_sub_plus cls repl (c :: t)
  = if cls c then repl ++ consume cls repl t else c :: re_sub_plus cls repl t.
Proof. reflexivity. Qed.

Lemma consume_cons cls repl c t :
  consume cls repl (c :: t)
  = if cls c then consume cls repl t else c :: re_sub_plus cls repl t.
Proof. reflexivity. Qed.

Lemma rstrip_snoc chars s c :
  rstrip chars (s ++ [c]) = if chars c then rstrip chars s else s ++ [c].
Proof.
  unfold rstrip. rewrite rev_app_distr. simpl.
  destruct (chars c); [reflexivity|].
  simpl. now rewrite rev_involutive.
Qed.

End StrFacts.

(** ** Slug generator *)

Module SlugFacts.

Import Slug StrFacts.

(** *** The source against the algorithm of the specification *)

Lemma re_sub_plus_collapse cls s :
  re_sub_plus cls [HYPHEN] s = Slug.collapse_runs cls s
  /\ HYPHEN :: consume cls [HYPHEN] s
     = match s with
       | c' :: _ => if cls c' then Slug.collapse_runs cls s
                    else HYPHEN :: Slug.collapse_runs cls s
       | [] => [HYPHEN]
       end.
Proof.
  induction s as [|c t [IH1 IH2]]; [now split|].
  rewrite re_sub_plus_cons, consume_cons. cbn [Slug.collapse_runs].
  destruct (cls c) eqn:Ec.
  - cbn [app]. rewrite IH2. split; reflexivity.
  - rewrite IH1. split; reflexivity.
Qed.

Lemma re_sub_class_keep s :
  re_sub_class not_slug_char [] s = keep_slug_chars s.
Proof.
  unfold keep_slug_chars.
  induction s as [|c t IH]; [reflexivity|].
  cbn [re_sub_class filter]. rewrite IH.
  unfold not_slug_char, slug_char, is_hyphen.
  now destruct (is_lower c || is_digit c || (c =? HYPHEN)%N).
Qed.

Lemma lstrip_trim_leading s : lstrip is_hyphen s = trim_leading s.
Proof.
  induction s as [|c t IH]; [reflexivity|].
  cbn [lstrip trim_leading]. rewrite IH. reflexivity.
Qed.

Lemma trim_trailing_snoc s c :
  trim_trailing (s ++ [c]) = if (c =? HYPHEN)%N then trim_trailing s else s ++ [c].
Proof.
  induction s as [|a t IH]; cbn [app trim_trailing].
  - now destruct (c =? HYPHEN)%N.
  - rewrite IH. destruct (c =? HYPHEN)%N; [reflexivity|].
    destruct (t ++ [c]) eqn:E; [|reflexivity].
    now destruct t.
Qed.

Lemma rstrip_trim_trailing s : rstrip is_hyphen s = trim_trailing s.
Proof.
  induction s as [|c t IH] using rev_ind; [reflexivity|].
  rewrite rstrip_snoc, trim_trailing_snoc, IH. reflexivity.
Qed.

(** Step by step, the source computes what the specification describes. *)
Lemma slugify_refines str_lower m d :
  slugify_device_name str_lower m d = slugify_spec str_lower m d.
Proof.
  unfold slugify_device_name, slugify_spec, strip.
  change (lit "-") with [HYPHEN]. change (lit "") with (@nil N).
  change (lit " ") with [SPACE].
  rewrite rstrip_trim_trailing, lstrip_trim_leading.
  rewrite (proj1 (re_sub_plus_collapse is_hyphen _)), re_sub_class_keep.
  rewrite (proj1 (re_sub_plus_collapse space_or_underscore _)).
  reflexivity.
Qed.

(** *** The source on concrete names *)

Example slug_palo_alto :
  slugify_device_name lower_ascii_only (lit "Palo Alto") (lit "PA-850")
  = lit "palo-alto-pa-850".
Proof. reflexivity. Qed.

Example slug_punctuation_and_runs :
  slugify_device_name lower_ascii_only (lit "  Palo_Alto!! ") (lit "PA--850 (v2)")
  = lit "palo-alto-pa-850-v2".
Proof. reflexivity. Qed.

Example slug_nothing_left :
  slugify_device_name lower_ascii_only (lit "__") (lit "!?") = lit "".
Proof. reflexivity. Qed.

(** A no-break space (U+00A0) is whitespace for [\s]; an e with acute
    accent (U+00E9) and a full stop are deleted. *)
Example slug_unicode :
  slugify_device_name lower_ascii_only (lit "Caf" ++ [233; 160]%N ++ lit "X") (lit "v1.2")
  = lit "caf-x-v12".
Proof. reflexivity. Qed.

(** *** The shape of the result *)

Lemma is_hyphen_eq c : is_hyphen c = true <-> c = HYPHEN.
Proof. apply N.eqb_eq. Qed.

Lemma adjacent_hyphens_app_l l r :
  adjacent_hyphens (l ++ r) = false -> adjacent_hyphens l = false.
Proof.
  induction l as [|c t IH]; [reflexivity|].
  cbn [app adjacent_hyphens]. intros H.
  apply orb_false_iff in H as [H1 H2]. rewrite (IH H2), orb_false_r.
  destruct t; [apply andb_false_r|exact H1].
Qed.

Lemma adjacent_hyphens_app_r l r :
  adjacent_hyphens (l ++ r) = false -> adjacent_hyphens r = false.
Proof.
  induction l as [|c t IH]; [trivial|].
  cbn [app adjacent_hyphens]. intros H.
  apply orb_false_iff in H as [_ H2]. auto.
Qed.

Lemma adjacent_hyphens_doubled s :
  adjacent_hyphens s = false -> ~ doubled_hyphen s.
Proof.
  intros H (l & r & ->). apply adjacent_hyphens_app_r in H. discriminate H.
Qed.

Lemma collapse_no_adjacent s :
  adjacent_hyphens (collapse_runs is_hyphen s) = false.
Proof.
  induction s as [|c t IH]; [reflexivity|].
  cbn [collapse_runs]. destruct (is_hyphen c) eqn:Ec.
  - destruct t as [|c' t']; [reflexivity|].
    destruct (is_hyphen c') eqn:Ec'; [exact IH|].
    cbn [adjacent_hyphens]. rewrite IH, orb_false_r.
    cbn [collapse_runs]. rewrite Ec'. cbn. now rewrite Ec'.
  - cbn [adjacent_hyphens]. now rewrite Ec, IH.
Qed.

Lemma collapse_Forall (P : N -> Prop) cls s :
  P HYPHEN -> Forall P s -> Forall P (collapse_runs cls s).
Proof.
  intros HP. induction 1 as [|c t Hc Ht IH]; [constructor|].
  cbn [collapse_runs]. destruct (cls c).
  - destruct t as [|c' t']; [now repeat constructor|].
    destruct (cls c'); [exact IH | now constructor].
  - now constructor.
Qed.

Lemma keep_slug_chars_Forall s :
  Forall (fun c => slug_char c = true) (keep_slug_chars s).
Proof.
  unfold keep_slug_chars. apply Forall_forall. intros c Hc.
  apply filter_In in Hc. exact (proj2 Hc).
Qed.

(** What the two trims leave is a suffix, then a prefix. *)
Lemma trim_leading_suffix s : exists l, s = l ++ trim_leading s.
Proof.
  induction s as [|c t [l IH]]; [now exists []|].
  cbn [trim_leading]. destruct (c =? HYPHEN)%N.
  - exists (c :: l). cbn. now rewrite <- IH.
  - now exists [].
Qed.

Lemma trim_trailing_prefix s : exists r, s = trim_trailing s ++ r.
Proof.
  induction s as [|c t IH] using rev_ind; [now exists []|].
  rewrite trim_trailing_snoc. destruct (c =? HYPHEN)%N.
  - destruct IH as [r IH]. exists (r ++ [c]). now rewrite app_assoc, <- IH.
  - exists []. now rewrite app_nil_r.
Qed.

Lemma trim_leading_no_leading s : ~ leading_hyphen (trim_leading s).
Proof.
  induction s as [|c t IH]; intros [u Hu]; [discriminate|].
  cbn [trim_leading] in Hu. destruct (c =? HYPHEN)%N eqn:Ec.
  - apply IH. now exists u.
  - injection Hu as -> _. discriminate Ec.
Qed.

Lemma trim_trailing_no_trailing s : ~ trailing_hyphen (trim_trailing s).
Proof.
  induction s as [|c t IH] using rev_ind; intros [u Hu].
  - now destruct u.
  - rewrite trim_trailing_snoc in Hu. destruct (c =? HYPHEN)%N eqn:Ec.
    + apply IH. now exists u.
    + apply app_inj_tail in Hu as [_ ->]. discriminate Ec.
Qed.

Lemma trim_trailing_keeps_head s :
  ~ leading_hyphen s -> ~ leading_hyphen (trim_trailing s).
Proof.
  intros H [u Hu]. apply H.
  destruct (trim_trailing_prefix s) as [r Hr]. rewrite Hu in Hr.
  now exists (u ++ r).
Qed.

(** The result of [slugify_spec], whatever [lower] is. *)
Lemma slugify_spec_well_formed lower m d :
  well_formed_slug (slugify_spec lower m d).
Proof.
  unfold slugify_spec.
  set (x := keep_slug_chars _).
  set (y := collapse_runs _ x).
  assert (Hy : Forall (fun c => slug_char c = true) y)
    by (apply collapse_Forall; [reflexivity | apply keep_slug_chars_Forall]).
  assert (Ay : adjacent_hyphens y = false) by apply collapse_no_adjacent.
  destruct (trim_leading_suffix y) as [l Hl].
  destruct (trim_trailing_prefix (trim_leading y)) as [r Hr].
  split.
  - rewrite Hl, Hr in Hy. apply Forall_app in Hy as [_ Hy].
    now apply Forall_app in Hy as [Hy _].
  - apply trim_trailing_keeps_head, trim_leading_no_leading.
  - apply trim_trailing_no_trailing.
  - apply adjacent_hyphens_doubled.
    rewrite Hl in Ay. apply adjacent_hyphens_app_r in Ay.
    rewrite Hr in Ay. now apply adjacent_hyphens_app_l in Ay.
Qed.

(** *** Slugifying a slug *)

Ltac char_arith :=
  unfold slug_char, space_or_underscore, is_hyphen, is_lower, is_digit, is_upper,
    is_ascii, is_space, in_range, HYPHEN, UNDERSCORE, SPACE in *;
  repeat match goal with
         | |- _ = false => apply not_true_iff_false; intro
         | H : _ = false |- _ => apply not_true_iff_false in H
         end;
  rewrite ?orb_true_iff, ?andb_true_iff, ?N.leb_le, ?N.eqb_eq, ?N.ltb_lt in *;
  lia.

Lemma slug_char_ascii c : slug_char c = true -> is_ascii c = true.
Proof. intros H. char_arith. Qed.

Lemma slug_char_not_upper c : slug_char c = true -> is_upper c = false.
Proof. intros H. char_arith. Qed.

Lemma slug_char_not_space c : slug_char c = true -> space_or_underscore c = false.
Proof. intros H. char_arith. Qed.

Lemma lower_slug_space lower s :
  lowers_ascii lower -> Forall (fun c => slug_char c = true) s ->
  lower (s ++ [SPACE]) = s ++ [SPACE].
Proof.
  intros Hl Hs. rewrite Hl.
  - rewrite map_app. cbn [map]. f_equal.
    induction Hs as [|c t Hc Ht IH]; [reflexivity|].
    cbn [map]. rewrite IH. unfold ascii_lower.
    now rewrite (slug_char_not_upper _ Hc).
  - rewrite forallb_app. cbn. rewrite andb_true_r.
    apply forallb_forall. intros c Hc.
    apply slug_char_ascii. revert c Hc. now apply Forall_forall.
Qed.

Lemma collapse_trailing_run cls l c :
  Forall (fun x => cls x = false) l -> cls c = true ->
  collapse_runs cls (l ++ [c]) = l ++ [HYPHEN].
Proof.
  intros Hl Hc. induction Hl as [|a t Ha Ht IH]; cbn [app collapse_runs].
  - now rewrite Hc.
  - now rewrite Ha, IH.
Qed.

Lemma keep_slug_chars_id s :
  Forall (fun c => slug_char c = true) s -> keep_slug_chars s = s.
Proof.
  unfold keep_slug_chars. induction 1 as [|c t Hc Ht IH]; [reflexivity|].
  cbn [filter]. unfold slug_char, is_hyphen in Hc. now rewrite Hc, IH.
Qed.

Lemma collapse_no_adjacent_id s :
  adjacent_hyphens s = false -> collapse_runs is_hyphen s = s.
Proof.
  induction s as [|c t IH]; [reflexivity|].
  cbn [adjacent_hyphens collapse_runs]. intros H.
  apply orb_false_iff in H as [H1 H2]. rewrite (IH H2).
  destruct (is_hyphen c) eqn:Ec; [|reflexivity].
  apply is_hyphen_eq in Ec as ->.
  destruct t as [|c' t']; [reflexivity|].
  cbn in H1. now rewrite H1.
Qed.

Lemma adjacent_hyphens_true s : adjacent_hyphens s = true -> doubled_hyphen s.
Proof.
  induction s as [|c t IH]; [discriminate|].
  cbn [adjacent_hyphens]. intros H. apply orb_true_iff in H as [H|H].
  - apply andb_true_iff in H as [Hc H]. destruct t as [|c' t']; [discriminate|].
    apply is_hyphen_eq in Hc as ->. apply is_hyphen_eq in H as ->.
    now exists [], t'.
  - destruct (IH H) as (l & r & ->). now exists (c :: l), r.
Qed.

Lemma adjacent_hyphens_snoc s :
  adjacent_hyphens s = false -> ~ trailing_hyphen s ->
  adjacent_hyphens (s ++ [HYPHEN]) = false.
Proof.
  intros Hs Ht. apply not_true_iff_false. intros H.
  destruct (adjacent_hyphens_true _ H) as (l & r & E).
  destruct r as [|x r] using rev_ind.
  - change (l ++ [HYPHEN; HYPHEN]) with (l ++ [HYPHEN] ++ [HYPHEN]) in E.
    rewrite app_assoc in E. apply app_inj_tail in E as [-> _].
    apply Ht. now exists l.
  - clear IHr. change (l ++ HYPHEN :: HYPHEN :: r ++ [x])
      with (l ++ (HYPHEN :: HYPHEN :: r) ++ [x]) in E.
    rewrite app_assoc in E. apply app_inj_tail in E as [-> _].
    apply adjacent_hyphens_app_r in Hs. discriminate Hs.
Qed.

Lemma trim_trailing_id s : ~ trailing_hyphen s -> trim_trailing s = s.
Proof.
  destruct s as [|c t] using rev_ind; [reflexivity|]. intros H.
  rewrite trim_trailing_snoc. destruct (c =? HYPHEN)%N eqn:Ec; [|reflexivity].
  apply N.eqb_eq in Ec as ->. exfalso. apply H. now exists t.
Qed.

Lemma trim_slug_hyphen s :
  ~ leading_hyphen s -> ~ trailing_hyphen s ->
  trim_trailing (trim_leading (s ++ [HYPHEN])) = s.
Proof.
  intros Hl Ht. destruct s as [|c t]; [reflexivity|].
  cbn [app trim_leading]. destruct (c =? HYPHEN)%N eqn:Ec.
  - apply N.eqb_eq in Ec as ->. exfalso. apply Hl. now exists t.
  - change (c :: t ++ [HYPHEN]) with ((c :: t) ++ [HYPHEN]).
    rewrite trim_trailing_snoc. cbn [N.eqb HYPHEN Pos.eqb].
    now apply trim_trailing_id.
Qed.

(** A well-formed slug, taken as manufacturer with an empty model, is its
    own slug. *)
Lemma slugify_spec_fixes_slug lower s :
  lowers_ascii lower -> well_formed_slug s -> slugify_spec lower s [] = s.
Proof.
  intros Hl [Hc Hlead Htrail Hdbl]. unfold slugify_spec.
  cbn [app]. rewrite (lower_slug_space Hl Hc).
  rewrite collapse_trailing_run.
  - assert (Hc' : Forall (fun c => slug_char c = true) (s ++ [HYPHEN])).
    { apply Forall_app. split; [exact Hc | now repeat constructor]. }
    rewrite (keep_slug_chars_id Hc').
    change (fun c : N => (c =? HYPHEN)%N) with is_hyphen.
    rewrite collapse_no_adjacent_id.
    + now apply trim_slug_hyphen.
    + apply adjacent_hyphens_snoc; [|exact Htrail].
      apply not_true_iff_false. intros H. apply Hdbl.
      now apply adjacent_hyphens_true.
  - eapply Forall_impl; [|exact Hc]. intros c H.
    exact (slug_char_not_space _ H).
  - reflexivity.
Qed.

(** C2. [slugify_device_name] is a total function of its two arguments and
    computes the algorithm of the specification: join manufacturer and
    model with one space, lowercase, turn every run of whitespace or
    underscores into one hyphen, delete what is not [a-z0-9-], turn every
    run of hyphens into one, trim the hyphens at both ends.  With a
    [str.lower] that lowers ASCII letters,
    slugify("Palo Alto", "PA-850") is "palo-alto-pa-850". *)
Theorem slugify_computes_spec_algorithm (str_lower : pystr -> pystr)
  (Hlower : lowers_ascii str_lower) :
  (forall m d, slugify_device_name str_lower m d = slugify_spec str_lower m d)
  /\ slugify_device_name str_lower (lit "Palo Alto") (lit "PA-850")
     = lit "palo-alto-pa-850".
Proof.
  split; [apply slugify_refines|].
  unfold slugify_device_name. rewrite Hlower; reflexivity.
Qed.

Lemma slugify_computes_spec_algorithm_witness :
  (forall m d, slugify_device_name lower_ascii_only m d
               = slugify_spec lower_ascii_only m d)
  /\ slugify_device_name lower_ascii_only (lit "Palo Alto") (lit "PA-850")
     = lit "palo-alto-pa-850".
Proof.
  apply (slugify_computes_spec_algorithm (str_lower := lower_ascii_only)).
  intros s _. reflexivity.
Defined.

(** C9. For every pair of input strings the slug holds only characters of
    [a-z0-9-] and has no leading, trailing or doubled hyphen; slugifying
    the slug (as manufacturer, with the empty model) gives it back. *)
Theorem slugify_output_well_formed_and_stable (str_lower : pystr -> pystr)
  (Hlower : lowers_ascii str_lower) (m d : pystr) :
  well_formed_slug (slugify_device_name str_lower m d)
  /\ slugify_device_name str_lower (slugify_device_name str_lower m d) []
     = slugify_device_name str_lower m d.
Proof.
  assert (W : well_formed_slug (slugify_device_name str_lower m d))
    by (rewrite slugify_refines; apply slugify_spec_well_formed).
  split; [exact W|].
  rewrite (slugify_refines str_lower (slugify_device_name str_lower m d)).
  now apply slugify_spec_fixes_slug.
Qed.

Lemma slugify_output_well_formed_and_stable_witness :
  well_formed_slug
    (slugify_device_name lower_ascii_only (lit "  Palo_Alto!! ") (lit "PA--850 (v2)"))
  /\ slugify_device_name lower_ascii_only
       (slugify_device_name lower_ascii_only (lit "  Palo_Alto!! ") (lit "PA--850 (v2)")) []
     = slugify_device_name lower_ascii_only (lit "  Palo_Alto!! ") (lit "PA--850 (v2)").
Proof.
  apply (slugify_output_well_formed_and_stable (str_lower := lower_ascii_only)).
  intros s _. reflexivity.
Defined.

End SlugFacts.

(** ** Image resolver *)

Module ResolverFacts.

Import Resolver.

Section Facts.

Variable str_lower : pystr -> pystr.
Variable path_exists : pystr -> bool.

Lemma probe_find dir slug image_type exts :
  probe path_exists dir slug image_type exts
  = find path_exists
      (map (fun ext => Path.join dir [slug ++ lit "." ++ image_type ++ ext]) exts).
Proof.
  induction exts as [|ext rest IH]; [reflexivity|].
  cbn [probe map find]. now rewrite IH.
Qed.

(** In an existing directory the result is the first candidate, in the
    order of [extensions], that exists. *)
Lemma find_elevation_image_first repo m d t :
  path_exists (elevation_dir repo m) = true ->
  find_elevation_image str_lower path_exists repo m d t
  = find path_exists (map (candidate str_lower repo m d t) extensions).
Proof.
  intros H. unfold find_elevation_image.
  change (Path.join (filesystem_path repo) [lit "elevation-images"; m])
    with (elevation_dir repo m).
  rewrite H. cbn [negb]. apply probe_find.
Qed.

Lemma find_elevation_image_no_dir repo m d t :
  path_exists (elevation_dir repo m) = false ->
  find_elevation_image str_lower path_exists repo m d t = None.
Proof.
  intros H. unfold find_elevation_image.
  change (Path.join (filesystem_path repo) [lit "elevation-images"; m])
    with (elevation_dir repo m).
  now rewrite H.
Qed.

End Facts.

(** C4. The directory probed is the join of the repository root, the
    subdirectory [elevation-images] and the manufacturer name as given (not
    its slug).  Without that directory the result is absent; with it, and
    no file [<slug>.<orientation><ext>] in it for any of the four
    extensions, the result is absent too.  Nothing else of the file system
    is looked at. *)
Theorem resolve_absent_without_directory_or_match
  (str_lower : pystr -> pystr) (path_exists : pystr -> bool)
  (repo : GitRepository) (m d t : pystr) :
  elevation_dir repo m
  = Path.join (filesystem_path repo) [lit "elevation-images"; m]
  /\ (path_exists (elevation_dir repo m) = false ->
      find_elevation_image str_lower path_exists repo m d t = None)
  /\ (path_exists (elevation_dir repo m) = true ->
      (forall ext, In ext extensions ->
                   path_exists (candidate str_lower repo m d t ext) = false) ->
      find_elevation_image str_lower path_exists repo m d t = None)
  /\ (forall path_exists' : pystr -> bool,
        path_exists' (elevation_dir repo m) = path_exists (elevation_dir repo m) ->
        (forall ext, In ext extensions ->
                     path_exists' (candidate str_lower repo m d t ext)
                     = path_exists (candidate str_lower repo m d t ext)) ->
        find_elevation_image str_lower path_exists' repo m d t
        = find_elevation_image str_lower path_exists repo m d t).
Proof.
  split; [reflexivity|]. split; [apply find_elevation_image_no_dir|]. split.
  - intros Hdir Hnone. rewrite find_elevation_image_first by exact Hdir.
    destruct (find _ _) as [p|] eqn:E; [|reflexivity].
    apply find_some in E as [Hin Hp]. apply in_map_iff in Hin as (ext & <- & Hext).
    rewrite (Hnone _ Hext) in Hp. discriminate.
  - intros pe' Hdir Hfiles.
    destruct (path_exists (elevation_dir repo m)) eqn:E.
    + rewrite !find_elevation_image_first by congruence.
      cbn [extensions map find]. rewrite !Hfiles by (cbn; tauto). reflexivity.
    + rewrite !find_elevation_image_no_dir by congruence. reflexivity.
Qed.

Lemma resolve_absent_without_directory_or_match_witness :
  find_elevation_image Slug.lower_ascii_only (fun _ => false)
    {| filesystem_path := lit "/repo" |} (lit "Palo Alto") (lit "PA-850") (lit "front")
  = None
  /\ find_elevation_image Slug.lower_ascii_only Fixtures.empty_dir_exists
       {| filesystem_path := lit "/repo" |} (lit "Palo Alto") (lit "PA-850") (lit "front")
     = None.
Proof.
  split.
  - apply (proj1 (proj2 (resolve_absent_without_directory_or_match
             Slug.lower_ascii_only (fun _ => false)
             {| filesystem_path := lit "/repo" |}
             (lit "Palo Alto") (lit "PA-850") (lit "front")))).
    reflexivity.
  - apply (proj1 (proj2 (proj2 (resolve_absent_without_directory_or_match
             Slug.lower_ascii_only Fixtures.empty_dir_exists
             {| filesystem_path := lit "/repo" |}
             (lit "Palo Alto") (lit "PA-850") (lit "front"))))).
    + reflexivity.
    + intros ext Hext. cbn in Hext.
      destruct Hext as [<-|[<-|[<-|[<-|[]]]]]; reflexivity.
Defined.

(** C5. The extensions are probed in the order .png, .jpg, .jpeg, .svg and
    the first candidate that exists is returned; when the .png file exists
    it is the result, whether or not a .jpg file exists as well. *)
Theorem resolve_extension_priority
  (str_lower : pystr -> pystr) (path_exists : pystr -> bool)
  (repo : GitRepository) (m d t : pystr)
  (Hdir : path_exists (elevation_dir repo m) = true) :
  extensions = [lit ".png"; lit ".jpg"; lit ".jpeg"; lit ".svg"]
  /\ find_elevation_image str_lower path_exists repo m d t
     = find path_exists (map (candidate str_lower repo m d t) extensions)
  /\ (path_exists (candidate str_lower repo m d t (lit ".png")) = true ->
      find_elevation_image str_lower path_exists repo m d t
      = Some (candidate str_lower repo m d t (lit ".png"))).
Proof.
  split; [reflexivity|]. split; [now apply find_elevation_image_first|].
  intros Hpng. rewrite find_elevation_image_first by exact Hdir.
  cbn [extensions map find]. now rewrite Hpng.
Qed.

Lemma resolve_extension_priority_witness :
  find_elevation_image Slug.lower_ascii_only Fixtures.png_and_jpg_exist
    {| filesystem_path := lit "/repo" |} (lit "Palo Alto") (lit "PA-850") (lit "front")
  = Some (lit "/repo/elevation-images/Palo Alto/palo-alto-pa-850.front.png").
Proof.
  apply (proj2 (proj2 (resolve_extension_priority Slug.lower_ascii_only
           Fixtures.png_and_jpg_exist {| filesystem_path := lit "/repo" |}
           (lit "Palo Alto") (lit "PA-850") (lit "front") eq_refl))).
  reflexivity.
Defined.

End ResolverFacts.

(** ** Importer *)

Module ImporterFacts.

Import Importer StrFacts.

Lemma filter_unique_key {A K} (f : A -> K) (p : A -> bool) (x : A) (l : list A) :
  NoDup (map f l) -> In x l ->
  (forall y, p y = true <-> f y = f x) ->
  filter p l = [x].
Proof.
  intros Hnd Hin Hp. induction l as [|a t IH]; [contradiction|].
  cbn [map] in Hnd. apply NoDup_cons_iff in Hnd as [Ha Hnd]. cbn [filter].
  assert (Hnone : In x t -> p a = false).
  { intros Hx. apply not_true_iff_false. intros Hpa. apply Ha.
    rewrite (proj1 (Hp a) Hpa). now apply in_map. }
  destruct Hin as [->|Hin].
  - rewrite (proj2 (Hp x) eq_refl). f_equal.
    destruct (filter p t) as [|y r] eqn:E; [reflexivity|].
    assert (Hy : In y (filter p t)) by (rewrite E; now left).
    apply filter_In in Hy as [Hy Hpy]. exfalso. apply Ha.
    rewrite <- (proj1 (Hp y) Hpy). now apply in_map.
  - rewrite (Hnone Hin). now apply IH.
Qed.

Section Facts.

Variable env : Collaborators.

Lemma Manufacturer_objects_get_unique w m :
  unique_keys w -> In m (manufacturers w) ->
  Manufacturer_objects_get env (VStr (mf_name m)) w = (Returned m, w).
Proof.
  intros [Hu _] Hin. unfold Manufacturer_objects_get.
  rewrite (filter_unique_key mf_name _ m); [reflexivity|exact Hu|exact Hin|].
  intros y. cbn [text_matches]. rewrite eqb_eq. split; congruence.
Qed.

Lemma DeviceType_objects_get_unique w m d :
  unique_keys w -> In d (device_types w) -> dt_manufacturer d = mf_pk m ->
  DeviceType_objects_get env (VStr (dt_model d)) m w = (Returned d, w).
Proof.
  intros [_ Hu] Hin Hm. unfold DeviceType_objects_get.
  rewrite (filter_unique_key (fun d => (dt_manufacturer d, dt_model d)) _ d);
    [reflexivity|exact Hu|exact Hin|].
  intros y. cbn [text_matches]. rewrite andb_true_iff, eqb_eq, N.eqb_eq, <- Hm.
  split; [intros [-> ->]; reflexivity | intros [= -> ->]; now split].
Qed.

End Facts.

(** *** Components *)

Section Components.

Variable env : Collaborators.

Lemma comprehension_map {A B} (f : A -> outcome B) (g : A -> B) (l : list A) :
  (forall x, In x l -> f x = Returned (g x)) ->
  comprehension f l = Returned (map g l).
Proof.
  induction l as [|x t IH]; intros H; [reflexivity|].
  cbn [comprehension map]. rewrite (H x (or_introl eq_refl)), IH; [reflexivity|].
  intros y Hy. apply H. now right.
Qed.

(** Looking a key up after the comprehension that drops [ks]. *)
Lemma dict_lookup_strip (ks : list pystr) (k : pystr) (fields : pydict) :
  dict_lookup k (filter (fun kv => negb (mem (fst kv) ks)) fields)
  = if mem k ks then None else dict_lookup k fields.
Proof.
  induction fields as [|[k' v] rest IH]; [now destruct (mem k ks)|].
  cbn [filter fst dict_lookup]. destruct (eqb k k') eqn:E.
  - apply eqb_eq in E as <-. destruct (mem k ks) eqn:Ek; cbn [negb].
    + exact IH.
    + cbn [dict_lookup]. now rewrite eqb_refl.
  - destruct (mem k' ks); cbn [negb]; [exact IH|].
    cbn [dict_lookup]. now rewrite E, IH.
Qed.

Lemma bind_ext {St A B} (m : M St A) (k k' : A -> M St B) s :
  (forall a s', k a s' = k' a s') -> bind m k s = bind m k' s.
Proof. intros H. unfold bind. destruct (m s) as [[a|e] s']; [apply H|reflexivity]. Qed.

Lemma for_each_present data devtype logger model (l : list (pystr * component_class)) w :
  for_each (materialize env data devtype logger model) l w
  = for_each (materialize env data devtype logger model)
      (filter (fun entry => dict_contains (fst entry) data) l) w.
Proof.
  revert w. induction l as [|[key cls] rest IH]; intros w; [reflexivity|].
  cbn [filter fst for_each]. unfold dict_contains.
  destruct (dict_lookup key data) as [v|] eqn:E.
  - cbn [for_each]. apply bind_ext. intros _ w'. apply IH.
  - unfold bind at 1. cbn [materialize]. rewrite E. cbn. apply IH.
Qed.

Lemma for_each_agree data data' devtype logger model (l : list (pystr * component_class)) w :
  (forall key, In key (map fst l) -> dict_lookup key data' = dict_lookup key data) ->
  for_each (materialize env data' devtype logger model) l w
  = for_each (materialize env data devtype logger model) l w.
Proof.
  revert w. induction l as [|[key cls] rest IH]; intros w H; [reflexivity|].
  cbn [for_each].
  replace (materialize env data' devtype logger model (key, cls))
    with (materialize env data devtype logger model (key, cls))
    by (cbn [materialize]; now rewrite (H key (or_introl eq_refl))).
  apply bind_ext. intros _ w'. apply IH. intros k Hk. apply H. now right.
Qed.

Lemma dict_lookup_permutation (k : pystr) (d d' : pydict) :
  Permutation d d' -> NoDup (map fst d) -> dict_lookup k d = dict_lookup k d'.
Proof.
  induction 1 as [|[k1 v1] l l' Hp IH|[k1 v1] [k2 v2] l|l l' l'' H1 IH1 H2 IH2];
    intros Hnd.
  - reflexivity.
  - cbn [dict_lookup]. cbn [map fst] in Hnd. apply NoDup_cons_iff in Hnd as [_ Hnd].
    now rewrite IH.
  - cbn [dict_lookup]. cbn [map fst] in Hnd. apply NoDup_cons_iff in Hnd as [Hin _].
    destruct (eqb k k2) eqn:E2, (eqb k k1) eqn:E1; try reflexivity.
    apply eqb_eq in E1, E2. subst. exfalso. apply Hin. now left.
  - rewrite IH1 by exact Hnd. apply IH2.
    eapply Permutation_NoDup; [|exact Hnd]. now apply Permutation_map.
Qed.

End Components.

(** *** Calls that preserve a relation, calls that return *)

Section Calls.

Context {St : Type} (R : St -> St -> Prop).
Hypothesis R_refl : forall s, R s s.
Hypothesis R_trans : forall s1 s2 s3, R s1 s2 -> R s2 s3 -> R s1 s3.

Lemma preserves_ret {A} (a : A) : preserves R (ret a).
Proof. intros s. apply R_refl. Qed.

Lemma preserves_lift {A} (r : outcome A) : preserves R (lift r).
Proof. intros s. apply R_refl. Qed.

Lemma preserves_bind {A B} (m : M St A) (k : A -> M St B) :
  preserves R m -> (forall a, preserves R (k a)) -> preserves R (bind m k).
Proof.
  intros Hm Hk s. unfold bind. specialize (Hm s).
  destruct (m s) as [[a|e] s']; cbn [snd] in *; [|exact Hm].
  eapply R_trans; [exact Hm | apply Hk].
Qed.

Lemma preserves_try {A} (body : M St A) (handler : exn -> M St A) :
  preserves R body -> (forall e, preserves R (handler e)) ->
  preserves R (try_except body handler).
Proof.
  intros Hb Hh s. unfold try_except. specialize (Hb s).
  destruct (body s) as [[a|e] s']; cbn [snd] in *; [exact Hb|].
  eapply R_trans; [exact Hb | apply Hh].
Qed.

End Calls.

Lemma returns_ret {St A} (a : A) : returns (ret (St := St) a).
Proof. intros s. now exists a. Qed.

Lemma returns_bind {St A B} (m : M St A) (k : A -> M St B) :
  returns m -> (forall a, returns (k a)) -> returns (bind m k).
Proof.
  intros Hm Hk s. unfold bind. destruct (Hm s) as [a Ha].
  destruct (m s) as [[a'|e] s']; cbn [fst] in Ha; [apply Hk | discriminate].
Qed.

Lemma returns_try {St A} (body : M St A) (handler : exn -> M St A) :
  (forall e, returns (handler e)) -> returns (try_except body handler).
Proof.
  intros Hh s. unfold try_except.
  destruct (body s) as [[a|e] s']; [now exists a | apply Hh].
Qed.

(** A call that returns and preserves, as one equation. *)
Lemma returns_preserves {St} (R : St -> St -> Prop) (m : M St unit) s :
  returns m -> preserves R m -> exists s', m s = (Returned tt, s') /\ R s s'.
Proof.
  intros Hr Hp. specialize (Hr s) as [[] Ha]. specialize (Hp s).
  destruct (m s) as [r s']. cbn [fst snd] in *. subst r. now exists s'.
Qed.

(** *** The statements after the components *)

Section Enrichment.

Variable env : Collaborators.

Lemma enriches_refl f : enriches f f.
Proof. split; auto. exists []. now rewrite app_nil_r. Qed.

Lemma enriches_trans f1 f2 f3 : enriches f1 f2 -> enriches f2 f3 -> enriches f1 f3.
Proof.
  intros [T1 M1 P1 K1 [l1 J1]] [T2 M2 P2 K2 [l2 J2]]. split.
  - congruence.
  - congruence.
  - congruence.
  - auto.
  - exists (l1 ++ l2). now rewrite J2, J1, app_assoc.
Qed.

Lemma enriches_journal f f' x :
  enriches f f' -> In x (journal (persisted f)) -> In x (journal (persisted f')).
Proof. intros [_ _ _ _ [l ->]] H. apply in_or_app. now left. Qed.

Lemma emit_returns logger lv msg : returns (on_world (emit logger lv msg)).
Proof. intros f. exists tt. unfold on_world, emit. now destruct logger. Qed.

Lemma emit_enriches logger lv msg : preserves enriches (on_world (emit logger lv msg)).
Proof.
  intros f. unfold on_world, emit. destruct logger; cbn; split; cbn; auto.
  - now eexists.
  - exists []. now rewrite app_nil_r.
Qed.

Lemma modify_object_enriches g :
  (forall d, dt_pk (g d) = dt_pk d) -> preserves enriches (modify_object g).
Proof.
  intros Hg f. unfold modify_object. cbn. split; cbn; auto.
  exists []. now rewrite app_nil_r.
Qed.

Lemma upsert_keeps obj rows pk :
  In pk (map dt_pk rows) -> In pk (map dt_pk (upsert obj rows)).
Proof.
  unfold upsert. destruct (existsb _ rows).
  - rewrite map_map. intros H. apply in_map_iff in H as (d & <- & Hd).
    apply in_map_iff. exists d. split; [|exact Hd].
    destruct (dt_pk d =? dt_pk obj)%N eqn:E; [|reflexivity].
    now apply N.eqb_eq in E.
  - rewrite map_app. intros H. apply in_or_app. now left.
Qed.

Lemma model_save_enriches obj : preserves enriches (on_world (model_save env obj)).
Proof.
  intros f. unfold on_world, model_save.
  destruct (save_error env obj (persisted f)); cbn; split; cbn; auto;
    try (exists []; now rewrite app_nil_r).
  intros pk. apply upsert_keeps.
Qed.

Lemma image_field_save_enriches sd name content :
  preserves enriches (image_field_save env sd name content).
Proof.
  unfold image_field_save.
  apply preserves_bind; [apply enriches_trans| |intros stored].
  - intros f. unfold on_world.
    destruct (storage_save env name content (persisted f)); cbn;
      split; cbn; auto; exists []; now rewrite app_nil_r.
  - apply preserves_bind; [apply enriches_trans| |intros _].
    + apply modify_object_enriches. now destruct sd.
    + apply preserves_bind; [apply enriches_trans| |intros obj].
      * intros f. apply enriches_refl.
      * apply model_save_enriches.
Qed.

Lemma attach_body_enriches sd image_path logger :
  preserves enriches (attach_body env sd image_path logger).
Proof.
  unfold attach_body.
  apply preserves_bind; [apply enriches_trans| |intros img_file].
  - apply preserves_lift, enriches_refl.
  - apply preserves_bind; [apply enriches_trans| |intros _].
    + apply image_field_save_enriches.
    + apply emit_enriches.
Qed.

Lemma attach_image_enriches sd image_path logger :
  preserves enriches (attach_image env sd image_path logger).
Proof.
  apply preserves_try; [apply enriches_trans| |intros e].
  - apply attach_body_enriches.
  - apply emit_enriches.
Qed.

Lemma attach_image_returns sd image_path logger :
  returns (attach_image env sd image_path logger).
Proof. apply returns_try. intros e. apply emit_returns. Qed.

Lemma handle_image_enriches sd data repo manufacturer_name model logger :
  preserves enriches (handle_image env sd data repo manufacturer_name model logger).
Proof.
  unfold handle_image. destruct (truthy _); [|apply preserves_ret, enriches_refl].
  apply preserves_bind; [apply enriches_trans| |intros image_path].
  - apply preserves_lift, enriches_refl.
  - destruct image_path as [[|c p]|];
      [apply emit_enriches | apply attach_image_enriches | apply emit_enriches].
Qed.

(** With a manufacturer name that is a [str], handling an image returns. *)
Lemma handle_image_returns sd data repo m model logger :
  returns (handle_image env sd data repo (VStr m) model logger).
Proof.
  unfold handle_image. destruct (truthy _); [|apply returns_ret].
  cbn [call_find_elevation_image]. intros f. unfold bind, lift.
  destruct (Resolver.find_elevation_image _ _ _ _ _ _) as [[|c p]|];
    [apply emit_returns | apply attach_image_returns | apply emit_returns].
Qed.

Lemma import_images_enriches data git_repo logger model :
  preserves enriches (import_images env data git_repo logger model).
Proof.
  unfold import_images. destruct git_repo as [repo|];
    [|apply preserves_ret, enriches_refl].
  apply preserves_bind; [apply enriches_trans| |intros _];
    apply handle_image_enriches.
Qed.

Lemma import_images_returns data git_repo logger model m :
  dict_get (lit "manufacturer") data = VStr m ->
  returns (import_images env data git_repo logger model).
Proof.
  intros Hm. unfold import_images. destruct git_repo as [repo|]; [|apply returns_ret].
  rewrite Hm. apply returns_bind; [|intros _]; apply handle_image_returns.
Qed.

Lemma apply_custom_fields_pk cf_data d :
  dt_pk (apply_custom_fields cf_data d) = dt_pk d.
Proof.
  revert d. unfold apply_custom_fields.
  induction cf_data as [|kv rest IH]; intros d; [reflexivity|].
  cbn [fold_left]. now rewrite IH.
Qed.

Lemma backfill_enriches data logger : preserves enriches (backfill env data logger).
Proof.
  unfold backfill. destruct (stage_custom_fields data);
    [apply preserves_ret, enriches_refl|].
  apply preserves_try; [apply enriches_trans| |intros e; apply emit_enriches].
  apply preserves_bind; [apply enriches_trans| |intros _].
  - apply modify_object_enriches. intros d. apply apply_custom_fields_pk.
  - apply preserves_bind; [apply enriches_trans| |intros obj].
    + intros f. apply enriches_refl.
    + apply preserves_bind; [apply enriches_trans| |intros _].
      * apply model_save_enriches.
      * apply emit_enriches.
Qed.

Lemma backfill_returns data logger : returns (backfill env data logger).
Proof.
  unfold backfill. destruct (stage_custom_fields data); [apply returns_ret|].
  apply returns_try. intros e. apply emit_returns.
Qed.

End Enrichment.

(** *** From the components to the images *)

Section Prefix.

Variable env : Collaborators.

Lemma import_after_components data git_repo logger w :
  import_device_type_with_images env data git_repo logger w
  = bind (create_with_components env data logger)
      (fun devtype =>
         with_object devtype
           (import_images env data git_repo logger (dict_get (lit "model") data) ;;;
            backfill env data logger)) w.
Proof.
  unfold import_device_type_with_images, create_with_components, bind.
  destruct (Manufacturer_objects_get env _ w) as [[m|e] w0]; [|reflexivity].
  destruct (check_not_existing env _ m w0) as [[[]|e] w1]; [|reflexivity].
  destruct (DeviceTypeImportForm_save env data w1) as [[d|e] w2]; [|reflexivity].
  destruct (emit logger INFO _ w2) as [[[]|e] w3]; [|reflexivity].
  destruct (import_components env data d logger _ w3) as [[[]|e] w4]; reflexivity.
Qed.

Lemma materialize_device_types data devtype logger model entry :
  preserves same_device_types (materialize env data devtype logger model entry).
Proof.
  intros w. unfold same_device_types. destruct entry as [key cls].
  cbn [materialize]. destruct (dict_lookup key data) as [v|]; [|reflexivity].
  unfold bind, lift, bulk_create, emit.
  destruct (component_list env key cls devtype v) as [objs|e]; [|reflexivity].
  destruct (bulk_create_error env cls objs w); [reflexivity|].
  now destruct logger.
Qed.

Lemma import_components_device_types data devtype logger model :
  preserves same_device_types (import_components env data devtype logger model).
Proof.
  unfold import_components. induction COMPONENTS as [|entry rest IH].
  - intros w. reflexivity.
  - cbn [for_each]. apply preserves_bind.
    + unfold same_device_types. congruence.
    + apply materialize_device_types.
    + intros _. exact IH.
Qed.

(** Once the components are created, the row of the form is in the table. *)
Lemma create_with_components_facts data logger w devtype w1 :
  create_with_components env data logger w = (Returned devtype, w1) ->
  In (dt_pk devtype) (map dt_pk (device_types w1)).
Proof.
  unfold create_with_components, bind.
  destruct (Manufacturer_objects_get env _ w) as [[m|e] w0] eqn:Em; [|discriminate].
  destruct (check_not_existing env _ m w0) as [[[]|e] w2]; [|discriminate].
  destruct (DeviceTypeImportForm_save env data w2) as [[d|e] w3] eqn:Ef; [|discriminate].
  destruct (emit logger INFO _ w3) as [[[]|e] w4] eqn:Ee; [|discriminate].
  pose proof (import_components_device_types data d logger
                (dict_get (lit "model") data) w4) as Hc.
  destruct (import_components env data d logger _ w4) as [[[]|e] w5]; [|discriminate].
  cbn. intros [= <- <-].
  unfold same_device_types in Hc. cbn [snd] in Hc. rewrite Hc.
  assert (device_types w4 = device_types w3) as ->.
  { unfold emit in Ee. destruct logger; injection Ee as <-; reflexivity. }
  unfold DeviceTypeImportForm_save in Ef.
  destruct (form_save env data w2); [|discriminate].
  injection Ef as -> <-. cbn. rewrite map_app. apply in_or_app. right. now left.
Qed.

(** An attachment that fails: the handler hands the warning to the logger. *)
Lemma handle_image_failure sd data repo manufacturer_name model logger f image_path e :
  truthy (dict_get (flag_key sd) data) = true ->
  call_find_elevation_image env repo manufacturer_name model (side_name sd)
  = Returned (Some image_path) ->
  image_path <> [] ->
  fst (attach_body env sd image_path logger f) = Raised e ->
  handle_image env sd data repo manufacturer_name model logger f
  = on_world (emit logger WARNING (FailedImage sd e))
      (snd (attach_body env sd image_path logger f)).
Proof.
  intros Hflag Hfind Hpath Hfail. unfold handle_image. rewrite Hflag.
  unfold bind at 1, lift. rewrite Hfind.
  destruct image_path as [|c p]; [contradiction|].
  unfold attach_image, try_except.
  destruct (attach_body env sd (c :: p) logger f) as [[[]|e'] f1];
    cbn [fst] in Hfail; [discriminate|]. now injection Hfail as ->.
Qed.

(** A resolution miss: the warning goes to the logger. *)
Lemma handle_image_miss sd data repo manufacturer_name model logger f :
  truthy (dict_get (flag_key sd) data) = true ->
  call_find_elevation_image env repo manufacturer_name model (side_name sd)
  = Returned None ->
  handle_image env sd data repo manufacturer_name model logger f
  = on_world (emit logger WARNING (ImageNotFound sd manufacturer_name model)) f.
Proof.
  intros Hflag Hfind. unfold handle_image. rewrite Hflag.
  unfold bind at 1, lift. now rewrite Hfind.
Qed.

(** What a logger that is there has received. *)
Lemma emit_journal lg lv msg f :
  In (lv, msg) (journal (persisted (snd (on_world (emit (Some lg) lv msg) f)))).
Proof. cbn. apply in_or_app. right. now left. Qed.

End Prefix.

(** *** Custom fields *)

Section Backfill.

Variable env : Collaborators.

Lemma dict_lookup_set k k' v d :
  dict_lookup k (dict_set k' v d) = if eqb k k' then Some v else dict_lookup k d.
Proof.
  induction d as [|[k0 v0] rest IH]; cbn [dict_set dict_lookup]; [reflexivity|].
  destruct (eqb k' k0) eqn:E0; cbn [dict_lookup].
  - apply eqb_eq in E0 as <-. now destruct (eqb k k').
  - rewrite IH. destruct (eqb k k0) eqn:E1; [|reflexivity].
    apply eqb_eq in E1 as <-. destruct (eqb k k') eqn:E2; [|reflexivity].
    apply eqb_eq in E2 as <-. now rewrite eqb_refl in E0.
Qed.

Lemma dict_lookup_absent k d : ~ In k (map fst d) -> dict_lookup k d = None.
Proof.
  induction d as [|[k0 v0] rest IH]; [reflexivity|]. cbn. intros H.
  destruct (eqb k k0) eqn:E.
  - apply eqb_eq in E. subst. exfalso. apply H. now left.
  - apply IH. tauto.
Qed.

(** The assignments of the loop, looked up afterwards: a staged key has its
    staged value, any other key has the value it had. *)
Lemma apply_custom_fields_lookup cf_data d k :
  NoDup (map fst cf_data) ->
  dict_lookup k (dt_cf (apply_custom_fields cf_data d))
  = match dict_lookup k cf_data with
    | Some v => Some v
    | None => dict_lookup k (dt_cf d)
    end.
Proof.
  unfold apply_custom_fields. revert d.
  induction cf_data as [|[k1 v1] rest IH]; intros d Hnd; [reflexivity|].
  cbn [map fst] in Hnd. apply NoDup_cons_iff in Hnd as [Hk1 Hnd].
  cbn [fold_left fst snd dict_lookup]. rewrite (IH _ Hnd). cbn [dt_cf set_cf].
  rewrite dict_lookup_set. destruct (eqb k k1) eqn:E; [|reflexivity].
  apply eqb_eq in E as ->. now rewrite (dict_lookup_absent _ _ Hk1).
Qed.

Lemma apply_custom_fields_columns cf_data d :
  dt_manufacturer (apply_custom_fields cf_data d) = dt_manufacturer d
  /\ dt_model (apply_custom_fields cf_data d) = dt_model d
  /\ dt_front_image (apply_custom_fields cf_data d) = dt_front_image d
  /\ dt_rear_image (apply_custom_fields cf_data d) = dt_rear_image d.
Proof.
  unfold apply_custom_fields. revert d.
  induction cf_data as [|kv rest IH]; intros d; [now repeat split|].
  cbn [fold_left]. destruct (IH (set_cf (dict_set (fst kv) (snd kv) (dt_cf d)) d))
    as (-> & -> & -> & ->). now repeat split.
Qed.

(** What the staging loop leaves in [cf_data]: for each entry of the
    mapping, in order, the value of the field when the document has it. *)
Lemma stage_custom_fields_present data :
  stage_custom_fields data
  = flat_map (fun entry => match dict_lookup (snd entry) data with
                           | Some v => [(fst entry, v)]
                           | None => []
                           end) custom_field_mapping.
Proof.
  unfold stage_custom_fields, custom_field_mapping.
  cbn [fold_left flat_map fst snd].
  destruct (dict_lookup (lit "slug") data), (dict_lookup (lit "weight") data),
    (dict_lookup (lit "weight_unit") data), (dict_lookup (lit "airflow") data),
    (dict_lookup (lit "front_image") data), (dict_lookup (lit "rear_image") data);
    reflexivity.
Qed.

Lemma staged_keys_in_mapping data (l : list (pystr * pystr)) k :
  In k (map fst (flat_map (fun entry => match dict_lookup (snd entry) data with
                                        | Some v => [(fst entry, v)]
                                        | None => []
                                        end) l)) ->
  In k (map fst l).
Proof.
  induction l as [|[ck dk] rest IH]; [trivial|]. cbn [flat_map fst snd map].
  destruct (dict_lookup dk data); cbn; [intros [H|H]; auto | auto].
Qed.

Lemma stage_custom_fields_NoDup data : NoDup (map fst (stage_custom_fields data)).
Proof.
  rewrite stage_custom_fields_present.
  assert (H : NoDup (map fst custom_field_mapping)).
  { cbn. repeat (constructor; [cbn; intros H;
                               repeat (destruct H as [H|H]; [discriminate H|]);
                               exact H|]).
    constructor. }
  revert H. induction custom_field_mapping as [|[ck dk] rest IH]; [constructor|].
  cbn [map fst]. intros Hnd. apply NoDup_cons_iff in Hnd as [Hck Hnd].
  cbn [flat_map fst snd]. destruct (dict_lookup dk data); cbn [app map fst]; [|auto].
  constructor; [|auto]. intros Hin. apply Hck.
  now apply staged_keys_in_mapping in Hin.
Qed.

End Backfill.

(** *** The import on a concrete document *)

(** With collaborators that never fail the document is imported whole: the
    base record, one console port and two interfaces in table order, the
    front image (the .png), and the custom fields of the weight and of the
    front-image flag. *)
Example import_pa850 :
  import_device_type_with_images Fixtures.calm Fixtures.pa850_yaml
    (Some Fixtures.repo) (Some JobLogger) Fixtures.fresh_world
  = (Returned
       {| dt_pk := 7; dt_manufacturer := 1; dt_model := lit "PA-850";
          dt_front_image := Some (lit "devicetype-images/palo-alto-pa-850.front.png");
          dt_rear_image := None;
          dt_cf := [ (lit "cf_weight", VNum 5); (lit "cf_front_image", VBool true) ] |},
     {| manufacturers := [Fixtures.palo_alto];
        device_types :=
          [ {| dt_pk := 7; dt_manufacturer := 1; dt_model := lit "PA-850";
               dt_front_image :=
                 Some (lit "devicetype-images/palo-alto-pa-850.front.png");
               dt_rear_image := None;
               dt_cf := [ (lit "cf_weight", VNum 5);
                          (lit "cf_front_image", VBool true) ] |} ];
        templates :=
          [ {| ct_class := ConsolePortTemplate; ct_device_type := 7;
               ct_fields := [ (lit "name", VStr (lit "console")) ] |};
            {| ct_class := InterfaceTemplate; ct_device_type := 7;
               ct_fields := [ (lit "name", VStr (lit "ethernet1/1"));
                              (lit "type", VStr (lit "1000base-t")) ] |};
            {| ct_class := InterfaceTemplate; ct_device_type := 7;
               ct_fields := [ (lit "name", VStr (lit "ethernet1/2"));
                              (lit "type", VStr (lit "1000base-t")) ] |} ];
        media := [ (lit "devicetype-images/palo-alto-pa-850.front.png",
                    [137; 80; 78; 71]%N) ];
        journal :=
          [ (INFO, CreatedDeviceType Fixtures.palo_alto (VStr (lit "PA-850"))
                     Fixtures.pa850);
            (INFO, CreatedComponents 1 (lit "console-ports") (VStr (lit "PA-850")));
            (INFO, CreatedComponents 2 (lit "interfaces") (VStr (lit "PA-850")));
            (INFO, ImportedImage Front (lit "palo-alto-pa-850.front.png"));
            (INFO, SetCustomFields [lit "cf_weight"; lit "cf_front_image"]) ] |}).
Proof. reflexivity. Qed.

(** C1. A document whose manufacturer and model are those of a persisted
    device type is refused with the [ValueError] of the existence check,
    and the import leaves the world as it found it: no base record, no
    component, no image, no custom field, no log record. *)
Theorem duplicate_import_fails_without_effect (env : Collaborators)
  (data : pydict) (git_repo : option Resolver.GitRepository)
  (logger : option Logger) (w : world) (m : Manufacturer) (d : DeviceType)
  (Hunique : unique_keys w)
  (Hm : In m (manufacturers w))
  (Hd : In d (device_types w))
  (Hfk : dt_manufacturer d = mf_pk m)
  (Hname : dict_get (lit "manufacturer") data = VStr (mf_name m))
  (Hmodel : dict_get (lit "model") data = VStr (dt_model d)) :
  import_device_type_with_images env data git_repo logger w
  = (Raised (ValueError (AlreadyExists (VStr (dt_model d)) m)), w).
Proof.
  unfold import_device_type_with_images, bind at 1.
  rewrite Hname, (Manufacturer_objects_get_unique env m Hunique Hm).
  rewrite Hmodel. unfold bind at 1.
  unfold check_not_existing, suppress_DoesNotExist, try_except, bind at 1.
  now rewrite (DeviceType_objects_get_unique env m d Hunique Hd Hfk).
Qed.

Lemma duplicate_import_fails_without_effect_witness :
  import_device_type_with_images Fixtures.calm Fixtures.pa850_yaml
    (Some Fixtures.repo) (Some JobLogger) Fixtures.world_with_pa850
  = (Raised (ValueError (AlreadyExists (VStr (lit "PA-850")) Fixtures.palo_alto)),
     Fixtures.world_with_pa850).
Proof.
  apply (duplicate_import_fails_without_effect Fixtures.calm Fixtures.pa850_yaml
           (Some Fixtures.repo) (Some JobLogger)
           (w := Fixtures.world_with_pa850) Fixtures.palo_alto Fixtures.pa850).
  - split; cbn; repeat constructor; cbn; tauto.
  - cbn. tauto.
  - cbn. tauto.
  - reflexivity.
  - reflexivity.
  - reflexivity.
Defined.

(** C8, as the specification states it, fails: the insert of the form is
    refused by the uniqueness constraint after the existence check has
    passed, and the import raises that [IntegrityError], which is not the
    [ValueError] of a duplicate. *)
Lemma creation_integrity_error_is_not_duplicate_error :
  check_not_existing Fixtures.racing (VStr (lit "PA-850")) Fixtures.palo_alto
    Fixtures.fresh_world
  = (Returned tt, Fixtures.fresh_world)
  /\ form_save Fixtures.racing Fixtures.pa850_yaml Fixtures.fresh_world
     = Raised IntegrityError
  /\ import_device_type_with_images Fixtures.racing Fixtures.pa850_yaml
       (Some Fixtures.repo) (Some JobLogger) Fixtures.fresh_world
     = (Raised IntegrityError, Fixtures.fresh_world)
  /\ is_ValueError IntegrityError = false.
Proof. repeat split. Qed.

(** C8, amended. When the existence check has passed and the form's save
    raises, the import raises that same exception, whatever it is, and has
    changed nothing; no exception of the creation is turned into the
    [ValueError] of a duplicate. *)
Theorem creation_error_propagates_unchanged (env : Collaborators)
  (data : pydict) (git_repo : option Resolver.GitRepository)
  (logger : option Logger) (w : world) (m : Manufacturer) (e : exn)
  (Hm : Manufacturer_objects_get env (dict_get (lit "manufacturer") data) w
        = (Returned m, w))
  (Hcheck : check_not_existing env (dict_get (lit "model") data) m w = (Returned tt, w))
  (Hsave : form_save env data w = Raised e) :
  import_device_type_with_images env data git_repo logger w = (Raised e, w).
Proof.
  unfold import_device_type_with_images, bind at 1. rewrite Hm.
  unfold bind at 1. rewrite Hcheck.
  unfold bind at 1, DeviceTypeImportForm_save. now rewrite Hsave.
Qed.

Lemma creation_error_propagates_unchanged_witness :
  import_device_type_with_images Fixtures.racing Fixtures.pa850_yaml
    (Some Fixtures.repo) (Some JobLogger) Fixtures.fresh_world
  = (Raised IntegrityError, Fixtures.fresh_world).
Proof.
  apply (@creation_error_propagates_unchanged Fixtures.racing Fixtures.pa850_yaml
           (Some Fixtures.repo) (Some JobLogger) Fixtures.fresh_world
           Fixtures.palo_alto IntegrityError); reflexivity.
Defined.

(** C6. Materializing the [interfaces] list of a document: every item
    loses [poe_mode] and [poe_type] before the component is constructed
    (its other fields stay as they are), as many components are created as
    there are items, and they are bulk-created in the order of the items. *)
Theorem interfaces_materialized_without_poe (env : Collaborators)
  (data : pydict) (devtype : DeviceType) (logger : option Logger)
  (model : value) (w : world) (rows : list pydict)
  (Hdata : dict_lookup (lit "interfaces") data = Some (VList (map VDict rows)))
  (Hinit : forall fields, In fields rows ->
             init_error env InterfaceTemplate devtype
               (strip_fields (lit "interfaces") fields) = None) :
  let created :=
    map (fun fields => {| ct_class := InterfaceTemplate;
                          ct_device_type := dt_pk devtype;
                          ct_fields := strip_fields (lit "interfaces") fields |}) rows in
  bulk_create_error env InterfaceTemplate created w = None ->
  materialize env data devtype logger model (lit "interfaces", InterfaceTemplate) w
  = emit logger INFO (CreatedComponents (List.length rows) (lit "interfaces") model)
      (set_templates (templates w ++ created) w)
  /\ List.length created = List.length rows
  /\ (forall i fields, nth_error rows i = Some fields ->
        exists obj, nth_error created i = Some obj
                    /\ ct_fields obj = strip_fields (lit "interfaces") fields)
  /\ (forall fields k,
        dict_lookup k (strip_fields (lit "interfaces") fields)
        = if eqb k (lit "poe_mode") || eqb k (lit "poe_type") then None
          else dict_lookup k fields).
Proof.
  intros created Hbulk. repeat split.
  - cbn [materialize]. rewrite Hdata.
    unfold bind at 1, lift, component_list. cbn [iterate].
    rewrite (comprehension_map _
               (fun item => match item with
                            | VDict fields =>
                                {| ct_class := InterfaceTemplate;
                                   ct_device_type := dt_pk devtype;
                                   ct_fields := strip_fields (lit "interfaces") fields |}
                            | _ => {| ct_class := InterfaceTemplate;
                                      ct_device_type := dt_pk devtype;
                                      ct_fields := [] |}
                            end)).
    + rewrite map_map. change (map _ rows) with created.
      unfold bind at 1, bulk_create. rewrite Hbulk.
      unfold created at 1. now rewrite length_map.
    + intros item Hitem. apply in_map_iff in Hitem as (fields & <- & Hin).
      cbn [build_component]. now rewrite (Hinit _ Hin).
  - apply length_map.
  - intros i fields Hi. unfold created. rewrite nth_error_map, Hi. cbn.
    eexists. split; reflexivity.
  - intros fields k. unfold strip_fields.
    change (strip_keywords_get (lit "interfaces")) with [lit "poe_mode"; lit "poe_type"].
    rewrite dict_lookup_strip. cbn [mem existsb]. now rewrite orb_false_r.
Qed.

Lemma interfaces_materialized_without_poe_witness :
  materialize Fixtures.calm Fixtures.pa850_yaml Fixtures.pa850 (Some JobLogger)
    (VStr (lit "PA-850")) (lit "interfaces", InterfaceTemplate) Fixtures.fresh_world
  = (Returned tt,
     {| manufacturers := [Fixtures.palo_alto]; device_types := [];
        templates :=
          [ {| ct_class := InterfaceTemplate; ct_device_type := 7;
               ct_fields := [ (lit "name", VStr (lit "ethernet1/1"));
                              (lit "type", VStr (lit "1000base-t")) ] |};
            {| ct_class := InterfaceTemplate; ct_device_type := 7;
               ct_fields := [ (lit "name", VStr (lit "ethernet1/2"));
                              (lit "type", VStr (lit "1000base-t")) ] |} ];
        media := [];
        journal := [(INFO, CreatedComponents 2 (lit "interfaces")
                             (VStr (lit "PA-850")))] |}).
Proof.
  apply (interfaces_materialized_without_poe Fixtures.calm Fixtures.pa850_yaml
           Fixtures.pa850 (Some JobLogger) (VStr (lit "PA-850"))
           Fixtures.fresh_world [Fixtures.eth1; Fixtures.eth2]).
  - reflexivity.
  - intros fields _. reflexivity.
  - reflexivity.
Defined.

(** C10. Only the keys of [COMPONENTS] are materialized, in the order of
    that table (console-ports, console-server-ports, power-ports,
    power-outlets, interfaces, rear-ports, front-ports, device-bays,
    module-bays): the loop does what materializing the present kinds one
    after the other in table order does; it depends on the document only
    through those nine keys, so the order of the keys in the document does
    not matter and any other key changes nothing. *)
Theorem components_follow_table_order (env : Collaborators) (data : pydict)
  (devtype : DeviceType) (logger : option Logger) (model : value) :
  map fst COMPONENTS
  = [ lit "console-ports"; lit "console-server-ports"; lit "power-ports";
      lit "power-outlets"; lit "interfaces"; lit "rear-ports"; lit "front-ports";
      lit "device-bays"; lit "module-bays" ]
  /\ (forall w,
        import_components env data devtype logger model w
        = for_each (materialize env data devtype logger model)
            (filter (fun entry => dict_contains (fst entry) data) COMPONENTS) w)
  /\ (forall data' w,
        (forall key, In key (map fst COMPONENTS) ->
                     dict_lookup key data' = dict_lookup key data) ->
        import_components env data' devtype logger model w
        = import_components env data devtype logger model w)
  /\ (forall data' w,
        Permutation data data' -> NoDup (map fst data) ->
        import_components env data' devtype logger model w
        = import_components env data devtype logger model w)
  /\ (forall key v w,
        ~ In key (map fst COMPONENTS) ->
        import_components env ((key, v) :: data) devtype logger model w
        = import_components env data devtype logger model w).
Proof.
  split; [reflexivity|]. split; [intros w; apply for_each_present|].
  split; [intros data' w H; now apply for_each_agree|]. split.
  - intros data' w Hp Hnd. apply for_each_agree. intros key _.
    symmetry. now apply dict_lookup_permutation.
  - intros key v w Hkey. apply for_each_agree. intros k Hk.
    cbn [dict_lookup]. destruct (eqb k key) eqn:E; [|reflexivity].
    apply eqb_eq in E. now subst.
Qed.

(** The same document with its keys in another order and one more key. *)
Lemma components_follow_table_order_witness :
  import_components Fixtures.calm
    ((lit "subdevice_role", VStr (lit "parent")) :: rev Fixtures.pa850_yaml)
    Fixtures.pa850 (Some JobLogger) (VStr (lit "PA-850")) Fixtures.fresh_world
  = import_components Fixtures.calm Fixtures.pa850_yaml
      Fixtures.pa850 (Some JobLogger) (VStr (lit "PA-850")) Fixtures.fresh_world
  /\ map ct_class (templates (snd (import_components Fixtures.calm Fixtures.pa850_yaml
        Fixtures.pa850 (Some JobLogger) (VStr (lit "PA-850")) Fixtures.fresh_world)))
     = [ConsolePortTemplate; InterfaceTemplate; InterfaceTemplate].
Proof.
  split; [|reflexivity].
  apply (proj1 (proj2 (proj2 (components_follow_table_order Fixtures.calm
           Fixtures.pa850_yaml Fixtures.pa850 (Some JobLogger)
           (VStr (lit "PA-850")))))).
  intros key Hkey. cbn in Hkey.
  repeat (destruct Hkey as [<-|Hkey]; [reflexivity|]). contradiction.
Defined.

(** C3. Once the base record and the components are created, the import
    of a document whose manufacturer name is a string returns the record
    whatever happens to the images: the object returned is the record
    created, its row is in the table, and the components are those created
    before the images.  When an image is flagged and resolved and attaching
    it raises (for instance because the file cannot be read), the
    exception is caught and the warning of that failure goes to the
    logger; when the image is flagged and not found, the warning of the
    miss goes to the logger.  A logger that is there has the warning in
    what it received at the end of the import.  The state an image is
    handled in is the one after the components for the front image, and
    the one the front image leaves for the rear.  (A manufacturer name that
    is not a string is not a resolution miss: [os.path.join] refuses it
    with [TypeError], outside the [try].) *)
Theorem image_failure_never_aborts_import (env : Collaborators)
  (data : pydict) (git_repo : option Resolver.GitRepository)
  (logger : option Logger) (w w1 : world) (devtype : DeviceType) (name : pystr)
  (Hstr : dict_get (lit "manufacturer") data = VStr name)
  (Hcreated : create_with_components env data logger w = (Returned devtype, w1)) :
  exists obj w2,
    import_device_type_with_images env data git_repo logger w = (Returned obj, w2)
    /\ dt_pk obj = dt_pk devtype
    /\ In (dt_pk devtype) (map dt_pk (device_types w2))
    /\ templates w2 = templates w1
    /\ forall repo sd,
         git_repo = Some repo ->
         truthy (dict_get (flag_key sd) data) = true ->
         let manufacturer_name := dict_get (lit "manufacturer") data in
         let model := dict_get (lit "model") data in
         let before :=
           match sd with
           | Front => {| persisted := w1; devtype := devtype |}
           | Rear => snd (handle_image env Front data repo manufacturer_name model
                            logger {| persisted := w1; devtype := devtype |})
           end in
         (forall image_path e,
            call_find_elevation_image env repo manufacturer_name model (side_name sd)
            = Returned (Some image_path) ->
            image_path <> [] ->
            fst (attach_body env sd image_path logger before) = Raised e ->
            handle_image env sd data repo manufacturer_name model logger before
            = on_world (emit logger WARNING (FailedImage sd e))
                (snd (attach_body env sd image_path logger before))
            /\ forall lg, logger = Some lg ->
                          In (WARNING, FailedImage sd e) (journal w2))
         /\ (call_find_elevation_image env repo manufacturer_name model (side_name sd)
             = Returned None ->
             handle_image env sd data repo manufacturer_name model logger before
             = on_world (emit logger WARNING (ImageNotFound sd manufacturer_name model))
                 before
             /\ forall lg, logger = Some lg ->
                           In (WARNING, ImageNotFound sd manufacturer_name model)
                              (journal w2)).
Proof.
  pose proof (create_with_components_facts _ _ _ _ Hcreated) as Hrow.
  pose proof Hstr as Hm. set (m := name) in *.
  rewrite import_after_components. unfold bind at 1. rewrite Hcreated.
  unfold with_object.
  set (f0 := {| persisted := w1; devtype := devtype |}).
  set (model := dict_get (lit "model") data).
  unfold bind at 1.
  destruct (returns_preserves f0 (import_images_returns env data git_repo logger model Hm)
              (import_images_enriches env data git_repo logger model))
    as (f1 & E1 & R1).
  rewrite E1.
  destruct (returns_preserves f1 (backfill_returns env data logger)
              (backfill_enriches env data logger)) as (f2 & E2 & R2).
  rewrite E2. exists (Model.devtype f2), (persisted f2).
  pose proof (enriches_trans R1 R2) as R.
  split; [reflexivity|]. split; [exact (same_pk R)|].
  split; [exact (rows_kept R _ Hrow)|]. split; [exact (same_templates R)|].
  intros repo sd -> Hflag.
  set (manufacturer_name := dict_get (lit "manufacturer") data) in *.
  set (before := match sd with Front => f0 | Rear => _ end).
  (* the images, one side after the other *)
  unfold import_images in E1. fold manufacturer_name in E1.
  assert (Hname : manufacturer_name = VStr m) by exact Hm.
  destruct (returns_preserves f0
              (handle_image_returns env Front data repo m model logger)
              (handle_image_enriches env Front data repo (VStr m) model logger))
    as (fa & Ea & Ra).
  rewrite <- Hname in Ea.
  unfold bind at 1 in E1. rewrite Ea in E1.
  assert (Rb : enriches fa f1).
  { pose proof (handle_image_enriches env Rear data repo manufacturer_name model
                  logger fa) as H. now rewrite E1 in H. }
  assert (Hside : forall x,
            In x (journal (persisted (snd (handle_image env sd data repo
                    manufacturer_name model logger before)))) ->
            In x (journal (persisted f2))).
  { intros x Hx. destruct sd; subst before.
    - fold f0 in Hx. rewrite Ea in Hx. cbn [snd] in Hx.
      eapply enriches_journal; [exact R2|].
      eapply enriches_journal; [exact Rb|exact Hx].
    - fold f0 in Hx. rewrite Ea in Hx. cbn [snd] in Hx. rewrite E1 in Hx.
      eapply enriches_journal; [exact R2|exact Hx]. }
  split.
  - intros image_path e Hfind Hpath Hfail.
    pose proof (handle_image_failure env sd data repo manufacturer_name model
                  logger before Hflag Hfind Hpath Hfail) as Heq.
    split; [exact Heq|]. intros lg Hlg. apply Hside. rewrite Heq, Hlg.
    apply emit_journal.
  - intros Hfind.
    pose proof (handle_image_miss env sd data repo manufacturer_name model
                  logger before Hflag Hfind) as Heq.
    split; [exact Heq|]. intros lg Hlg. apply Hside. rewrite Heq, Hlg.
    apply emit_journal.
Qed.

Lemma image_failure_never_aborts_import_witness :
  exists obj w2,
    import_device_type_with_images Fixtures.unreadable Fixtures.pa850_yaml
      (Some Fixtures.repo) (Some JobLogger) Fixtures.fresh_world = (Returned obj, w2)
    /\ dt_pk obj = 7%N
    /\ List.length (templates w2) = 3
    /\ In (WARNING, FailedImage Front OSError) (journal w2).
Proof.
  destruct (@image_failure_never_aborts_import Fixtures.unreadable Fixtures.pa850_yaml
              (Some Fixtures.repo) (Some JobLogger) Fixtures.fresh_world
              (snd (create_with_components Fixtures.unreadable Fixtures.pa850_yaml
                      (Some JobLogger) Fixtures.fresh_world))
              Fixtures.pa850 (lit "Palo Alto") eq_refl eq_refl)
    as (obj & w2 & Himport & Hpk & _ & Htemplates & Hwarn).
  exists obj, w2. split; [exact Himport|]. split; [exact Hpk|].
  split; [now rewrite Htemplates|].
  destruct (Hwarn Fixtures.repo Front eq_refl eq_refl) as [Hfail _].
  destruct (Hfail (lit "/repo/elevation-images/Palo Alto/palo-alto-pa-850.front.png")
              OSError eq_refl ltac:(discriminate) eq_refl) as [_ Hin].
  exact (Hin JobLogger eq_refl).
Defined.

(** C7. The custom-field statements stage, from the six-entry mapping
    (slug, weight, weight unit, airflow, front image, rear image), the
    values of exactly the fields the document has.  With nothing staged they
    do nothing.  Otherwise all staged values are assigned to the custom
    fields of the object and the object is saved once; a save that raises is
    caught and reported as a warning.  The call never raises, and the
    record keeps its key, manufacturer, model and images and every custom
    field that was not staged. *)
Theorem backfill_applies_staged_fields_and_never_raises (env : Collaborators)
  (data : pydict) (logger : option Logger) (f : frame) :
  let cf_data := stage_custom_fields data in
  let obj := apply_custom_fields cf_data (devtype f) in
  custom_field_mapping
  = [ (lit "cf_slug", lit "slug"); (lit "cf_weight", lit "weight");
      (lit "cf_weight_unit", lit "weight_unit"); (lit "cf_airflow", lit "airflow");
      (lit "cf_front_image", lit "front_image");
      (lit "cf_rear_image", lit "rear_image") ]
  /\ cf_data
     = flat_map (fun entry => match dict_lookup (snd entry) data with
                              | Some v => [(fst entry, v)]
                              | None => []
                              end) custom_field_mapping
  /\ (cf_data = [] -> backfill env data logger f = (Returned tt, f))
  /\ (cf_data <> [] ->
      backfill env data logger f
      = match save_error env obj (persisted f) with
        | None =>
            (Returned tt,
             {| persisted :=
                  snd (emit logger INFO (SetCustomFields (dict_keys cf_data))
                         (set_device_types (upsert obj (device_types (persisted f)))
                            (persisted f)));
                devtype := obj |})
        | Some e =>
            (Returned tt,
             {| persisted := snd (emit logger WARNING (FailedCustomFields e) (persisted f));
                devtype := obj |})
        end)
  /\ (exists f', backfill env data logger f = (Returned tt, f')
                 /\ devtype f' = obj /\ enriches f f')
  /\ (forall k, dict_lookup k (dt_cf obj)
                = match dict_lookup k cf_data with
                  | Some v => Some v
                  | None => dict_lookup k (dt_cf (devtype f))
                  end)
  /\ dt_pk obj = dt_pk (devtype f)
  /\ dt_manufacturer obj = dt_manufacturer (devtype f)
  /\ dt_model obj = dt_model (devtype f)
  /\ dt_front_image obj = dt_front_image (devtype f)
  /\ dt_rear_image obj = dt_rear_image (devtype f).
Proof.
  intros cf_data obj.
  assert (Hsome : cf_data <> [] ->
            backfill env data logger f
            = match save_error env obj (persisted f) with
              | None =>
                  (Returned tt,
                   {| persisted :=
                        snd (emit logger INFO (SetCustomFields (dict_keys cf_data))
                               (set_device_types
                                  (upsert obj (device_types (persisted f)))
                                  (persisted f)));
                      devtype := obj |})
              | Some e =>
                  (Returned tt,
                   {| persisted :=
                        snd (emit logger WARNING (FailedCustomFields e) (persisted f));
                      devtype := obj |})
              end).
  { intros Hne. unfold backfill. fold cf_data.
    destruct cf_data as [|kv rest] eqn:Ecf; [contradiction|].
    unfold try_except, bind, modify_object, get_object, on_world, model_save.
    cbn [persisted devtype]. fold obj.
    destruct (save_error env obj (persisted f)); unfold emit; now destruct logger. }
  assert (Hnone : cf_data = [] -> backfill env data logger f = (Returned tt, f)).
  { intros E. unfold backfill. fold cf_data. now rewrite E. }
  split; [reflexivity|]. split; [apply stage_custom_fields_present|].
  split; [exact Hnone|]. split; [exact Hsome|]. split.
  - pose proof (backfill_enriches env data logger f) as He.
    destruct cf_data as [|kv rest] eqn:Ecf.
    + exists f. rewrite Hnone by reflexivity.
      split; [reflexivity|]. split; [reflexivity | apply enriches_refl].
    + rewrite Hsome in * by discriminate.
      destruct (save_error env obj (persisted f)); eexists;
        (split; [reflexivity|]); (split; [reflexivity | exact He]).
  - split; [intros k; apply apply_custom_fields_lookup, stage_custom_fields_NoDup|].
    split; [apply apply_custom_fields_pk|]. apply apply_custom_fields_columns.
Qed.

Lemma backfill_applies_staged_fields_and_never_raises_witness :
  backfill Fixtures.unsavable Fixtures.pa850_yaml (Some JobLogger)
    {| persisted := Fixtures.world_with_pa850; devtype := Fixtures.pa850 |}
  = (Returned tt,
     {| persisted :=
          set_journal [(WARNING, FailedCustomFields ValidationError)]
            Fixtures.world_with_pa850;
        devtype := set_cf [ (lit "cf_weight", VNum 5);
                            (lit "cf_front_image", VBool true) ] Fixtures.pa850 |}).
Proof.
  apply (proj1 (proj2 (proj2 (proj2
          (backfill_applies_staged_fields_and_never_raises Fixtures.unsavable
             Fixtures.pa850_yaml (Some JobLogger)
             {| persisted := Fixtures.world_with_pa850;
                devtype := Fixtures.pa850 |}))))).
  discriminate.
Defined.

End ImporterFacts.

(** ** Slug generator: further properties *)

Module SlugMore.

Import Slug StrFacts SlugFacts.

(** *** Names that differ in ASCII case *)

Lemma ascii_lower_idempotent c : ascii_lower (ascii_lower c) = ascii_lower c.
Proof.
  unfold ascii_lower. destruct (is_upper c) eqn:E; [|now rewrite E].
  replace (is_upper (c + 32)) with false; [reflexivity|].
  symmetry. char_arith.
Qed.

Lemma ascii_lower_ascii c : is_ascii c = true -> is_ascii (ascii_lower c) = true.
Proof.
  unfold ascii_lower. destruct (is_upper c) eqn:E; [|trivial]. intros _. char_arith.
Qed.

Lemma forallb_ascii_lower s :
  forallb is_ascii s = true -> forallb is_ascii (map ascii_lower s) = true.
Proof.
  induction s as [|c t IH]; [trivial|]. cbn [forallb map]. intros H.
  apply andb_true_iff in H as [Hc Ht]. now rewrite (ascii_lower_ascii _ Hc), IH.
Qed.

(** X1. On ASCII names the slug does not see the case of the letters:
    lowering manufacturer and model beforehand gives the same slug. *)
Theorem slugify_ignores_ascii_case (str_lower : pystr -> pystr)
  (Hlower : lowers_ascii str_lower) (m d : pystr)
  (Hm : forallb is_ascii m = true) (Hd : forallb is_ascii d = true) :
  slugify_device_name str_lower (map ascii_lower m) (map ascii_lower d)
  = slugify_device_name str_lower m d.
Proof.
  unfold slugify_device_name.
  assert (E : str_lower (map ascii_lower m ++ lit " " ++ map ascii_lower d)
              = str_lower (m ++ lit " " ++ d)).
  { rewrite !Hlower.
    - rewrite !map_app, !map_map. cbn [map lit].
      f_equal; [|f_equal]; apply map_ext; intros c; apply ascii_lower_idempotent.
    - rewrite !forallb_app, Hm, Hd. reflexivity.
    - rewrite !forallb_app, !forallb_ascii_lower by assumption. reflexivity. }
  now rewrite E.
Qed.

Lemma slugify_ignores_ascii_case_witness :
  slugify_device_name lower_ascii_only (map ascii_lower (lit "Palo Alto"))
    (map ascii_lower (lit "PA-850"))
  = slugify_device_name lower_ascii_only (lit "Palo Alto") (lit "PA-850").
Proof.
  apply (slugify_ignores_ascii_case (str_lower := lower_ascii_only)).
  - intros s _. reflexivity.
  - reflexivity.
  - reflexivity.
Defined.

(** *** When the slug is empty *)

Lemma collapse_In_inv cls s c :
  In c (collapse_runs cls s) -> c = HYPHEN \/ (In c s /\ cls c = false).
Proof.
  induction s as [|a t IH]; [contradiction|].
  cbn [collapse_runs]. destruct (cls a) eqn:Ea.
  - destruct t as [|a' t'].
    + intros [<-|[]]. now left.
    + destruct (cls a') eqn:Ea'.
      * intros H. destruct (IH H) as [->|[Hin Hc]]; [now left|right].
        split; [now right|exact Hc].
      * intros [<-|H]; [now left|].
        destruct (IH H) as [->|[Hin Hc]]; [now left|right].
        split; [now right|exact Hc].
  - intros [<-|H]; [right; split; [now left|exact Ea]|].
    destruct (IH H) as [->|[Hin Hc]]; [now left|right]. split; [now right|exact Hc].
Qed.

Lemma collapse_In cls s c :
  In c s -> cls c = false -> In c (collapse_runs cls s).
Proof.
  intros Hin Hc. induction s as [|a t IH]; [contradiction|].
  cbn [collapse_runs]. destruct Hin as [->|Hin].
  - rewrite Hc. now left.
  - specialize (IH Hin). destruct (cls a).
    + destruct t as [|a' t']; [contradiction|].
      destruct (cls a'); [exact IH | now right].
    + now right.
Qed.

Lemma trim_leading_In s c :
  In c s -> c <> HYPHEN -> In c (trim_leading s).
Proof.
  intros Hin Hc. induction s as [|a t IH]; [contradiction|].
  cbn [trim_leading]. destruct (a =? HYPHEN)%N eqn:Ea; [|exact Hin].
  apply N.eqb_eq in Ea. destruct Hin as [->|Hin]; [contradiction|auto].
Qed.

Lemma trim_trailing_In s c :
  In c s -> c <> HYPHEN -> In c (trim_trailing s).
Proof.
  intros Hin Hc. induction s as [|a t IH] using rev_ind; [contradiction|].
  rewrite trim_trailing_snoc. destruct (a =? HYPHEN)%N eqn:Ea; [|exact Hin].
  apply N.eqb_eq in Ea. apply in_app_or in Hin as [Hin|[->|[]]]; [auto|contradiction].
Qed.

Lemma alnum_facts c :
  is_lower c || is_digit c = true ->
  c <> HYPHEN /\ space_or_underscore c = false /\ slug_char c = true.
Proof. intros H. repeat split; [intros -> | |]; char_arith. Qed.

(** A letter or digit of the lowered name is in the slug, and the letters
    and digits of the slug come from the lowered name. *)
Lemma slugify_spec_alnum lower m d c :
  is_lower c || is_digit c = true ->
  In c (slugify_spec lower m d) <-> In c (lower (m ++ [SPACE] ++ d)).
Proof.
  intros Hc. destruct (alnum_facts _ Hc) as (Hh & Hs & Hk).
  assert (Hh' : (c =? HYPHEN)%N = false) by now apply N.eqb_neq.
  unfold slugify_spec. split.
  - intros H.
    destruct (trim_trailing_prefix
                (trim_leading (collapse_runs (fun c => (c =? HYPHEN)%N)
                  (keep_slug_chars (collapse_runs
                     (fun c => is_space c || (c =? UNDERSCORE)%N)
                     (lower (m ++ [SPACE] ++ d))))))) as [r Hr].
    destruct (trim_leading_suffix
                (collapse_runs (fun c => (c =? HYPHEN)%N)
                  (keep_slug_chars (collapse_runs
                     (fun c => is_space c || (c =? UNDERSCORE)%N)
                     (lower (m ++ [SPACE] ++ d)))))) as [l Hl].
    assert (H1 : In c (collapse_runs (fun c => (c =? HYPHEN)%N)
                  (keep_slug_chars (collapse_runs
                     (fun c => is_space c || (c =? UNDERSCORE)%N)
                     (lower (m ++ [SPACE] ++ d)))))).
    { rewrite Hl. apply in_or_app. right. rewrite Hr. apply in_or_app. now left. }
    apply collapse_In_inv in H1 as [->|[H1 _]]; [contradiction|].
    unfold keep_slug_chars in H1. apply filter_In in H1 as [H1 _].
    apply collapse_In_inv in H1 as [->|[H1 _]]; [contradiction|exact H1].
  - intros H. apply trim_trailing_In; [|exact Hh].
    apply trim_leading_In; [|exact Hh].
    apply collapse_In; [|exact Hh'].
    unfold keep_slug_chars. apply filter_In. split; [|exact Hk].
    apply collapse_In; [exact H | exact Hs].
Qed.

(** X2. The slug is empty exactly when the lowered "manufacturer model"
    has no ASCII letter and no digit. *)
Theorem slugify_empty_iff_no_letter_or_digit (str_lower : pystr -> pystr)
  (m d : pystr) :
  slugify_device_name str_lower m d = []
  <-> existsb (fun c => is_lower c || is_digit c) (str_lower (m ++ lit " " ++ d))
      = false.
Proof.
  rewrite slugify_refines. change (lit " ") with [SPACE]. split.
  - intros E. apply not_true_iff_false. intros H.
    apply existsb_exists in H as (c & Hin & Hc).
    apply (slugify_spec_alnum str_lower m d c Hc) in Hin. now rewrite E in Hin.
  - intros H.
    destruct (slugify_spec str_lower m d) as [|c t] eqn:E; [reflexivity|].
    exfalso. pose proof (slugify_spec_well_formed str_lower m d) as W.
    rewrite E in W. destruct W as [Wc Wl _ _].
    apply Forall_inv in Wc.
    assert (Hc : is_lower c || is_digit c = true).
    { unfold slug_char in Wc. apply orb_true_iff in Wc as [Wc|Wc]; [exact Wc|].
      apply is_hyphen_eq in Wc as ->. exfalso. apply Wl. now exists t. }
    assert (Hin : In c (str_lower (m ++ [SPACE] ++ d))).
    { apply (slugify_spec_alnum str_lower m d c Hc). rewrite E. now left. }
    apply not_true_iff_false in H. apply H. apply existsb_exists. now exists c.
Qed.

(** *** The slug of two slugs *)

Lemma lower_fixes_slug_text lower s :
  lowers_ascii lower ->
  Forall (fun c => slug_char c = true \/ c = SPACE) s -> lower s = s.
Proof.
  intros Hl Hs. rewrite Hl.
  - induction Hs as [|c t Hc Ht IH]; [reflexivity|].
    cbn [map]. rewrite IH. unfold ascii_lower.
    replace (is_upper c) with false; [reflexivity|].
    symmetry. destruct Hc as [Hc| ->]; [now apply slug_char_not_upper|reflexivity].
  - apply forallb_forall. intros c Hc.
    apply (proj1 (Forall_forall _ _) Hs) in Hc as [Hc| ->];
      [now apply slug_char_ascii|reflexivity].
Qed.

Lemma collapse_none cls s :
  Forall (fun x => cls x = false) s -> collapse_runs cls s = s.
Proof.
  induction 1 as [|c t Hc Ht IH]; [reflexivity|].
  cbn [collapse_runs]. now rewrite Hc, IH.
Qed.

Lemma collapse_single_separator cls a c b :
  Forall (fun x => cls x = false) a -> cls c = true ->
  Forall (fun x => cls x = false) b ->
  collapse_runs cls (a ++ c :: b) = a ++ HYPHEN :: b.
Proof.
  intros Ha Hc Hb. induction Ha as [|x t Hx Ht IH]; cbn [app collapse_runs].
  - rewrite Hc. destruct Hb as [|y r Hy Hr]; [reflexivity|].
    rewrite Hy. f_equal. apply collapse_none. now constructor.
  - now rewrite Hx, IH.
Qed.

Lemma adjacent_hyphens_app l r :
  adjacent_hyphens l = false -> adjacent_hyphens r = false ->
  (trailing_hyphen l -> leading_hyphen r -> False) ->
  adjacent_hyphens (l ++ r) = false.
Proof.
  intros Hl Hr Hlr. induction l as [|c t IH]; [exact Hr|].
  cbn [app adjacent_hyphens] in *. apply orb_false_iff in Hl as [H1 H2].
  apply orb_false_iff. split.
  - destruct t as [|c' t']; [|exact H1]. cbn [app].
    destruct (is_hyphen c) eqn:Ec; [|reflexivity]. cbn [andb].
    destruct r as [|x r']; [reflexivity|].
    apply not_true_iff_false. intros Hx. apply Hlr.
    + apply is_hyphen_eq in Ec as ->. now exists [].
    + apply is_hyphen_eq in Hx as ->. now exists r'.
  - apply IH; [exact H2|]. intros [u Hu] Hlead. apply Hlr; [|exact Hlead].
    exists (c :: u). cbn. now rewrite Hu.
Qed.

Lemma not_doubled_adjacent s : ~ doubled_hyphen s -> adjacent_hyphens s = false.
Proof.
  intros H. apply not_true_iff_false. intros E. apply H.
  now apply adjacent_hyphens_true.
Qed.

(** X3. The slug of two slugs: for well-formed, non-empty slugs [a] and
    [b], slugifying [a] as manufacturer and [b] as model joins them with
    one hyphen. *)
Theorem slugify_joins_slugs (str_lower : pystr -> pystr)
  (Hlower : lowers_ascii str_lower) (a b : pystr)
  (Ha : well_formed_slug a) (Hb : well_formed_slug b)
  (Hna : a <> []) (Hnb : b <> []) :
  slugify_device_name str_lower a b = a ++ lit "-" ++ b.
Proof.
  destruct Ha as [Ca La Ta Da], Hb as [Cb Lb Tb Db].
  rewrite slugify_refines. unfold slugify_spec. change (lit "-") with [HYPHEN].
  rewrite (lower_fixes_slug_text (lower := str_lower) (s := a ++ [SPACE] ++ b) Hlower).
  2:{ apply Forall_app. split; [eapply Forall_impl; [|exact Ca]; now left|].
      constructor; [now right|]. eapply Forall_impl; [|exact Cb]. now left. }
  cbn [app]. rewrite collapse_single_separator; [| |reflexivity|].
  2:{ eapply Forall_impl; [|exact Ca]. intros c. apply slug_char_not_space. }
  2:{ eapply Forall_impl; [|exact Cb]. intros c. apply slug_char_not_space. }
  rewrite keep_slug_chars_id.
  2:{ apply Forall_app. split; [exact Ca|]. now constructor. }
  change (fun c : N => (c =? HYPHEN)%N) with is_hyphen.
  rewrite collapse_no_adjacent_id.
  2:{ apply adjacent_hyphens_app.
      - now apply not_doubled_adjacent.
      - change (HYPHEN :: b) with ([HYPHEN] ++ b). apply adjacent_hyphens_app.
        + reflexivity.
        + now apply not_doubled_adjacent.
        + intros _ H. now apply Lb.
      - intros H _. now apply Ta. }
  destruct a as [|c t]; [contradiction|].
  cbn [app trim_leading]. destruct (c =? HYPHEN)%N eqn:Ec.
  { apply N.eqb_eq in Ec as ->. exfalso. apply La. now exists t. }
  apply trim_trailing_id. intros [u Hu].
  destruct (exists_last Hnb) as (b' & x & ->).
  assert (E : c :: t ++ HYPHEN :: b' ++ [x] = ((c :: t) ++ HYPHEN :: b') ++ [x])
    by now rewrite <- app_assoc.
  rewrite E in Hu. apply app_inj_tail in Hu as [_ ->]. apply Tb. now exists b'.
Qed.

Lemma slugify_joins_slugs_witness :
  slugify_device_name lower_ascii_only (lit "palo-alto") (lit "pa-850")
  = lit "palo-alto" ++ lit "-" ++ lit "pa-850".
Proof.
  assert (W : forall m d, well_formed_slug (slugify_device_name lower_ascii_only m d))
    by (intros m d; rewrite slugify_refines; apply slugify_spec_well_formed).
  apply (slugify_joins_slugs (str_lower := lower_ascii_only)).
  - intros s _. reflexivity.
  - exact (W (lit "Palo") (lit "Alto")).
  - exact (W (lit "PA") (lit "850")).
  - discriminate.
  - discriminate.
Defined.

End SlugMore.

(** ** Image resolver: further properties *)

Module ResolverMore.

Import Resolver StrFacts ResolverFacts.

(** *** What a result means *)

(** X4. A path was found: the directory exists, the path is the candidate of
    one of the four extensions, and it exists.  Nothing was found: the
    directory is missing or none of the four candidates exists. *)
Theorem resolve_sound_and_complete
  (str_lower : pystr -> pystr) (path_exists : pystr -> bool)
  (repo : GitRepository) (m d t : pystr) :
  (forall p, find_elevation_image str_lower path_exists repo m d t = Some p ->
     path_exists (elevation_dir repo m) = true
     /\ path_exists p = true
     /\ exists ext, In ext extensions /\ p = candidate str_lower repo m d t ext)
  /\ (find_elevation_image str_lower path_exists repo m d t = None ->
      path_exists (elevation_dir repo m) = false
      \/ forall ext, In ext extensions ->
                     path_exists (candidate str_lower repo m d t ext) = false).
Proof.
  destruct (path_exists (elevation_dir repo m)) eqn:E.
  - rewrite (find_elevation_image_first str_lower path_exists repo m d t E). split.
    + intros p H. apply find_some in H as [Hin Hp].
      apply in_map_iff in Hin as (ext & <- & Hext). repeat split; eauto.
    + intros H. right. intros ext Hext.
      apply (find_none _ _ H). now apply in_map.
  - rewrite (find_elevation_image_no_dir str_lower path_exists repo m d t E). split.
    + discriminate.
    + now left.
Qed.

Lemma resolve_sound_and_complete_witness :
  Fixtures.png_and_jpg_exist (lit "/repo/elevation-images/Palo Alto") = true
  /\ Fixtures.png_and_jpg_exist
       (lit "/repo/elevation-images/Palo Alto/palo-alto-pa-850.front.png") = true.
Proof.
  destruct (proj1 (resolve_sound_and_complete Slug.lower_ascii_only
                     Fixtures.png_and_jpg_exist {| filesystem_path := lit "/repo" |}
                     (lit "Palo Alto") (lit "PA-850") (lit "front"))
              (lit "/repo/elevation-images/Palo Alto/palo-alto-pa-850.front.png")
              eq_refl) as (Hdir & Hfile & _).
  split; [exact Hdir | exact Hfile].
Defined.

(** *** The name of the file that is found *)

Lemma basename_no_sep p : Keeps.has_sep p = false -> Path.basename p = p.
Proof.
  destruct p as [|c t]; [reflexivity|]. unfold Keeps.has_sep. intros H.
  cbn [Path.basename]. now rewrite H.
Qed.

Lemma basename_after_sep l fn :
  Keeps.has_sep fn = false -> Path.basename (l ++ Path.SEP :: fn) = fn.
Proof.
  intros H. induction l as [|c t IH]; cbn [app Path.basename].
  - cbn [existsb]. rewrite N.eqb_refl. cbn [orb]. now apply basename_no_sep.
  - replace (existsb _ (c :: t ++ Path.SEP :: fn)) with true; [exact IH|].
    symmetry. apply existsb_exists. exists Path.SEP. split; [|apply N.eqb_refl].
    right. apply in_or_app. right. now left.
Qed.

Lemma endswith_sep_split p :
  Path.endswith_sep p = true -> exists q, p = q ++ [Path.SEP].
Proof.
  unfold Path.endswith_sep. destruct (rev p) as [|c r] eqn:E; [discriminate|].
  intros H. apply N.eqb_eq in H as ->. exists (rev r).
  rewrite <- (rev_involutive p), E. reflexivity.
Qed.

Lemma basename_join dir fn :
  Keeps.has_sep fn = false -> Path.basename (Path.join dir [fn]) = fn.
Proof.
  intros H. unfold Path.join. cbn [fold_left]. unfold Path.join2.
  assert (Hs : Path.startswith_sep fn = false).
  { destruct fn as [|c t]; [reflexivity|]. unfold Keeps.has_sep in H. cbn in H.
    now apply orb_false_iff in H as [H _]. }
  rewrite Hs. destruct dir as [|c t].
  - now apply basename_no_sep.
  - destruct (Path.endswith_sep (c :: t)) eqn:E.
    + destruct (endswith_sep_split _ E) as [q ->].
      rewrite <- app_assoc. now apply basename_after_sep.
    + now apply basename_after_sep.
Qed.

Lemma slug_has_no_sep str_lower m d :
  Keeps.has_sep (Slug.slugify_device_name str_lower m d) = false.
Proof.
  rewrite SlugFacts.slugify_refines.
  destruct (SlugFacts.slugify_spec_well_formed str_lower m d) as [Hc _ _ _].
  unfold Keeps.has_sep. apply not_true_iff_false. intros H.
  apply existsb_exists in H as (c & Hin & Hsep). apply N.eqb_eq in Hsep as ->.
  apply (proj1 (Forall_forall _ _) Hc) in Hin. discriminate Hin.
Qed.

(** X5. The file that is found is named [<slug>.<image_type><ext>], whatever
    the repository root and the manufacturer directory are: that is the
    name [os.path.basename] gives, for an image type without a separator. *)
Theorem resolved_image_basename
  (str_lower : pystr -> pystr) (path_exists : pystr -> bool)
  (repo : GitRepository) (m d t p : pystr)
  (Ht : Keeps.has_sep t = false)
  (Hfound : find_elevation_image str_lower path_exists repo m d t = Some p) :
  exists ext, In ext extensions
    /\ Path.basename p
       = Slug.slugify_device_name str_lower m d ++ lit "." ++ t ++ ext.
Proof.
  destruct (path_exists (elevation_dir repo m)) eqn:E.
  - rewrite (find_elevation_image_first str_lower path_exists repo m d t E) in Hfound.
    apply find_some in Hfound as [Hin _].
    apply in_map_iff in Hin as (ext & <- & Hext). exists ext. split; [exact Hext|].
    unfold candidate. apply basename_join. unfold Keeps.has_sep in *.
    rewrite !existsb_app. fold (Keeps.has_sep (Slug.slugify_device_name str_lower m d)).
    rewrite slug_has_no_sep, Ht. cbn [orb].
    cbn in Hext. destruct Hext as [<-|[<-|[<-|[<-|[]]]]]; reflexivity.
  - rewrite (find_elevation_image_no_dir str_lower path_exists repo m d t E) in Hfound.
    discriminate.
Qed.

Lemma resolved_image_basename_witness :
  exists ext, In ext extensions
    /\ Path.basename (lit "/repo/elevation-images/Palo Alto/palo-alto-pa-850.front.png")
       = Slug.slugify_device_name Slug.lower_ascii_only (lit "Palo Alto") (lit "PA-850")
         ++ lit "." ++ lit "front" ++ ext.
Proof.
  apply (@resolved_image_basename Slug.lower_ascii_only Fixtures.png_and_jpg_exist
           {| filesystem_path := lit "/repo" |} (lit "Palo Alto") (lit "PA-850")
           (lit "front")); reflexivity.
Defined.

(** *** Where the directory is *)

Lemma join2_relative path b :
  Path.startswith_sep b = false -> path <> [] -> Path.endswith_sep path = false ->
  Path.join2 path b = path ++ [Path.SEP] ++ b.
Proof.
  intros Hb Hp He. unfold Path.join2. rewrite Hb, He. now destruct path.
Qed.

Lemma elevation_images_end x :
  x ++ lit "elevation-images" <> []
  /\ Path.endswith_sep (x ++ lit "elevation-images") = false.
Proof.
  split; [now destruct x|].
  unfold Path.endswith_sep. rewrite rev_app_distr. reflexivity.
Qed.

(** X6. The manufacturer name is used as it is in the path.  A name that begins
    with a separator is the whole directory: the repository root and
    [elevation-images] are discarded.  Any other name is appended, after
    one separator, to [<root>/elevation-images]. *)
Theorem elevation_dir_layout (repo : GitRepository) (m : pystr) :
  (Path.startswith_sep m = true -> elevation_dir repo m = m)
  /\ (Path.startswith_sep m = false ->
      filesystem_path repo <> [] ->
      Path.endswith_sep (filesystem_path repo) = false ->
      elevation_dir repo m
      = filesystem_path repo ++ lit "/elevation-images/" ++ m).
Proof.
  unfold elevation_dir, Path.join. cbn [fold_left]. split.
  - intros H. unfold Path.join2 at 1. now rewrite H.
  - intros Hm Hr He.
    rewrite (@join2_relative (filesystem_path repo) (lit "elevation-images")
               eq_refl Hr He).
    change (filesystem_path repo ++ [Path.SEP] ++ lit "elevation-images")
      with (filesystem_path repo ++ lit "/elevation-images").
    rewrite app_assoc.
    destruct (elevation_images_end (filesystem_path repo ++ [Path.SEP])) as [Hn Hs].
    rewrite <- app_assoc in Hn, Hs.
    change ([Path.SEP] ++ lit "elevation-images") with (lit "/elevation-images") in *.
    rewrite (@join2_relative _ m Hm); try assumption.
    rewrite <- !app_assoc. reflexivity.
Qed.

Lemma elevation_dir_layout_witness :
  elevation_dir {| filesystem_path := lit "/repo" |} (lit "/etc") = lit "/etc"
  /\ elevation_dir {| filesystem_path := lit "/repo" |} (lit "Palo Alto")
     = lit "/repo" ++ lit "/elevation-images/" ++ lit "Palo Alto".
Proof.
  split.
  - apply (proj1 (elevation_dir_layout {| filesystem_path := lit "/repo" |}
                    (lit "/etc"))). reflexivity.
  - apply (proj2 (elevation_dir_layout {| filesystem_path := lit "/repo" |}
                    (lit "Palo Alto"))); [reflexivity | discriminate | reflexivity].
Defined.

End ResolverMore.

(** ** Importer: further properties *)

Module ImporterMore.

Import Importer Keeps StrFacts ImporterFacts.

(** *** Before the record is created *)

Lemma filter_all_false {A} (p : A -> bool) (l : list A) :
  (forall x, In x l -> p x = false) -> filter p l = [].
Proof.
  induction l as [|a t IH]; intros H; [reflexivity|].
  cbn [filter]. rewrite (H a (or_introl eq_refl)). apply IH.
  intros x Hx. apply H. now right.
Qed.

(** X7. A manufacturer that is not registered: the import raises
    [Manufacturer.DoesNotExist] and changes nothing.  A document without
    the key [manufacturer] is such a case, whatever is registered. *)
Theorem unknown_manufacturer_fails_without_effect (env : Collaborators)
  (data : pydict) (git_repo : option Resolver.GitRepository)
  (logger : option Logger) (w : world) :
  ((forall m, In m (manufacturers w) ->
              text_matches env (dict_get (lit "manufacturer") data) (mf_name m) = false) ->
   import_device_type_with_images env data git_repo logger w
   = (Raised (DoesNotExist ManufacturerModel), w))
  /\ (dict_lookup (lit "manufacturer") data = None ->
      import_device_type_with_images env data git_repo logger w
      = (Raised (DoesNotExist ManufacturerModel), w)).
Proof.
  assert (H : (forall m, In m (manufacturers w) ->
                 text_matches env (dict_get (lit "manufacturer") data) (mf_name m) = false) ->
              import_device_type_with_images env data git_repo logger w
              = (Raised (DoesNotExist ManufacturerModel), w)).
  { intros Hnone. unfold import_device_type_with_images, bind at 1.
    unfold Manufacturer_objects_get. now rewrite (filter_all_false _ _ Hnone). }
  split; [exact H|]. intros Hkey. apply H. intros m _.
  unfold dict_get. now rewrite Hkey.
Qed.

Lemma unknown_manufacturer_fails_without_effect_witness :
  import_device_type_with_images Fixtures.calm MoreFixtures.cisco_yaml
    (Some Fixtures.repo) (Some JobLogger) Fixtures.world_with_pa850
  = (Raised (DoesNotExist ManufacturerModel), Fixtures.world_with_pa850).
Proof.
  apply (proj1 (unknown_manufacturer_fails_without_effect Fixtures.calm
                  MoreFixtures.cisco_yaml (Some Fixtures.repo) (Some JobLogger)
                  Fixtures.world_with_pa850)).
  intros m [<-|[]]. reflexivity.
Defined.

(** *** The existence check *)

(** X8. The existence check passes exactly when no device type has the
    manufacturer and the model of the document: a device type of the same
    model under another manufacturer does not stand in the way, and a
    document without a model passes the check. *)
Theorem existence_check_passes_iff_no_match (env : Collaborators) (model : value)
  (m : Manufacturer) (w : world) :
  (check_not_existing env model m w = (Returned tt, w)
   <-> forall d, In d (device_types w) ->
                 dt_manufacturer d = mf_pk m ->
                 text_matches env model (dt_model d) = false)
  /\ (model = VNone -> check_not_existing env model m w = (Returned tt, w)).
Proof.
  assert (Hiff : check_not_existing env model m w = (Returned tt, w)
                 <-> forall d, In d (device_types w) ->
                       dt_manufacturer d = mf_pk m ->
                       text_matches env model (dt_model d) = false).
  { unfold check_not_existing, suppress_DoesNotExist, try_except, bind,
      DeviceType_objects_get, raise, ret.
    destruct (filter _ (device_types w)) as [|x r] eqn:E; cbn [objects_get].
    - split; [|reflexivity]. intros _ d Hin Hfk.
      apply not_true_iff_false. intros Hmatch.
      assert (Hf : In d (filter (fun d => text_matches env model (dt_model d)
                                          && (dt_manufacturer d =? mf_pk m)%N)
                           (device_types w))).
      { apply filter_In. split; [exact Hin|]. rewrite Hmatch.
        now apply N.eqb_eq. }
      now rewrite E in Hf.
    - split.
      + destruct r; discriminate.
      + intros H. exfalso.
        assert (Hx : In x (filter (fun d => text_matches env model (dt_model d)
                                            && (dt_manufacturer d =? mf_pk m)%N)
                             (device_types w))) by (rewrite E; now left).
        apply filter_In in Hx as [Hin Hx]. apply andb_true_iff in Hx as [Hx1 Hx2].
        apply N.eqb_eq in Hx2. rewrite (H x Hin Hx2) in Hx1. discriminate. }
  split; [exact Hiff|]. intros ->. apply Hiff. reflexivity.
Qed.

(** The PA-850 of another manufacturer does not block Palo Alto's. *)
Lemma existence_check_passes_iff_no_match_witness :
  check_not_existing Fixtures.calm (VStr (lit "PA-850"))
    {| mf_pk := 2; mf_name := lit "Other" |} Fixtures.world_with_pa850
  = (Returned tt, Fixtures.world_with_pa850).
Proof.
  apply (proj1 (existence_check_passes_iff_no_match Fixtures.calm (VStr (lit "PA-850"))
                  {| mf_pk := 2; mf_name := lit "Other" |} Fixtures.world_with_pa850)).
  intros d [<-|[]]. discriminate.
Defined.

(** *** A component kind that fails *)

Section Kinds.

Variable env : Collaborators.

(** The statements up to the components, once the manufacturer is found,
    the existence check has passed and the form has created its row. *)
Lemma create_with_components_steps data logger w m d :
  Manufacturer_objects_get env (dict_get (lit "manufacturer") data) w = (Returned m, w) ->
  check_not_existing env (dict_get (lit "model") data) m w = (Returned tt, w) ->
  form_save env data w = Returned d ->
  create_with_components env data logger w
  = bind (import_components env data d logger (dict_get (lit "model") data))
      (fun _ => ret d)
      (after_creation logger m (dict_get (lit "model") data) d w).
Proof.
  intros Hm Hc Hf. unfold create_with_components, bind at 1. rewrite Hm.
  unfold bind at 1. rewrite Hc.
  unfold bind at 1, DeviceTypeImportForm_save. rewrite Hf.
  unfold bind at 1, after_creation, emit. now destruct logger.
Qed.

(** A kind that raises leaves the world as it found it. *)
Lemma materialize_raise_unchanged data devtype logger model entry w e w' :
  materialize env data devtype logger model entry w = (Raised e, w') -> w' = w.
Proof.
  destruct entry as [key cls]. cbn [materialize].
  destruct (dict_lookup key data) as [v|]; [|discriminate].
  unfold bind, lift, bulk_create, emit.
  destruct (component_list env key cls devtype v) as [objs|e0]; [|now intros [= _ <-]].
  destruct (bulk_create_error env cls objs w); [now intros [= _ <-]|].
  destruct logger; discriminate.
Qed.

Lemma for_each_raise_split data devtype logger model
  (l : list (pystr * component_class)) w e w' :
  for_each (materialize env data devtype logger model) l w = (Raised e, w') ->
  exists done entry rest,
    l = done ++ entry :: rest
    /\ for_each (materialize env data devtype logger model) done w = (Returned tt, w')
    /\ materialize env data devtype logger model entry w' = (Raised e, w').
Proof.
  revert w. induction l as [|x t IH]; intros w; [discriminate|].
  cbn [for_each]. unfold bind at 1.
  destruct (materialize env data devtype logger model x w) as [[[]|e0] w1] eqn:Ex.
  - intros H. destruct (IH _ H) as (done & entry & rest & -> & Hd & He).
    exists (x :: done), entry, rest. split; [reflexivity|]. split; [|exact He].
    cbn [for_each]. unfold bind at 1. now rewrite Ex.
  - intros [= <- <-]. pose proof (materialize_raise_unchanged _ _ _ _ _ _ Ex) as ->.
    exists [], x, t. repeat split. exact Ex.
Qed.

End Kinds.

(** X9. A component kind that raises ends the import with its exception: the
    base record stays, the kinds before it in [COMPONENTS] stay
    materialized, the failing kind and the kinds after it leave nothing,
    and neither images nor custom fields are attempted. *)
Theorem component_failure_keeps_earlier_kinds (env : Collaborators)
  (data : pydict) (git_repo : option Resolver.GitRepository)
  (logger : option Logger) (w w' : world) (m : Manufacturer) (d : DeviceType)
  (e : exn)
  (Hm : Manufacturer_objects_get env (dict_get (lit "manufacturer") data) w
        = (Returned m, w))
  (Hcheck : check_not_existing env (dict_get (lit "model") data) m w = (Returned tt, w))
  (Hform : form_save env data w = Returned d)
  (Hkind : import_components env data d logger (dict_get (lit "model") data)
             (after_creation logger m (dict_get (lit "model") data) d w)
           = (Raised e, w')) :
  import_device_type_with_images env data git_repo logger w = (Raised e, w')
  /\ In d (device_types w')
  /\ exists done entry rest,
       COMPONENTS = done ++ entry :: rest
       /\ for_each (materialize env data d logger (dict_get (lit "model") data)) done
            (after_creation logger m (dict_get (lit "model") data) d w)
          = (Returned tt, w')
       /\ materialize env data d logger (dict_get (lit "model") data) entry w'
          = (Raised e, w').
Proof.
  split; [|split].
  - rewrite import_after_components. unfold bind at 1.
    rewrite (@create_with_components_steps env data logger w m d Hm Hcheck Hform).
    unfold bind at 1. now rewrite Hkind.
  - pose proof (import_components_device_types env data d logger
                  (dict_get (lit "model") data)
                  (after_creation logger m (dict_get (lit "model") data) d w)) as H.
    rewrite Hkind in H. unfold same_device_types in H. cbn [snd] in H. rewrite H.
    unfold after_creation, emit. destruct logger; cbn; apply in_or_app; right; now left.
  - now apply for_each_raise_split.
Qed.

Lemma component_failure_keeps_earlier_kinds_witness :
  import_device_type_with_images MoreFixtures.refusing_interfaces Fixtures.pa850_yaml
    (Some Fixtures.repo) (Some JobLogger) Fixtures.fresh_world
  = (Raised ValidationError,
     {| manufacturers := [Fixtures.palo_alto];
        device_types := [Fixtures.pa850];
        templates :=
          [ {| ct_class := ConsolePortTemplate; ct_device_type := 7;
               ct_fields := [ (lit "name", VStr (lit "console")) ] |} ];
        media := [];
        journal :=
          [ (INFO, CreatedDeviceType Fixtures.palo_alto (VStr (lit "PA-850"))
                     Fixtures.pa850);
            (INFO, CreatedComponents 1 (lit "console-ports")
                     (VStr (lit "PA-850"))) ] |}).
Proof.
  apply (@component_failure_keeps_earlier_kinds MoreFixtures.refusing_interfaces
           Fixtures.pa850_yaml (Some Fixtures.repo) (Some JobLogger)
           Fixtures.fresh_world _ Fixtures.palo_alto Fixtures.pa850 ValidationError);
    reflexivity.
Defined.

(** *** A component list that is not a list of mappings *)

Lemma comprehension_non_dict (env : Collaborators) key cls devtype items :
  existsb (fun v => negb (is_dict v)) items = true ->
  exists e, comprehension (build_component env key cls devtype) items = Raised e.
Proof.
  induction items as [|item rest IH]; [discriminate|].
  cbn [existsb comprehension]. intros H.
  destruct (build_component env key cls devtype item) as [y|e] eqn:Eb;
    [|now exists e].
  destruct item; cbn [build_component] in Eb; try discriminate.
  cbn [is_dict negb orb] in H. destruct (IH H) as [e ->]. now exists e.
Qed.

(** X10. The value under a component key decides before anything is built: a
    null, a boolean or a number raises [TypeError]; a value that iterates
    to something that is not a mapping (a list with such an item, a
    non-empty string, a non-empty mapping, whose keys are iterated) raises
    too.  In each case the world is left as it was. *)
Theorem malformed_component_list_raises (env : Collaborators)
  (data : pydict) (devtype : DeviceType) (logger : option Logger)
  (model : value) (key : pystr) (cls : component_class) (w : world) (v : value)
  (Hkey : dict_lookup key data = Some v) :
  (not_iterable v = true ->
   materialize env data devtype logger model (key, cls) w = (Raised TypeError, w))
  /\ (forall items, iterate v = Returned items ->
        existsb (fun item => negb (is_dict item)) items = true ->
        exists e, materialize env data devtype logger model (key, cls) w
                  = (Raised e, w)).
Proof.
  cbn [materialize]. rewrite Hkey. unfold bind at 1 3, lift, component_list. split.
  - intros H. destruct v; try discriminate; reflexivity.
  - intros items Hi Hbad. rewrite Hi.
    destruct (comprehension_non_dict env key cls devtype items Hbad) as [e ->].
    now exists e.
Qed.

Lemma malformed_component_list_raises_witness :
  materialize Fixtures.calm MoreFixtures.null_interfaces_yaml Fixtures.pa850
    (Some JobLogger) (VStr (lit "PA-850")) (lit "interfaces", InterfaceTemplate)
    Fixtures.fresh_world
  = (Raised TypeError, Fixtures.fresh_world).
Proof.
  apply (proj1 (@malformed_component_list_raises Fixtures.calm
                  MoreFixtures.null_interfaces_yaml Fixtures.pa850 (Some JobLogger)
                  (VStr (lit "PA-850")) (lit "interfaces") InterfaceTemplate
                  Fixtures.fresh_world VNone eq_refl)).
  reflexivity.
Defined.

(** *** Whose components are created *)

Section Belong.

Variable env : Collaborators.

Lemma adds_components_refl d w : adds_components_of d w w.
Proof. exists []. split; [now rewrite app_nil_r | constructor]. Qed.

Lemma adds_components_trans d w1 w2 w3 :
  adds_components_of d w1 w2 -> adds_components_of d w2 w3 ->
  adds_components_of d w1 w3.
Proof.
  intros (l1 & E1 & F1) (l2 & E2 & F2). exists (l1 ++ l2). split.
  - now rewrite E2, E1, app_assoc.
  - apply Forall_app. now split.
Qed.

Lemma comprehension_Forall {A B} (f : A -> outcome B) (P : B -> Prop) items l :
  (forall x y, f x = Returned y -> P y) ->
  comprehension f items = Returned l -> Forall P l.
Proof.
  intros Hf. revert l. induction items as [|x rest IH]; intros l.
  - intros [= <-]. constructor.
  - cbn [comprehension]. destruct (f x) as [y|e] eqn:Ex; [|discriminate].
    destruct (comprehension f rest) as [ys|e]; [|discriminate].
    intros [= <-]. constructor; [eapply Hf; exact Ex | now apply IH].
Qed.

Lemma materialize_adds data devtype logger model entry :
  preserves (adds_components_of devtype)
    (materialize env data devtype logger model entry).
Proof.
  intros w. destruct entry as [key cls]. cbn [materialize].
  destruct (dict_lookup key data) as [v|]; [|apply adds_components_refl].
  unfold bind, lift, bulk_create, emit, component_list.
  destruct (iterate v) as [items|e]; [|apply adds_components_refl].
  destruct (comprehension _ items) as [objs|e] eqn:Ec; [|apply adds_components_refl].
  destruct (bulk_create_error env cls objs w); [apply adds_components_refl|].
  assert (Hobjs : Forall (fun c => ct_device_type c = dt_pk devtype) objs).
  { eapply comprehension_Forall; [|exact Ec]. intros x y Hy.
    destruct x; cbn [build_component] in Hy; try discriminate.
    destruct (init_error env cls devtype _); [discriminate|].
    now injection Hy as <-. }
  destruct logger; cbn; exists objs; now split.
Qed.

End Belong.

(** X11. Whether it returns or raises, materializing the components only appends
    to the component table, and every component it appends refers to the
    device type it was given. *)
Theorem components_belong_to_the_record (env : Collaborators) (data : pydict)
  (devtype : DeviceType) (logger : option Logger) (model : value) (w : world) :
  exists created,
    templates (snd (import_components env data devtype logger model w))
    = templates w ++ created
    /\ Forall (fun c => ct_device_type c = dt_pk devtype) created.
Proof.
  revert w. change (preserves (adds_components_of devtype)
                      (import_components env data devtype logger model)).
  unfold import_components. induction COMPONENTS as [|entry rest IH].
  - intros w. apply adds_components_refl.
  - cbn [for_each]. apply preserves_bind.
    + apply adds_components_trans.
    + apply materialize_adds.
    + intros _. exact IH.
Qed.

(** *** What the import never does *)

Section NeverDeletes.

Variable env : Collaborators.

Ltac grows :=
  split; cbn; rewrite ?map_app; auto; try (exists []; now rewrite app_nil_r);
  now eexists.

Lemma never_deletes_refl w : never_deletes w w.
Proof. grows. Qed.

Lemma never_deletes_trans w1 w2 w3 :
  never_deletes w1 w2 -> never_deletes w2 w3 -> never_deletes w1 w3.
Proof.
  intros [M1 [d1 D1] [t1 T1] [m1 F1] [j1 J1]] [M2 [d2 D2] [t2 T2] [m2 F2] [j2 J2]].
  split.
  - congruence.
  - exists (d1 ++ d2). now rewrite D2, D1, app_assoc.
  - exists (t1 ++ t2). now rewrite T2, T1, app_assoc.
  - exists (m1 ++ m2). now rewrite F2, F1, app_assoc.
  - exists (j1 ++ j2). now rewrite J2, J1, app_assoc.
Qed.

Lemma emit_never_deletes logger lv msg : preserves never_deletes (emit logger lv msg).
Proof. intros w. unfold emit. destruct logger; grows. Qed.

Lemma upsert_pks obj rows :
  exists l, map dt_pk (upsert obj rows) = map dt_pk rows ++ l.
Proof.
  unfold upsert. destruct (existsb _ rows).
  - exists []. rewrite app_nil_r, map_map. apply map_ext. intros d.
    destruct (dt_pk d =? dt_pk obj)%N eqn:E; [|reflexivity].
    apply N.eqb_eq in E. now symmetry.
  - exists [dt_pk obj]. now rewrite map_app.
Qed.

Lemma model_save_never_deletes obj : preserves never_deletes (model_save env obj).
Proof.
  intros w. unfold model_save. destruct (save_error env obj w); [grows|].
  split; cbn; auto; try (exists []; now rewrite app_nil_r). apply upsert_pks.
Qed.

Lemma check_not_existing_state model m w : snd (check_not_existing env model m w) = w.
Proof.
  unfold check_not_existing, suppress_DoesNotExist, try_except, bind,
    DeviceType_objects_get, raise, ret.
  destruct (objects_get DeviceTypeModel _) as [d|e]; [reflexivity|].
  destruct e as [| | |cls| | | |]; try reflexivity. now destruct cls.
Qed.

Lemma materialize_never_deletes data devtype logger model entry :
  preserves never_deletes (materialize env data devtype logger model entry).
Proof.
  intros w. destruct entry as [key cls]. cbn [materialize].
  destruct (dict_lookup key data) as [v|]; [|grows].
  unfold bind, lift, bulk_create, emit.
  destruct (component_list env key cls devtype v) as [objs|e]; [|grows].
  destruct (bulk_create_error env cls objs w); [grows|].
  destruct logger; grows.
Qed.

Lemma import_components_never_deletes data devtype logger model :
  preserves never_deletes (import_components env data devtype logger model).
Proof.
  unfold import_components. induction COMPONENTS as [|entry rest IH].
  - intros w. apply never_deletes_refl.
  - cbn [for_each]. apply preserves_bind;
      [apply never_deletes_trans | apply materialize_never_deletes | intros _; exact IH].
Qed.

Lemma on_world_preserves {A} (R : world -> world -> Prop) (m : M world A) :
  preserves R m -> preserves (on_persisted R) (on_world m).
Proof.
  intros H f. unfold on_world, on_persisted. specialize (H (persisted f)).
  now destruct (m (persisted f)).
Qed.

Local Abbreviation Rf := (on_persisted never_deletes).

Lemma Rf_refl f : Rf f f.
Proof. apply never_deletes_refl. Qed.

Lemma Rf_trans f1 f2 f3 : Rf f1 f2 -> Rf f2 f3 -> Rf f1 f3.
Proof. apply never_deletes_trans. Qed.

Lemma object_only_never_deletes g : preserves Rf (modify_object g).
Proof. intros f. apply never_deletes_refl. Qed.

Lemma image_field_save_never_deletes sd name content :
  preserves Rf (image_field_save env sd name content).
Proof.
  unfold image_field_save.
  apply preserves_bind; [apply Rf_trans| |intros stored].
  - apply on_world_preserves. intros w.
    destruct (storage_save env name content w); grows.
  - apply preserves_bind; [apply Rf_trans|apply object_only_never_deletes|intros _].
    apply preserves_bind; [apply Rf_trans| |intros obj].
    + intros f. apply Rf_refl.
    + apply on_world_preserves, model_save_never_deletes.
Qed.

Lemma attach_image_never_deletes sd image_path logger :
  preserves Rf (attach_image env sd image_path logger).
Proof.
  apply preserves_try; [apply Rf_trans| |intros e].
  - unfold attach_body.
    apply preserves_bind; [apply Rf_trans| |intros img_file].
    + apply preserves_lift, Rf_refl.
    + apply preserves_bind; [apply Rf_trans| |intros _].
      * apply image_field_save_never_deletes.
      * apply on_world_preserves, emit_never_deletes.
  - apply on_world_preserves, emit_never_deletes.
Qed.

Lemma handle_image_never_deletes sd data repo manufacturer_name model logger :
  preserves Rf (handle_image env sd data repo manufacturer_name model logger).
Proof.
  unfold handle_image. destruct (truthy _); [|apply preserves_ret, Rf_refl].
  apply preserves_bind; [apply Rf_trans| |intros image_path].
  - apply preserves_lift, Rf_refl.
  - destruct image_path as [[|c p]|];
      [|apply attach_image_never_deletes|];
      apply on_world_preserves, emit_never_deletes.
Qed.

Lemma import_images_never_deletes data git_repo logger model :
  preserves Rf (import_images env data git_repo logger model).
Proof.
  unfold import_images. destruct git_repo as [repo|]; [|apply preserves_ret, Rf_refl].
  apply preserves_bind; [apply Rf_trans| |intros _];
    apply handle_image_never_deletes.
Qed.

Lemma backfill_never_deletes data logger : preserves Rf (backfill env data logger).
Proof.
  unfold backfill. destruct (stage_custom_fields data); [apply preserves_ret, Rf_refl|].
  apply preserves_try; [apply Rf_trans| |intros e].
  - apply preserves_bind; [apply Rf_trans|apply object_only_never_deletes|intros _].
    apply preserves_bind; [apply Rf_trans| |intros obj].
    + intros f. apply Rf_refl.
    + apply preserves_bind; [apply Rf_trans| |intros _].
      * apply on_world_preserves, model_save_never_deletes.
      * apply on_world_preserves, emit_never_deletes.
  - apply on_world_preserves, emit_never_deletes.
Qed.

Lemma with_object_preserves {A} (R : world -> world -> Prop) obj (body : M frame A) :
  preserves (on_persisted R) body -> preserves R (with_object obj body).
Proof.
  intros H w. unfold with_object.
  specialize (H {| persisted := w; devtype := obj |}). unfold on_persisted in H.
  cbn [persisted] in H. now destruct (body _) as [[a|e] f].
Qed.

Lemma import_never_deletes_all data git_repo logger :
  preserves never_deletes (import_device_type_with_images env data git_repo logger).
Proof.
  unfold import_device_type_with_images.
  apply preserves_bind; [apply never_deletes_trans| |intros manufacturer].
  { intros w. apply never_deletes_refl. }
  apply preserves_bind; [apply never_deletes_trans| |intros _].
  { intros w. rewrite check_not_existing_state. apply never_deletes_refl. }
  apply preserves_bind; [apply never_deletes_trans| |intros devtype].
  { intros w. unfold DeviceTypeImportForm_save. destruct (form_save env data w); grows. }
  apply preserves_bind; [apply never_deletes_trans|apply emit_never_deletes|intros _].
  apply preserves_bind;
    [apply never_deletes_trans|apply import_components_never_deletes|intros _].
  apply with_object_preserves.
  apply preserves_bind; [apply Rf_trans| |intros _].
  - apply import_images_never_deletes.
  - apply backfill_never_deletes.
Qed.

End NeverDeletes.

(** X12. Whatever the document and whatever the collaborators answer, whether
    the import returns or raises: the manufacturers are as before, and the
    primary keys of the device types, the components, the stored files and
    the journal are what they were with something appended. *)
Theorem import_never_deletes (env : Collaborators) (data : pydict)
  (git_repo : option Resolver.GitRepository) (logger : option Logger) (w : world) :
  never_deletes w (snd (import_device_type_with_images env data git_repo logger w)).
Proof. apply import_never_deletes_all. Qed.

(** *** The record that is returned *)

Section Returned.

Variable env : Collaborators.

(** Once the components are created the import is its two last stages; the
    custom fields always return, the images return when the resolver
    does. *)
Lemma import_stages data git_repo logger w d w1 :
  create_with_components env data logger w = (Returned d, w1) ->
  returns (import_images env data git_repo logger (dict_get (lit "model") data)) ->
  exists f1 f2,
    import_images env data git_repo logger (dict_get (lit "model") data)
      {| persisted := w1; devtype := d |} = (Returned tt, f1)
    /\ backfill env data logger f1 = (Returned tt, f2)
    /\ import_device_type_with_images env data git_repo logger w
       = (Returned (devtype f2), persisted f2).
Proof.
  intros Hcreated Hret.
  destruct (returns_preserves {| persisted := w1; devtype := d |} Hret
              (import_images_enriches env data git_repo logger
                 (dict_get (lit "model") data))) as (f1 & E1 & _).
  destruct (returns_preserves f1 (backfill_returns env data logger)
              (backfill_enriches env data logger)) as (f2 & E2 & _).
  exists f1, f2. split; [exact E1|]. split; [exact E2|].
  rewrite import_after_components. unfold bind at 1. rewrite Hcreated.
  unfold with_object, bind at 1. now rewrite E1, E2.
Qed.

(** Without a repository, or without a flag, the resolver is not called. *)
Lemma import_images_off_returns data git_repo logger model :
  git_repo = None
  \/ (truthy (dict_get (lit "front_image") data) = false
      /\ truthy (dict_get (lit "rear_image") data) = false) ->
  returns (import_images env data git_repo logger model).
Proof.
  intros Hoff. unfold import_images.
  destruct git_repo as [repo|]; [|apply returns_ret].
  destruct Hoff as [Hoff|[Hfront Hrear]]; [discriminate|].
  apply returns_bind; [|intros _]; unfold handle_image; cbn [flag_key].
  - rewrite Hfront. apply returns_ret.
  - rewrite Hrear. apply returns_ret.
Qed.

Lemma backfill_object data logger f :
  devtype (snd (backfill env data logger f))
  = apply_custom_fields (stage_custom_fields data) (devtype f).
Proof.
  unfold backfill. destruct (stage_custom_fields data) as [|kv rest]; [reflexivity|].
  unfold try_except, bind, modify_object, get_object, on_world, model_save.
  cbn [persisted devtype].
  destruct (save_error env _ (persisted f)); unfold emit; now destruct logger.
Qed.

Lemma backfill_media data logger f :
  media (persisted (snd (backfill env data logger f))) = media (persisted f).
Proof.
  unfold backfill. destruct (stage_custom_fields data) as [|kv rest]; [reflexivity|].
  unfold try_except, bind, modify_object, get_object, on_world, model_save.
  cbn [persisted devtype].
  destruct (save_error env _ (persisted f)); unfold emit; now destruct logger.
Qed.

Section Columns.

Context {A : Type} (columns : DeviceType -> A).
Hypothesis columns_cf : forall cf d, columns (set_cf cf d) = columns d.

Lemma apply_custom_fields_columns_kept cf_data d :
  columns (apply_custom_fields cf_data d) = columns d.
Proof.
  unfold apply_custom_fields. revert d.
  induction cf_data as [|kv rest IH]; intros d; [reflexivity|].
  cbn [fold_left]. now rewrite IH, columns_cf.
Qed.

Hypothesis columns_image : forall sd name d, columns (set_image sd name d) = columns d.

Lemma same_columns_trans f1 f2 f3 :
  same_columns columns f1 f2 -> same_columns columns f2 f3 ->
  same_columns columns f1 f3.
Proof. unfold same_columns. congruence. Qed.

Lemma on_world_same_columns {B} (m : M world B) :
  preserves (same_columns columns) (on_world m).
Proof. intros f. unfold on_world, same_columns. now destruct (m (persisted f)). Qed.

Lemma import_images_same_columns data git_repo logger model :
  preserves (same_columns columns) (import_images env data git_repo logger model).
Proof.
  assert (Hrefl : forall f, same_columns columns f f) by reflexivity.
  assert (Hhandle : forall sd repo name,
            preserves (same_columns columns)
              (handle_image env sd data repo name model logger)).
  { intros sd repo name. unfold handle_image.
    destruct (truthy _); [|apply preserves_ret, Hrefl].
    apply preserves_bind; [apply same_columns_trans| |intros image_path].
    { apply preserves_lift, Hrefl. }
    destruct image_path as [[|c p]|]; try apply on_world_same_columns.
    apply preserves_try; [apply same_columns_trans| |intros e];
      [|apply on_world_same_columns].
    unfold attach_body.
    apply preserves_bind; [apply same_columns_trans| |intros img_file].
    { apply preserves_lift, Hrefl. }
    apply preserves_bind;
      [apply same_columns_trans| |intros _; apply on_world_same_columns].
    unfold image_field_save.
    apply preserves_bind;
      [apply same_columns_trans|apply on_world_same_columns|intros stored].
    apply preserves_bind; [apply same_columns_trans| |intros _].
    { intros f. apply columns_image. }
    apply preserves_bind; [apply same_columns_trans| |intros obj].
    { intros f. apply Hrefl. }
    apply on_world_same_columns. }
  unfold import_images. destruct git_repo as [repo|]; [|apply preserves_ret, Hrefl].
  apply preserves_bind; [apply same_columns_trans| |intros _]; apply Hhandle.
Qed.

End Columns.

End Returned.

(** X13. Once the base record and the components exist, the import of a
    document whose manufacturer name is a string returns the row the form
    created with only its images and custom fields changed:
    the primary key, the manufacturer and the model are the form's, and
    the custom fields are the form's with every staged value assigned,
    also when saving them was refused. *)
Theorem import_returns_the_created_record (env : Collaborators)
  (data : pydict) (git_repo : option Resolver.GitRepository)
  (logger : option Logger) (w w1 : world) (d : DeviceType) (name : pystr)
  (Hstr : dict_get (lit "manufacturer") data = VStr name)
  (Hcreated : create_with_components env data logger w = (Returned d, w1)) :
  exists obj w2,
    import_device_type_with_images env data git_repo logger w = (Returned obj, w2)
    /\ dt_pk obj = dt_pk d
    /\ dt_manufacturer obj = dt_manufacturer d
    /\ dt_model obj = dt_model d
    /\ forall k, dict_lookup k (dt_cf obj)
                 = match dict_lookup k (stage_custom_fields data) with
                   | Some v => Some v
                   | None => dict_lookup k (dt_cf d)
                   end.
Proof.
  destruct (@import_stages env data git_repo logger w d _ Hcreated
              (import_images_returns env data git_repo logger
                 (dict_get (lit "model") data) Hstr))
    as (f1 & f2 & E1 & E2 & ->).
  exists (devtype f2), (persisted f2). split; [reflexivity|].
  pose proof (import_images_same_columns env (fun x => (identity x, dt_cf x))
                ltac:(intros [] ? ?; reflexivity) data git_repo logger
                (dict_get (lit "model") data)
                {| persisted := w1; devtype := d |}) as H1.
  rewrite E1 in H1. unfold same_columns in H1. cbn [snd devtype] in H1.
  injection H1 as Hpk Hmf Hmodel Hcf.
  pose proof (backfill_object env data logger f1) as H2.
  rewrite E2 in H2. cbn [snd] in H2. rewrite H2.
  rewrite (apply_custom_fields_columns_kept dt_pk)  by reflexivity.
  rewrite (apply_custom_fields_columns_kept dt_manufacturer) by reflexivity.
  rewrite (apply_custom_fields_columns_kept dt_model) by reflexivity.
  repeat split; try assumption.
  intros k. rewrite apply_custom_fields_lookup by apply stage_custom_fields_NoDup.
  now rewrite Hcf.
Qed.

Lemma import_returns_the_created_record_witness :
  exists obj w2,
    import_device_type_with_images Fixtures.unsavable Fixtures.pa850_yaml
      (Some Fixtures.repo) (Some JobLogger) Fixtures.fresh_world = (Returned obj, w2)
    /\ dt_pk obj = 7%N
    /\ dt_model obj = lit "PA-850"
    /\ dict_lookup (lit "cf_weight") (dt_cf obj) = Some (VNum 5).
Proof.
  destruct (@import_returns_the_created_record Fixtures.unsavable Fixtures.pa850_yaml
              (Some Fixtures.repo) (Some JobLogger) Fixtures.fresh_world
              (snd (create_with_components Fixtures.unsavable Fixtures.pa850_yaml
                      (Some JobLogger) Fixtures.fresh_world))
              Fixtures.pa850 (lit "Palo Alto") eq_refl eq_refl)
    as (obj & w2 & Himport & Hpk & _ & Hmodel & Hcf).
  exists obj, w2. repeat split; try assumption. now rewrite Hcf.
Defined.

(** X14. Without a repository, or with neither image flag set, the import
    leaves the images alone: the record returned has the image columns of
    the row the form created, and no file is stored. *)
Theorem images_untouched_without_repository_or_flags (env : Collaborators)
  (data : pydict) (git_repo : option Resolver.GitRepository)
  (logger : option Logger) (w w1 : world) (d : DeviceType)
  (Hcreated : create_with_components env data logger w = (Returned d, w1))
  (Hoff : git_repo = None
          \/ (truthy (dict_get (lit "front_image") data) = false
              /\ truthy (dict_get (lit "rear_image") data) = false)) :
  exists obj w2,
    import_device_type_with_images env data git_repo logger w = (Returned obj, w2)
    /\ dt_front_image obj = dt_front_image d
    /\ dt_rear_image obj = dt_rear_image d
    /\ media w2 = media w1.
Proof.
  destruct (@import_stages env data git_repo logger w d _ Hcreated
              (@import_images_off_returns env data git_repo logger
                 (dict_get (lit "model") data) Hoff))
    as (f1 & f2 & E1 & E2 & ->).
  exists (devtype f2), (persisted f2). split; [reflexivity|].
  assert (Hf1 : f1 = {| persisted := w1; devtype := d |}).
  { unfold import_images in E1. destruct Hoff as [->|[Hfront Hrear]].
    - now injection E1 as <-.
    - destruct git_repo as [repo|]; [|now injection E1 as <-].
      unfold bind, handle_image in E1. cbn [flag_key] in E1.
      rewrite Hfront, Hrear in E1. now injection E1 as <-. }
  pose proof (backfill_object env data logger f1) as H2.
  pose proof (backfill_media env data logger f1) as H3.
  rewrite E2 in H2, H3. cbn [snd] in H2, H3. rewrite H2, H3, Hf1. cbn [devtype persisted].
  rewrite (apply_custom_fields_columns_kept dt_front_image) by reflexivity.
  rewrite (apply_custom_fields_columns_kept dt_rear_image) by reflexivity.
  repeat split.
Qed.

Lemma images_untouched_without_repository_or_flags_witness :
  exists obj w2,
    import_device_type_with_images Fixtures.calm Fixtures.pa850_yaml
      None (Some JobLogger) Fixtures.fresh_world = (Returned obj, w2)
    /\ dt_front_image obj = None /\ dt_rear_image obj = None /\ media w2 = [].
Proof.
  apply (@images_untouched_without_repository_or_flags Fixtures.calm
           Fixtures.pa850_yaml None (Some JobLogger) Fixtures.fresh_world
           (snd (create_with_components Fixtures.calm Fixtures.pa850_yaml
                   (Some JobLogger) Fixtures.fresh_world))
           Fixtures.pa850 eq_refl).
  now left.
Defined.

(** X15. A document with none of the nine component keys and a manufacturer
    name that is a string: once the manufacturer is found, the existence
    check has passed and the form has created its row, the import
    returns, and the component table is what it was. *)
Theorem import_without_component_kinds (env : Collaborators)
  (data : pydict) (git_repo : option Resolver.GitRepository)
  (logger : option Logger) (w : world) (m : Manufacturer) (d : DeviceType)
  (name : pystr)
  (Hstr : dict_get (lit "manufacturer") data = VStr name)
  (Hm : Manufacturer_objects_get env (dict_get (lit "manufacturer") data) w
        = (Returned m, w))
  (Hcheck : check_not_existing env (dict_get (lit "model") data) m w = (Returned tt, w))
  (Hform : form_save env data w = Returned d)
  (Hnone : forall key, In key (map fst COMPONENTS) -> dict_lookup key data = None) :
  exists obj w2,
    import_device_type_with_images env data git_repo logger w = (Returned obj, w2)
    /\ dt_pk obj = dt_pk d
    /\ In (dt_pk d) (map dt_pk (device_types w2))
    /\ templates w2 = templates w.
Proof.
  assert (Hcreated : create_with_components env data logger w
                     = (Returned d, after_creation logger m
                                      (dict_get (lit "model") data) d w)).
  { rewrite (@create_with_components_steps env data logger w m d Hm Hcheck Hform).
    unfold bind at 1, import_components. rewrite for_each_present.
    rewrite filter_all_false; [reflexivity|].
    intros [key cls] Hin. unfold dict_contains. cbn [fst].
    rewrite (Hnone key); [reflexivity|]. now apply (in_map fst) in Hin. }
  destruct (@import_stages env data git_repo logger w d _ Hcreated
              (import_images_returns env data git_repo logger
                 (dict_get (lit "model") data) Hstr))
    as (f1 & f2 & E1 & E2 & ->).
  exists (devtype f2), (persisted f2). split; [reflexivity|].
  pose proof (import_images_enriches env data git_repo logger
                (dict_get (lit "model") data)
                {| persisted := after_creation logger m
                                  (dict_get (lit "model") data) d w;
                   devtype := d |}) as R1.
  rewrite E1 in R1. cbn [snd] in R1.
  pose proof (backfill_enriches env data logger f1) as R2.
  rewrite E2 in R2. cbn [snd] in R2.
  pose proof (enriches_trans R1 R2) as [Ht _ Hpk Hrows _].
  cbn [persisted devtype] in *. split; [exact Hpk|]. split.
  - apply Hrows. unfold after_creation, emit.
    destruct logger; cbn; rewrite map_app; apply in_or_app; right; now left.
  - rewrite Ht. unfold after_creation, emit. now destruct logger.
Qed.

Lemma import_without_component_kinds_witness :
  exists obj w2,
    import_device_type_with_images Fixtures.calm MoreFixtures.bare_yaml
      (Some Fixtures.repo) (Some JobLogger) Fixtures.fresh_world = (Returned obj, w2)
    /\ dt_pk obj = 7%N
    /\ In 7%N (map dt_pk (device_types w2))
    /\ templates w2 = [].
Proof.
  apply (@import_without_component_kinds Fixtures.calm MoreFixtures.bare_yaml
           (Some Fixtures.repo) (Some JobLogger) Fixtures.fresh_world
           Fixtures.palo_alto Fixtures.pa850 (lit "Palo Alto")); try reflexivity.
  intros key Hkey. cbn in Hkey.
  repeat (destruct Hkey as [<-|Hkey]; [reflexivity|]). contradiction.
Defined.

(** *** Names and models that are not strings *)

(** A number is looked up by its text: manufacturer 3 is the manufacturer
    named "3", and model 2960 of that manufacturer is a duplicate of the
    device type "2960". *)
Example number_lookup_finds_text :
  Manufacturer_objects_get MoreFixtures.formatting (VNum 3) MoreFixtures.numbered_world
  = (Returned MoreFixtures.m3, MoreFixtures.numbered_world)
  /\ import_device_type_with_images MoreFixtures.formatting
       MoreFixtures.numbered_duplicate_yaml None None MoreFixtures.numbered_world
     = (Raised (ValueError (AlreadyExists (VNum 2960) MoreFixtures.m3)),
        MoreFixtures.numbered_world).
Proof. split; reflexivity. Qed.

(** X20. A manufacturer name that is not a string, with a repository and an
    image flag: once the base record and the components are created, the
    import raises [TypeError] (from [os.path.join], outside the [try]);
    the record and the components stay as they were created, no image is
    attached and the custom fields are not attempted. *)
Theorem non_string_manufacturer_breaks_image_lookup (env : Collaborators)
  (data : pydict) (repo : Resolver.GitRepository) (logger : option Logger)
  (w w1 : world) (d : DeviceType)
  (Hcreated : create_with_components env data logger w = (Returned d, w1))
  (Hother : forall name, dict_get (lit "manufacturer") data <> VStr name)
  (Hflag : truthy (dict_get (lit "front_image") data) = true
           \/ truthy (dict_get (lit "rear_image") data) = true) :
  import_device_type_with_images env data (Some repo) logger w = (Raised TypeError, w1).
Proof.
  rewrite import_after_components. unfold bind at 1. rewrite Hcreated.
  unfold with_object, bind at 1, import_images, bind, handle_image, lift.
  cbn [flag_key side_name].
  assert (Hfind : forall model t,
            call_find_elevation_image env repo (dict_get (lit "manufacturer") data)
              model t = Raised TypeError).
  { intros model t. destruct (dict_get (lit "manufacturer") data) eqn:E;
      try reflexivity. now destruct (Hother s). }
  destruct (truthy (dict_get (lit "front_image") data)) eqn:Efront.
  - now rewrite Hfind.
  - destruct Hflag as [Hflag|Hflag]; [discriminate|].
    cbn [ret]. rewrite Hflag. now rewrite Hfind.
Qed.

Lemma non_string_manufacturer_breaks_image_lookup_witness :
  import_device_type_with_images MoreFixtures.formatting MoreFixtures.numbered_new_yaml
    (Some Fixtures.repo) (Some JobLogger) MoreFixtures.numbered_world
  = (Raised TypeError,
     {| manufacturers := [MoreFixtures.m3];
        device_types := [MoreFixtures.c2960; MoreFixtures.x1];
        templates := []; media := [];
        journal := [ (INFO, CreatedDeviceType MoreFixtures.m3 (VStr (lit "X1"))
                              MoreFixtures.x1) ] |}).
Proof.
  apply (@non_string_manufacturer_breaks_image_lookup MoreFixtures.formatting
           MoreFixtures.numbered_new_yaml Fixtures.repo (Some JobLogger)
           MoreFixtures.numbered_world _ MoreFixtures.x1).
  - reflexivity.
  - discriminate.
  - now left.
Defined.

End ImporterMore.

(** ** The two jobs: properties *)

Module JobFacts.

Import Importer Jobs StrFacts ImporterFacts.

Lemma filter_key_at_most_one {A K} (f : A -> K) (p : A -> bool) (k : K) (l : list A) :
  NoDup (map f l) -> (forall y, p y = true <-> f y = k) ->
  filter p l = [] \/ exists x, In x l /\ f x = k /\ filter p l = [x].
Proof.
  intros Hnd Hp. destruct (filter p l) as [|x r] eqn:E; [now left|right].
  assert (Hx : In x (filter p l)) by (rewrite E; now left).
  apply filter_In in Hx as [Hin Hpx]. apply Hp in Hpx.
  exists x. split; [exact Hin|]. split; [exact Hpx|].
  rewrite <- E. apply (filter_unique_key f p x); [exact Hnd|exact Hin|].
  intros y. rewrite Hp. now rewrite Hpx.
Qed.

Lemma name_matches (env : Collaborators) name (m : Manufacturer) :
  text_matches env (VStr name) (mf_name m) = true <-> mf_name m = name.
Proof. cbn [text_matches]. rewrite eqb_eq. split; congruence. Qed.

Lemma NoDup_snoc {A} (l : list A) (x : A) :
  NoDup l -> ~ In x l -> NoDup (l ++ [x]).
Proof.
  intros Hl Hx. apply (Permutation_NoDup (l := x :: l)).
  - apply Permutation_cons_append.
  - now constructor.
Qed.

Section Facts.

Variable env : Collaborators.
Variable prov : Provisioning.

(** The existence check on a registered pair, as the job meets it. *)
Lemma import_duplicate data git_repo logger w m d :
  unique_keys w -> In m (manufacturers w) -> In d (device_types w) ->
  dt_manufacturer d = mf_pk m ->
  dict_get (lit "manufacturer") data = VStr (mf_name m) ->
  dict_get (lit "model") data = VStr (dt_model d) ->
  import_device_type_with_images env data git_repo logger w
  = (Raised (ValueError (AlreadyExists (VStr (dt_model d)) m)), w).
Proof.
  intros Hu Hm Hd Hfk Hname Hmodel.
  unfold import_device_type_with_images, bind at 1.
  rewrite Hname, (Manufacturer_objects_get_unique env m Hu Hm).
  rewrite Hmodel. unfold bind at 1.
  unfold check_not_existing, suppress_DoesNotExist, try_except, bind at 1.
  now rewrite (DeviceType_objects_get_unique env m d Hu Hd Hfk).
Qed.

Lemma update_or_create_existing w m :
  NoDup (map mf_name (manufacturers w)) -> In m (manufacturers w) ->
  Manufacturer_objects_update_or_create env prov (VStr (mf_name m)) w
  = (Returned (m, false), w).
Proof.
  intros Hnd Hin. unfold Manufacturer_objects_update_or_create.
  rewrite (filter_unique_key mf_name _ m); [reflexivity|exact Hnd|exact Hin|].
  intros y. apply name_matches.
Qed.

End Facts.

(** X16. The manufacturer job provisions once.  With unique manufacturer names
    and an insert that is not refused, the job returns and leaves exactly
    one manufacturer of that name, which the import's lookup then finds;
    the names stay unique; a second run finds that row, logs it as
    updated and changes nothing. *)
Theorem manufacturer_job_provisions_once (env : Collaborators) (prov : Provisioning)
  (manufacturer_name : pystr) (s : site)
  (Hunique : NoDup (map mf_name (manufacturers (db s))))
  (Hinsert : manufacturer_create_error prov manufacturer_name (db s) = None) :
  exists m s1,
    WelcomeWizardImportManufacturer_run env prov manufacturer_name s = (Completed, s1)
    /\ mf_name m = manufacturer_name
    /\ NoDup (map mf_name (manufacturers (db s1)))
    /\ Manufacturer_objects_get env (VStr manufacturer_name) (db s1) = (Returned m, db s1)
    /\ (manufacturers (db s1) = manufacturers (db s)
        \/ manufacturers (db s1) = manufacturers (db s) ++ [m])
    /\ WelcomeWizardImportManufacturer_run env prov manufacturer_name s1
       = (Completed, job_log JobInfo (ManufacturerSaved false m) s1).
Proof.
  unfold WelcomeWizardImportManufacturer_run at 1.
  destruct (@filter_key_at_most_one Manufacturer pystr mf_name
              (fun m => text_matches env (VStr manufacturer_name) (mf_name m))
              manufacturer_name (manufacturers (db s)) Hunique
              (name_matches env manufacturer_name))
    as [Hnone|(m & Hin & Hname & Hone)].
  - (* created *)
    unfold Manufacturer_objects_update_or_create at 1. rewrite Hnone.
    cbn [format_value]. rewrite Hinsert.
    set (m := {| mf_pk := new_manufacturer_pk prov (db s);
                 mf_name := manufacturer_name |}).
    exists m. eexists. split; [reflexivity|]. cbn [db job_log set_db manufacturers
                                                 set_manufacturers].
    assert (Hfresh : ~ In manufacturer_name (map mf_name (manufacturers (db s)))).
    { intros H. apply in_map_iff in H as (x & Hx & Hxin).
      assert (Hf : In x (filter (fun m => text_matches env (VStr manufacturer_name)
                                            (mf_name m)) (manufacturers (db s)))).
      { apply filter_In. split; [exact Hxin|]. now apply name_matches. }
      now rewrite Hnone in Hf. }
    assert (Hnd : NoDup (map mf_name (manufacturers (db s) ++ [m]))).
    { rewrite map_app. now apply NoDup_snoc. }
    assert (Hlast : In m (manufacturers (db s) ++ [m])).
    { apply in_or_app. right. now left. }
    split; [reflexivity|]. split; [exact Hnd|]. split; [|split; [now right|]].
    + unfold Manufacturer_objects_get. cbn [manufacturers set_manufacturers].
      rewrite (filter_unique_key mf_name _ m); [reflexivity|exact Hnd|exact Hlast|].
      intros y. apply name_matches.
    + unfold WelcomeWizardImportManufacturer_run.
      change manufacturer_name with (mf_name m) at 1.
      rewrite update_or_create_existing; [reflexivity|exact Hnd|exact Hlast].
  - (* found *)
    unfold Manufacturer_objects_update_or_create at 1. rewrite Hone.
    exists m. eexists. split; [reflexivity|]. cbn [db job_log set_db].
    split; [exact Hname|]. split; [exact Hunique|]. split; [|split; [now left|]].
    + unfold Manufacturer_objects_get. now rewrite Hone.
    + unfold WelcomeWizardImportManufacturer_run.
      unfold Manufacturer_objects_update_or_create. cbn [db job_log set_db].
      now rewrite Hone.
Qed.

Lemma manufacturer_job_provisions_once_witness :
  exists m s1,
    WelcomeWizardImportManufacturer_run Fixtures.calm JobFixtures.provisioning
      (lit "Palo Alto") JobFixtures.empty_site = (Completed, s1)
    /\ manufacturers (db s1) = [m]
    /\ mf_name m = lit "Palo Alto"
    /\ WelcomeWizardImportManufacturer_run Fixtures.calm JobFixtures.provisioning
         (lit "Palo Alto") s1
       = (Completed, job_log JobInfo (ManufacturerSaved false m) s1).
Proof.
  destruct (@manufacturer_job_provisions_once Fixtures.calm JobFixtures.provisioning
              (lit "Palo Alto") JobFixtures.empty_site (NoDup_nil _) eq_refl)
    as (m & s1 & Hrun & Hname & _ & _ & Hrows & Hagain).
  exists m, s1. split; [exact Hrun|]. split; [|split; [exact Hname|exact Hagain]].
  destruct Hrows as [H|H]; [|exact H].
  exfalso. injection Hrun as <-. discriminate H.
Defined.

(** X17. A file name that is not among the imported files, or an empty file name
    when there is no [none.yaml]: the device-type job logs the error,
    returns without raising, and has touched neither the manufacturers nor
    anything else of the world. *)
Theorem device_type_job_unknown_file (env : Collaborators) (prov : Provisioning)
  (filename : pystr) (s : site) :
  let device_type := match filename with [] => lit "none.yaml" | _ => filename end in
  (forall r, In r (device_type_imports s) -> dti_filename r <> device_type) ->
  WelcomeWizardImportDeviceType_run env prov filename s
  = (Completed, job_log JobError (DeviceTypeFileNotFound device_type) s).
Proof.
  intros device_type Hnone. unfold WelcomeWizardImportDeviceType_run.
  fold device_type.
  destruct (find _ (device_type_imports s)) as [r|] eqn:E; [|reflexivity].
  apply find_some in E as [Hin Hr]. apply eqb_eq in Hr.
  exfalso. now apply (Hnone r Hin).
Qed.

Lemma device_type_job_unknown_file_witness :
  WelcomeWizardImportDeviceType_run Fixtures.calm JobFixtures.provisioning
    (lit "") JobFixtures.empty_site
  = (Completed,
     job_log JobError (DeviceTypeFileNotFound (lit "none.yaml")) JobFixtures.empty_site).
Proof.
  apply (device_type_job_unknown_file Fixtures.calm JobFixtures.provisioning
           (lit "") JobFixtures.empty_site).
  intros r [<-|[]]. discriminate.
Defined.

Lemma find_unique_key {A K} (f : A -> K) (p : A -> bool) (x : A) (l : list A) :
  NoDup (map f l) -> In x l -> (forall y, p y = true <-> f y = f x) ->
  find p l = Some x.
Proof.
  intros Hnd Hin Hp. induction l as [|a t IH]; [contradiction|].
  cbn [map] in Hnd. apply NoDup_cons_iff in Hnd as [Ha Hnd]. cbn [find].
  destruct Hin as [->|Hin].
  - now rewrite (proj2 (Hp x) eq_refl).
  - destruct (p a) eqn:Epa; [|now apply IH].
    exfalso. apply Ha. rewrite (proj1 (Hp a) Epa). now apply in_map.
Qed.

(** X18. Running the device-type job on a file whose device type exists
    already: the manufacturer is found, not created; the import refuses
    the duplicate; the job logs the error and raises that [ValueError]
    again; the world is what it was. *)
Theorem device_type_job_refuses_duplicate (env : Collaborators) (prov : Provisioning)
  (filename : pystr) (s : site) (r : DeviceTypeImport) (m : Manufacturer)
  (d : DeviceType)
  (Hname : filename <> [])
  (Hfiles : NoDup (map dti_filename (device_type_imports s)))
  (Hfile : In r (device_type_imports s))
  (Hfilename : dti_filename r = filename)
  (Hrepos : NoDup (map fst (git_repositories s)))
  (Hunique : unique_keys (db s))
  (Hm : In m (manufacturers (db s)))
  (Hd : In d (device_types (db s)))
  (Hfk : dt_manufacturer d = mf_pk m)
  (Hmanufacturer : dict_get (lit "manufacturer") (device_type_data r) = VStr (mf_name m))
  (Hmodel : dict_get (lit "model") (device_type_data r) = VStr (dt_model d)) :
  exists s',
    WelcomeWizardImportDeviceType_run env prov filename s
    = (Failed (Propagated (ValueError (AlreadyExists (VStr (dt_model d)) m))), s')
    /\ db s' = db s
    /\ In (JobError,
           UnableToImport filename (VStr (mf_name m))
             (ValueError (AlreadyExists (VStr (dt_model d)) m)))
          (job_journal s').
Proof.
  unfold WelcomeWizardImportDeviceType_run.
  assert (Hdt : match filename with [] => lit "none.yaml" | _ => filename end = filename)
    by now destruct filename.
  rewrite Hdt.
  rewrite (find_unique_key dti_filename _ r); [|exact Hfiles|exact Hfile|].
  2:{ intros y. rewrite eqb_eq, Hfilename. split; congruence. }
  rewrite Hmanufacturer.
  rewrite (@update_or_create_existing env prov (db s) m
             (unique_manufacturer_name Hunique) Hm).
  cbn [git_repositories set_db].
  destruct (@filter_key_at_most_one _ pystr fst
              (fun r => eqb (lit "devicetype_library") (fst r))
              (lit "devicetype_library") (git_repositories s) Hrepos)
    as [Hrows|(x & _ & _ & Hrows)].
  { intros y. rewrite eqb_eq. split; congruence. }
  - rewrite Hrows. cbn [db job_log set_db].
    rewrite (@import_duplicate env _ None (Some JobLogger) (db s) m d Hunique Hm Hd
               Hfk Hmanufacturer Hmodel).
    cbn [is_ValueError]. eexists. split; [reflexivity|]. cbn [db job_log set_db job_journal].
    split; [reflexivity|]. apply in_or_app. right. now left.
  - rewrite Hrows. cbn [db job_log set_db].
    rewrite (@import_duplicate env _ (Some (snd x)) (Some JobLogger) (db s) m d
               Hunique Hm Hd Hfk Hmanufacturer Hmodel).
    cbn [is_ValueError]. eexists. split; [reflexivity|]. cbn [db job_log set_db job_journal].
    split; [reflexivity|]. apply in_or_app. right. now left.
Qed.

Lemma device_type_job_refuses_duplicate_witness :
  exists s',
    WelcomeWizardImportDeviceType_run Fixtures.calm JobFixtures.provisioning
      (lit "PA-850.yaml") JobFixtures.site_with_pa850
    = (Failed (Propagated (ValueError (AlreadyExists (VStr (lit "PA-850"))
                                         Fixtures.palo_alto))), s')
    /\ db s' = Fixtures.world_with_pa850.
Proof.
  destruct (@device_type_job_refuses_duplicate Fixtures.calm JobFixtures.provisioning
              (lit "PA-850.yaml") JobFixtures.site_with_pa850 JobFixtures.pa850_file
              Fixtures.palo_alto Fixtures.pa850)
    as (s' & Hrun & Hdb & _).
  - discriminate.
  - cbn. repeat constructor. cbn. tauto.
  - cbn. tauto.
  - reflexivity.
  - cbn. repeat constructor. cbn. tauto.
  - split; cbn; repeat constructor; cbn; tauto.
  - cbn. tauto.
  - cbn. tauto.
  - reflexivity.
  - reflexivity.
  - reflexivity.
  - exists s'. split; [exact Hrun | exact Hdb].
Defined.

Lemma update_or_create_provisions (env : Collaborators) (prov : Provisioning)
  (name : pystr) (w : world) :
  NoDup (map mf_name (manufacturers w)) ->
  manufacturer_create_error prov name w = None ->
  exists m created w1,
    Manufacturer_objects_update_or_create env prov (VStr name) w
    = (Returned (m, created), w1)
    /\ In m (manufacturers w1) /\ mf_name m = name
    /\ NoDup (map mf_name (manufacturers w1)).
Proof.
  intros Hunique Hinsert. unfold Manufacturer_objects_update_or_create.
  destruct (@filter_key_at_most_one Manufacturer pystr mf_name
              (fun m => text_matches env (VStr name) (mf_name m))
              name (manufacturers w) Hunique (name_matches env name))
    as [Hnone|(m & Hin & Hname & Hone)].
  - rewrite Hnone. cbn [format_value]. rewrite Hinsert.
    eexists. exists true. eexists. split; [reflexivity|].
    cbn [manufacturers set_manufacturers mf_name].
    split; [apply in_or_app; right; now left|]. split; [reflexivity|].
    rewrite map_app. apply NoDup_snoc; [exact Hunique|].
    intros H. apply in_map_iff in H as (x & Hx & Hxin).
    assert (Hf : In x (filter (fun m => text_matches env (VStr name) (mf_name m))
                         (manufacturers w))).
    { apply filter_In. split; [exact Hxin|]. now apply name_matches. }
    now rewrite Hnone in Hf.
  - rewrite Hone. exists m, false, w. repeat split; assumption.
Qed.

(** X19. The device-type job registers the manufacturer of the file before it
    imports, and the import never removes it: however the job ends, the
    manufacturer named in the file is registered afterwards, and the names
    are still unique. *)
Theorem device_type_job_registers_manufacturer (env : Collaborators)
  (prov : Provisioning) (filename : pystr) (s : site) (r : DeviceTypeImport)
  (name : pystr)
  (Hname : filename <> [])
  (Hfiles : NoDup (map dti_filename (device_type_imports s)))
  (Hfile : In r (device_type_imports s))
  (Hfilename : dti_filename r = filename)
  (Hunique : NoDup (map mf_name (manufacturers (db s))))
  (Hmanufacturer : dict_get (lit "manufacturer") (device_type_data r) = VStr name)
  (Hinsert : manufacturer_create_error prov name (db s) = None) :
  let s' := snd (WelcomeWizardImportDeviceType_run env prov filename s) in
  (exists m, In m (manufacturers (db s')) /\ mf_name m = name)
  /\ NoDup (map mf_name (manufacturers (db s'))).
Proof.
  unfold WelcomeWizardImportDeviceType_run.
  assert (Hdt : match filename with [] => lit "none.yaml" | _ => filename end = filename)
    by now destruct filename.
  rewrite Hdt.
  rewrite (find_unique_key dti_filename _ r); [|exact Hfiles|exact Hfile|].
  2:{ intros y. rewrite eqb_eq, Hfilename. split; congruence. }
  rewrite Hmanufacturer.
  destruct (update_or_create_provisions env prov name (db s) Hunique Hinsert)
    as (m & created & w1 & -> & Hin & Hm & Hnd).
  cbn [git_repositories set_db].
  assert (Himport : forall git_repo,
            manufacturers
              (snd (import_device_type_with_images env (device_type_data r) git_repo
                      (Some JobLogger) w1)) = manufacturers w1).
  { intros git_repo.
    apply (Keeps.nd_manufacturers
             (ImporterMore.import_never_deletes_all env (device_type_data r) git_repo
                (Some JobLogger) w1)). }
  assert (Hgoal : forall w2, manufacturers w2 = manufacturers w1 ->
            (exists m, In m (manufacturers w2) /\ mf_name m = name)
            /\ NoDup (map mf_name (manufacturers w2))).
  { intros w2 ->. split; [now exists m|exact Hnd]. }
  destruct (filter _ (git_repositories s)) as [|x [|y rows]]; cbn [snd db set_db job_log].
  - specialize (Himport None).
    destruct (import_device_type_with_images env (device_type_data r) None
                (Some JobLogger) w1) as [[dt|e] w2]; cbn [snd] in *.
    + now apply Hgoal.
    + destruct (is_ValueError e); now apply Hgoal.
  - specialize (Himport (Some (snd x))).
    destruct (import_device_type_with_images env (device_type_data r) (Some (snd x))
                (Some JobLogger) w1) as [[dt|e] w2]; cbn [snd] in *.
    + now apply Hgoal.
    + destruct (is_ValueError e); now apply Hgoal.
  - now apply Hgoal.
Qed.

Lemma device_type_job_registers_manufacturer_witness :
  (exists m, In m (manufacturers (db (snd (WelcomeWizardImportDeviceType_run
                Fixtures.calm JobFixtures.provisioning (lit "PA-850.yaml")
                JobFixtures.empty_site))))
             /\ mf_name m = lit "Palo Alto")
  /\ NoDup (map mf_name (manufacturers (db (snd (WelcomeWizardImportDeviceType_run
              Fixtures.calm JobFixtures.provisioning (lit "PA-850.yaml")
              JobFixtures.empty_site))))).
Proof.
  apply (@device_type_job_registers_manufacturer Fixtures.calm JobFixtures.provisioning
           (lit "PA-850.yaml") JobFixtures.empty_site JobFixtures.pa850_file
           (lit "Palo Alto")).
  - discriminate.
  - cbn. repeat constructor. cbn. tauto.
  - cbn. tauto.
  - reflexivity.
  - constructor.
  - reflexivity.
  - reflexivity.
Defined.

End JobFacts.
